(** * Campus laundry management: a shallow embedding of [app.py]

    The Flask application keeps four tables in one SQLite store and serves
    thirteen request handlers.  The tables are modelled as lists of rows in
    insertion order, the connection of a request as a committed store plus the
    connection's own view of it, and a handler as a computation in a small
    state-and-exception monad over the whole environment of a request (store,
    session, flashed messages, clock, injected store failures). *)

From Stdlib Require Import List String Ascii ZArith Bool Lia Arith.
From Stdlib Require Import Sorting.Permutation Sorting.Sorted.
Import ListNotations.
Local Open Scope string_scope.
Local Open Scope Z_scope.

Set Implicit Arguments.

(** ** Rows of the four tables ([init_db]) *)

(** A value as SQLite keeps it in a column of INTEGER affinity: an integer, or
    the text itself when the text does not convert. *)
Inductive sqlval : Type :=
| VInt (z : Z)
| VText (s : string).

(** Timestamps ([datetime.now()]) are integers ordered chronologically. *)
Definition Timestamp := Z.

Record Student : Type := mkStudent {
  s_id : Z;
  s_full_name : string;
  s_password : string;
  s_room_number : string;
  s_gender : string
}.

Record Laundry : Type := mkLaundry {
  l_id : Z;
  l_student_id : Z;
  l_status : string;
  l_date_submitted : Timestamp;
  l_notification_sent : bool
}.

Record Complaint : Type := mkComplaint {
  c_id : Z;
  c_student_id : Z;
  c_laundry_id : sqlval;
  c_description : string;
  c_status : string;
  c_date_submitted : Timestamp;
  c_admin_response : option string;
  c_date_resolved : option Timestamp
}.

Record Notification : Type := mkNotification {
  n_id : Z;
  n_student_id : Z;
  n_message : string;
  n_date_created : Timestamp;
  n_is_read : bool
}.

Record Store : Type := mkStore {
  students : list Student;
  laundry : list Laundry;
  complaints : list Complaint;
  notifications : list Notification
}.

Definition empty_store : Store := mkStore [] [] [] [].

(** ** Session, responses, exceptions *)

(** The two identity keys of the Flask session; [None] is "key absent". *)
Record Session : Type := mkSession {
  user_id : option Z;
  is_admin : option bool
}.

Definition anonymous : Session := mkSession None None.

Inductive endpoint : Type :=
| ep_home
| ep_login
| ep_student_dashboard
| ep_admin_dashboard.

Inductive HttpResponse : Type :=
| Redirect (target : endpoint)
| RenderIndex
| RenderLogin
| RenderRegister
| RenderStudentDashboard (student : option Student)
    (laundry_items : list Laundry) (unread : list Notification)
    (own_complaints : list Complaint)
| RenderAdminDashboard (laundry_items : list (Laundry * Student))
    (all_complaints : list (Complaint * Student * Laundry))
    (search_query : string).

(** [IntegrityError] and [OperationalError] are subclasses of
    [sqlite3.Error]; [TypeError] is not. *)
Inductive exn : Type :=
| IntegrityError (msg : string)
| OperationalError (msg : string)
| TypeError (msg : string).

Definition str (e : exn) : string :=
  match e with
  | IntegrityError m | OperationalError m | TypeError m => m
  end.

Definition is_sqlite_error (e : exn) : bool :=
  match e with
  | IntegrityError _ | OperationalError _ => true
  | TypeError _ => false
  end.

Definition is_integrity_error (e : exn) : bool :=
  match e with
  | IntegrityError _ => true
  | _ => false
  end.

(** ** The environment of a request *)

Record World : Type := mkWorld {
  w_db : Store;                     (* what is committed *)
  w_view : Store;                   (* what the request's connection sees *)
  w_in_txn : bool;                  (* a transaction is open on the connection *)
  w_log : list Store;               (* every store a commit made durable, oldest first *)
  w_session : Session;
  w_flashes : list string;          (* the messages flashed so far, oldest first *)
  w_tick : nat;                     (* how many times the clock was read *)
  w_clock : nat -> Timestamp;       (* what the k-th reading of the clock gives *)
  w_ops : nat;                      (* how many store operations were attempted *)
  w_fault : nat -> option string    (* the k-th store operation fails with this message *)
}.

Definition set_conn (db view : Store) (txn : bool) (log : list Store) (w : World) : World :=
  mkWorld db view txn log (w_session w) (w_flashes w) (w_tick w) (w_clock w)
          (w_ops w) (w_fault w).

Definition set_session (s : Session) (w : World) : World :=
  mkWorld (w_db w) (w_view w) (w_in_txn w) (w_log w) s (w_flashes w) (w_tick w)
          (w_clock w) (w_ops w) (w_fault w).

Definition set_flashes (f : list string) (w : World) : World :=
  mkWorld (w_db w) (w_view w) (w_in_txn w) (w_log w) (w_session w) f (w_tick w)
          (w_clock w) (w_ops w) (w_fault w).

Definition set_tick (t : nat) (w : World) : World :=
  mkWorld (w_db w) (w_view w) (w_in_txn w) (w_log w) (w_session w) (w_flashes w) t
          (w_clock w) (w_ops w) (w_fault w).

Definition set_ops (k : nat) (w : World) : World :=
  mkWorld (w_db w) (w_view w) (w_in_txn w) (w_log w) (w_session w) (w_flashes w)
          (w_tick w) (w_clock w) k (w_fault w).

(** ** The monad of handlers *)

Inductive res (A : Type) : Type :=
| Ret (a : A)
| Raise (e : exn).
Arguments Raise {A} e.

Definition M (A : Type) : Type := World -> res A * World.

Definition ret {A} (a : A) : M A := fun w => (Ret a, w).

Definition raise {A} (e : exn) : M A := fun w => (Raise e, w).

Definition bind {A B} (m : M A) (k : A -> M B) : M B :=
  fun w =>
    match m w with
    | (Ret a, w1) => k a w1
    | (Raise e, w1) => (Raise e, w1)
    end.

Declare Scope handler_scope.
Delimit Scope handler_scope with handler.
Notation "x <- m ;; k" := (bind m (fun x => k))
  (at level 61, m at next level, right associativity) : handler_scope.
Notation "m ;; k" := (bind m (fun _ => k))
  (at level 61, right associativity) : handler_scope.
Local Open Scope handler_scope.

(** [try: m  except <class> as e: h e]: [h] says which exceptions it
    catches; the others propagate. *)
Definition try_except {A} (m : M A) (h : exn -> option (M A)) : M A :=
  fun w =>
    match m w with
    | (Ret a, w1) => (Ret a, w1)
    | (Raise e, w1) =>
        match h e with
        | Some k => k w1
        | None => (Raise e, w1)
        end
    end.

Definition except_sqlite_Error {A} (k : exn -> M A) (e : exn) : option (M A) :=
  if is_sqlite_error e then Some (k e) else None.

(** ** Flask collaborators *)

Definition flash (msg : string) : M unit :=
  fun w => (Ret tt, set_flashes (w_flashes w ++ [msg]) w).

Definition get_session : M Session := fun w => (Ret (w_session w), w).

Definition session_set_user_id (id : Z) : M unit :=
  fun w => (Ret tt, set_session (mkSession (Some id) (is_admin (w_session w))) w).

Definition session_set_is_admin (b : bool) : M unit :=
  fun w => (Ret tt, set_session (mkSession (user_id (w_session w)) (Some b)) w).

Definition session_clear : M unit :=
  fun w => (Ret tt, set_session anonymous w).

(** [datetime.now()] *)
Definition datetime_now : M Timestamp :=
  fun w => (Ret (w_clock w (w_tick w)), set_tick (S (w_tick w)) w).

(** ** The connection ([sqlite3], one connection per request) *)

(** The next store operation: whether it fails, and the operation counted. *)
Definition next_fault : M (option string) :=
  fun w => (Ret (w_fault w (w_ops w)), set_ops (S (w_ops w)) w).

(** [conn.commit()]: nothing to do outside a transaction; inside one, the
    view becomes durable, unless the store fails, and then the transaction
    stays open. *)
Definition commit : M unit :=
  fun w =>
    if w_in_txn w then
      match next_fault w with
      | (Ret (Some msg), w1) => (Raise (OperationalError msg), w1)
      | (_, w1) =>
          (Ret tt, set_conn (w_view w1) (w_view w1) false (w_log w1 ++ [w_view w1]) w1)
      end
    else (Ret tt, w).

(** [conn.rollback()] *)
Definition rollback : M unit :=
  fun w => (Ret tt, set_conn (w_db w) (w_db w) false (w_log w) w).

(** [c.execute] of an INSERT or UPDATE: the module opens a transaction first;
    the statement fails as a whole or applies as a whole. *)
Definition execute_dml (stmt : Store -> exn + Store) : M unit :=
  fun w =>
    let w0 := set_conn (w_db w) (w_view w) true (w_log w) w in
    match next_fault w0 with
    | (Ret (Some msg), w1) => (Raise (OperationalError msg), w1)
    | (_, w1) =>
        match stmt (w_view w1) with
        | inl e => (Raise e, w1)
        | inr st => (Ret tt, set_conn (w_db w1) st true (w_log w1) w1)
        end
    end.

(** [c.execute] of a SELECT; the rows are what [fetchall] will give. *)
Definition execute_select {A} (query : Store -> list A) : M (list A) :=
  fun w =>
    match next_fault w with
    | (Ret (Some msg), w1) => (Raise (OperationalError msg), w1)
    | (_, w1) => (Ret (query (w_view w1)), w1)
    end.

Definition fetchone {A} (rows : list A) : option A := hd_error rows.

(** [row[0]] on what [fetchone] gave *)
Definition subscript0 {A B} (row : option A) (col0 : A -> B) : M B :=
  match row with
  | Some r => ret (col0 r)
  | None => raise (TypeError "'NoneType' object is not subscriptable")
  end.

(** [with get_db_cursor() as c: body] *)
Definition get_db_cursor {A} (body : M A) : M A :=
  fun w =>
    match body w with
    | (Ret a, w1) =>
        match commit w1 with
        | (Ret _, w2) => (Ret a, w2)
        | (Raise e, w2) => (Raise e, snd (rollback w2))
        end
    | (Raise e, w1) => (Raise e, snd (rollback w1))
    end.

(** ** The SQL statements of the handlers *)

(** The rowid SQLite gives a new row of an INTEGER PRIMARY KEY table: one more
    than the largest in use, 1 in an empty table. *)
Definition next_rowid (ids : list Z) : Z := 1 + fold_right Z.max 0 ids.

(** [x NOT IN (v1, ..., vn)] on text *)
Definition not_in (x : string) (vs : list string) : bool :=
  negb (existsb (String.eqb x) vs).

(** [SELECT COUNT( * ) FROM laundry WHERE student_id = ?
     AND status NOT IN ('collected', 'complete')] *)
Definition select_count_active (student_id : Z) (st : Store) : list Z :=
  [Z.of_nat (List.length (filter
     (fun l => (l_student_id l =? student_id)
               && not_in (l_status l) ["collected"; "complete"])
     (laundry st)))].

(** [INSERT INTO notifications (student_id, message, date_created)];
    [is_read] takes the column's DEFAULT 0. *)
Definition insert_notification (student_id : Z) (message : string)
    (date_created : Timestamp) (st : Store) : exn + Store :=
  inr (mkStore (students st) (laundry st) (complaints st)
         (notifications st ++
          [mkNotification (next_rowid (map n_id (notifications st)))
             student_id message date_created false])).

(** [SELECT * FROM students WHERE full_name = ? AND password = ?] *)
Definition select_student_by_credentials (full_name password : string)
    (st : Store) : list Student :=
  filter (fun s => String.eqb (s_full_name s) full_name
                   && String.eqb (s_password s) password)
         (students st).

(** [INSERT INTO students (full_name, password, room_number, gender)];
    [full_name] is UNIQUE. *)
Definition insert_student (full_name password room_number gender : string)
    (st : Store) : exn + Store :=
  if existsb (fun s => String.eqb (s_full_name s) full_name) (students st)
  then inl (IntegrityError "UNIQUE constraint failed: students.full_name")
  else inr (mkStore
              (students st ++
               [mkStudent (next_rowid (map s_id (students st)))
                  full_name password room_number gender])
              (laundry st) (complaints st) (notifications st)).

(** [ORDER BY key DESC], rows of equal key in the order the scan gives them *)
Fixpoint insert_desc {A} (key : A -> Z) (x : A) (l : list A) : list A :=
  match l with
  | [] => [x]
  | y :: l' => if key y <=? key x then x :: l else y :: insert_desc key x l'
  end.

Definition order_by_desc {A} (key : A -> Z) (rows : list A) : list A :=
  fold_right (insert_desc key) [] rows.

(** [SELECT * FROM students WHERE id = ?] *)
Definition select_student_by_id (id : Z) (st : Store) : list Student :=
  filter (fun s => s_id s =? id) (students st).

(** [SELECT * FROM laundry WHERE student_id = ? ORDER BY date_submitted DESC] *)
Definition select_laundry_of (student_id : Z) (st : Store) : list Laundry :=
  order_by_desc l_date_submitted
    (filter (fun l => l_student_id l =? student_id) (laundry st)).

(** [SELECT * FROM notifications WHERE student_id = ? AND is_read = 0
     ORDER BY date_created DESC] *)
Definition select_unread_of (student_id : Z) (st : Store) : list Notification :=
  order_by_desc n_date_created
    (filter (fun n => (n_student_id n =? student_id) && negb (n_is_read n))
            (notifications st)).

(** [SELECT * FROM complaints WHERE student_id = ? ORDER BY date_submitted DESC] *)
Definition select_complaints_of (student_id : Z) (st : Store) : list Complaint :=
  order_by_desc c_date_submitted
    (filter (fun c => c_student_id c =? student_id) (complaints st)).

(** [INSERT INTO laundry (student_id, status, date_submitted)
     VALUES (?, 'pending', ?)]; [notification_sent] takes DEFAULT 0. *)
Definition insert_laundry (student_id : Z) (date_submitted : Timestamp)
    (st : Store) : exn + Store :=
  inr (mkStore (students st)
         (laundry st ++
          [mkLaundry (next_rowid (map l_id (laundry st))) student_id "pending"
             date_submitted false])
         (complaints st) (notifications st)).

(** [UPDATE notifications SET is_read = 1 WHERE id = ?] *)
Definition update_notification_read (notification_id : Z) (st : Store) : exn + Store :=
  inr (mkStore (students st) (laundry st) (complaints st)
         (map (fun n => if n_id n =? notification_id
                        then mkNotification (n_id n) (n_student_id n) (n_message n)
                               (n_date_created n) true
                        else n)
              (notifications st))).

(** SQLite's LIKE with no ESCAPE: [%] any run of characters, [_] any one
    character, every other character itself, the letters A-Z and a-z without
    regard to case.  A [string] stands for the text's characters. *)
Definition tolower (c : ascii) : ascii :=
  let n := nat_of_ascii c in
  if ((65 <=? n) && (n <=? 90))%nat then ascii_of_nat (n + 32) else c.

Fixpoint like (pattern : string) : string -> bool :=
  match pattern with
  | EmptyString =>
      fun s => match s with EmptyString => true | String _ _ => false end
  | String c p =>
      if Ascii.eqb c "%" then
        fix any_run (s : string) : bool :=
          like p s
          || match s with
             | EmptyString => false
             | String _ s' => any_run s'
             end
      else if Ascii.eqb c "_" then
        fun s => match s with
                 | EmptyString => false
                 | String _ s' => like p s'
                 end
      else
        fun s => match s with
                 | EmptyString => false
                 | String d s' => Ascii.eqb (tolower c) (tolower d) && like p s'
                 end
  end.

(** [FROM laundry l JOIN students s ON l.student_id = s.id] *)
Definition laundry_join_students (st : Store) : list (Laundry * Student) :=
  flat_map (fun l => map (pair l)
                       (filter (fun s => s_id s =? l_student_id l) (students st)))
           (laundry st).

(** [SELECT l.*, s.full_name, s.room_number, s.gender FROM laundry l
     JOIN students s ON l.student_id = s.id
     ORDER BY l.date_submitted DESC] *)
Definition select_laundry_items (st : Store) : list (Laundry * Student) :=
  order_by_desc (fun r => l_date_submitted (fst r)) (laundry_join_students st).

(** The same with [WHERE s.full_name LIKE ?] *)
Definition select_laundry_items_like (pattern : string) (st : Store)
    : list (Laundry * Student) :=
  order_by_desc (fun r => l_date_submitted (fst r))
    (filter (fun r => like pattern (s_full_name (snd r)))
            (laundry_join_students st)).

(** [c.laundry_id = l.id]: a text that did not convert equals no integer. *)
Definition sqlval_eq_int (v : sqlval) (z : Z) : bool :=
  match v with
  | VInt x => x =? z
  | VText _ => false
  end.

(** [SELECT c.*, s.full_name, l.date_submitted as laundry_date
     FROM complaints c JOIN students s ON c.student_id = s.id
     JOIN laundry l ON c.laundry_id = l.id
     ORDER BY c.date_submitted DESC] *)
Definition select_all_complaints (st : Store) : list (Complaint * Student * Laundry) :=
  order_by_desc (fun r => c_date_submitted (fst (fst r)))
    (flat_map
       (fun c =>
          flat_map
            (fun s =>
               map (fun l => (c, s, l))
                   (filter (fun l => sqlval_eq_int (c_laundry_id c) (l_id l))
                           (laundry st)))
            (filter (fun s => s_id s =? c_student_id c) (students st)))
       (complaints st)).

(** [UPDATE laundry SET status = ? WHERE id = ?] *)
Definition update_laundry_status (new_status : string) (laundry_id : Z)
    (st : Store) : exn + Store :=
  inr (mkStore (students st)
         (map (fun l => if l_id l =? laundry_id
                        then mkLaundry (l_id l) (l_student_id l) new_status
                               (l_date_submitted l) (l_notification_sent l)
                        else l)
              (laundry st))
         (complaints st) (notifications st)).

(** [SELECT student_id FROM laundry WHERE id = ?] *)
Definition select_laundry_owner (laundry_id : Z) (st : Store) : list Z :=
  map l_student_id (filter (fun l => l_id l =? laundry_id) (laundry st)).

(** [UPDATE complaints SET status = 'resolved', admin_response = ?,
     date_resolved = ? WHERE id = ?] *)
Definition update_complaint_resolved (response : string) (date_resolved : Timestamp)
    (complaint_id : Z) (st : Store) : exn + Store :=
  inr (mkStore (students st) (laundry st)
         (map (fun c => if c_id c =? complaint_id
                        then mkComplaint (c_id c) (c_student_id c) (c_laundry_id c)
                               (c_description c) "resolved" (c_date_submitted c)
                               (Some response) (Some date_resolved)
                        else c)
              (complaints st))
         (notifications st)).

(** [SELECT student_id FROM complaints WHERE id = ?] *)
Definition select_complaint_student (complaint_id : Z) (st : Store) : list Z :=
  map c_student_id (filter (fun c => c_id c =? complaint_id) (complaints st)).

(** ** The helpers and the handlers *)

Definition count_active_laundry (student_id : Z) : M Z :=
  get_db_cursor
    (rows <- execute_select (select_count_active student_id) ;;
     subscript0 (fetchone rows) (fun n => n)).

Definition create_notification (student_id : Z) (message : string) : M unit :=
  get_db_cursor
    (now <- datetime_now ;;
     execute_dml (insert_notification student_id message now)).

Definition home : M HttpResponse :=
  s <- get_session ;;
  match user_id s with
  | Some _ =>
      match is_admin s with
      | Some true => ret (Redirect ep_admin_dashboard)
      | _ => ret (Redirect ep_student_dashboard)
      end
  | None => ret RenderIndex
  end.

(** [form] is [None] for a GET, the two fields for a POST. *)
Definition login (form : option (string * string)) : M HttpResponse :=
  match form with
  | Some (full_name, password) =>
      if String.eqb full_name "admin" && String.eqb password "admin123" then
        session_set_is_admin true ;;
        ret (Redirect ep_admin_dashboard)
      else
        returned <-
          try_except
            (get_db_cursor
               (rows <- execute_select
                          (select_student_by_credentials full_name password) ;;
                match fetchone rows with
                | Some student =>
                    session_set_user_id (s_id student) ;;
                    ret (Some (Redirect ep_student_dashboard))
                | None =>
                    flash "Invalid credentials!" ;;
                    ret None
                end))
            (except_sqlite_Error
               (fun e => flash ("Database error: " ++ str e) ;; ret None)) ;;
        match returned with
        | Some r => ret r
        | None => ret RenderLogin
        end
  | None => ret RenderLogin
  end.

Definition register (form : option (string * string * string * string)) : M HttpResponse :=
  match form with
  | Some (full_name, password, room_number, gender) =>
      returned <-
        try_except
          (get_db_cursor
             (execute_dml (insert_student full_name password room_number gender) ;;
              flash "Registration successful! Please login." ;;
              ret (Some (Redirect ep_login))))
          (fun e =>
             if is_integrity_error e then
               Some (flash "Student already registered!" ;; ret None)
             else
               except_sqlite_Error
                 (fun e => flash ("Database error: " ++ str e) ;; ret None) e) ;;
      match returned with
      | Some r => ret r
      | None => ret RenderRegister
      end
  | None => ret RenderRegister
  end.

Definition student_dashboard : M HttpResponse :=
  s <- get_session ;;
  match user_id s with
  | None => ret (Redirect ep_login)
  | Some student_id =>
      try_except
        (get_db_cursor
           (rows <- execute_select (select_student_by_id student_id) ;;
            laundry_items <- execute_select (select_laundry_of student_id) ;;
            unread <- execute_select (select_unread_of student_id) ;;
            own <- execute_select (select_complaints_of student_id) ;;
            ret (RenderStudentDashboard (fetchone rows) laundry_items unread own)))
        (except_sqlite_Error
           (fun e => flash ("Database error: " ++ str e) ;; ret (Redirect ep_home)))
  end.

Definition submit_laundry : M HttpResponse :=
  s <- get_session ;;
  match user_id s with
  | None => ret (Redirect ep_login)
  | Some student_id =>
      active_count <- count_active_laundry student_id ;;
      if 2 <=? active_count then
        flash "You have reached the maximum limit of active laundry bags!" ;;
        ret (Redirect ep_student_dashboard)
      else
        try_except
          (get_db_cursor
             (now <- datetime_now ;;
              execute_dml (insert_laundry student_id now) ;;
              flash "Laundry submitted successfully!"))
          (except_sqlite_Error
             (fun e => flash ("Error submitting laundry: " ++ str e))) ;;
        ret (Redirect ep_student_dashboard)
  end.

Definition mark_notification_read (notification_id : Z) : M HttpResponse :=
  s <- get_session ;;
  match user_id s with
  | None => ret (Redirect ep_login)
  | Some _ =>
      try_except
        (get_db_cursor (execute_dml (update_notification_read notification_id)))
        (except_sqlite_Error
           (fun e => flash ("Error marking notification as read: " ++ str e))) ;;
      ret (Redirect ep_student_dashboard)
  end.

Definition admin_dashboard (search_query : string) : M HttpResponse :=
  s <- get_session ;;
  match is_admin s with
  | None => ret (Redirect ep_login)
  | Some _ =>
      try_except
        (get_db_cursor
           (laundry_items <-
              (if String.eqb search_query "" then
                 execute_select select_laundry_items
               else
                 execute_select
                   (select_laundry_items_like ("%" ++ search_query ++ "%"))) ;;
            all_complaints <- execute_select select_all_complaints ;;
            ret (RenderAdminDashboard laundry_items all_complaints search_query)))
        (except_sqlite_Error
           (fun e => flash ("Database error: " ++ str e) ;; ret (Redirect ep_home)))
  end.

Definition update_status (laundry_id : Z) (new_status : string) : M HttpResponse :=
  s <- get_session ;;
  match is_admin s with
  | None => ret (Redirect ep_login)
  | Some _ =>
      try_except
        (get_db_cursor
           (execute_dml (update_laundry_status new_status laundry_id) ;;
            (if String.eqb new_status "complete" then
               rows <- execute_select (select_laundry_owner laundry_id) ;;
               student_id <- subscript0 (fetchone rows) (fun n => n) ;;
               create_notification student_id "Your laundry is ready for collection!"
             else ret tt) ;;
            flash ("Status updated to " ++ new_status ++ "!")))
        (except_sqlite_Error
           (fun e => flash ("Error updating status: " ++ str e))) ;;
      ret (Redirect ep_admin_dashboard)
  end.

Definition resolve_complaint (complaint_id : Z) (response : string) : M HttpResponse :=
  s <- get_session ;;
  match is_admin s with
  | None => ret (Redirect ep_login)
  | Some _ =>
      try_except
        (get_db_cursor
           (now <- datetime_now ;;
            execute_dml (update_complaint_resolved response now complaint_id) ;;
            rows <- execute_select (select_complaint_student complaint_id) ;;
            student_id <- subscript0 (fetchone rows) (fun n => n) ;;
            create_notification student_id
              ("Your complaint has been resolved. Response: " ++ response) ;;
            flash "Complaint resolved successfully!"))
        (except_sqlite_Error
           (fun e => flash ("Error resolving complaint: " ++ str e))) ;;
      ret (Redirect ep_admin_dashboard)
  end.

Definition logout : M HttpResponse :=
  session_clear ;;
  ret (Redirect ep_home).

Section Handlers.

(** What SQLite stores when the text of a form field is bound to a column of
    INTEGER affinity ([complaints.laundry_id]). *)
Variable integer_affinity : string -> sqlval.

(** [INSERT INTO complaints (student_id, laundry_id, description, date_submitted)];
    [status] takes DEFAULT 'pending', the two resolution columns are NULL. *)
Definition insert_complaint (student_id : Z) (laundry_id description : string)
    (date_submitted : Timestamp) (st : Store) : exn + Store :=
  inr (mkStore (students st) (laundry st)
         (complaints st ++
          [mkComplaint (next_rowid (map c_id (complaints st))) student_id
             (integer_affinity laundry_id) description "pending" date_submitted
             None None])
         (notifications st)).

Definition submit_complaint (laundry_id description : string) : M HttpResponse :=
  s <- get_session ;;
  match user_id s with
  | None => ret (Redirect ep_login)
  | Some student_id =>
      try_except
        (get_db_cursor
           (now <- datetime_now ;;
            execute_dml (insert_complaint student_id laundry_id description now) ;;
            flash "Complaint submitted successfully!"))
        (except_sqlite_Error
           (fun e => flash ("Error submitting complaint: " ++ str e))) ;;
      ret (Redirect ep_student_dashboard)
  end.

(** ** Requests *)

Inductive Request : Type :=
| GetHome
| GetLogin
| PostLogin (full_name password : string)
| GetRegister
| PostRegister (full_name password room_number gender : string)
| GetStudentDashboard
| PostSubmitLaundry
| PostSubmitComplaint (laundry_id description : string)
| GetMarkNotificationRead (notification_id : Z)
| GetAdminDashboard (search : string)
| PostUpdateStatus (laundry_id : Z) (status : string)
| PostResolveComplaint (complaint_id : Z) (response : string)
| GetLogout.

(** The routes. *)
Definition handle (r : Request) : M HttpResponse :=
  match r with
  | GetHome => home
  | GetLogin => login None
  | PostLogin full_name password => login (Some (full_name, password))
  | GetRegister => register None
  | PostRegister full_name password room_number gender =>
      register (Some (full_name, password, room_number, gender))
  | GetStudentDashboard => student_dashboard
  | PostSubmitLaundry => submit_laundry
  | PostSubmitComplaint laundry_id description =>
      submit_complaint laundry_id description
  | GetMarkNotificationRead notification_id =>
      mark_notification_read notification_id
  | GetAdminDashboard search => admin_dashboard search
  | PostUpdateStatus laundry_id status => update_status laundry_id status
  | PostResolveComplaint complaint_id response =>
      resolve_complaint complaint_id response
  | GetLogout => logout
  end.

(** What the client gets: the handler's response, or the framework's fault
    page when the handler let an exception escape. *)
Inductive outcome : Type :=
| Response (r : HttpResponse)
| Fault (e : exn).

(** [get_db]: the request's connection, opened on the committed store. *)
Definition get_db (w : World) : World :=
  set_conn (w_db w) (w_db w) false (w_log w) w.

(** [close_db] at teardown: what was not committed is lost. *)
Definition close_db (w : World) : World :=
  set_conn (w_db w) (w_db w) false (w_log w) w.

(** One request, from the connection's opening to the teardown. *)
Definition serve (r : Request) (w : World) : outcome * World :=
  match handle r (get_db w) with
  | (Ret resp, w1) => (Response resp, close_db w1)
  | (Raise e, w1) => (Fault e, close_db w1)
  end.

End Handlers.

(** ** What the specification calls things *)

(** An active bag: its status is neither 'collected' nor 'complete'. *)
Definition is_active (b : Laundry) : Prop :=
  l_status b <> "collected" /\ l_status b <> "complete".

Definition is_activeb (b : Laundry) : bool :=
  negb (String.eqb (l_status b) "collected")
  && negb (String.eqb (l_status b) "complete").

(** The number of active bags of a student among [bags]. *)
Fixpoint active_bags (student_id : Z) (bags : list Laundry) : nat :=
  match bags with
  | [] => 0
  | b :: rest =>
      if (l_student_id b =? student_id) && is_activeb b
      then S (active_bags student_id rest)
      else active_bags student_id rest
  end.

(** No store operation of the request fails. *)
Definition quiet (w : World) : Prop := forall k, w_fault w k = None.

Definition limit_message : string :=
  "You have reached the maximum limit of active laundry bags!".

Definition ready_message : string := "Your laundry is ready for collection!".

(** The bag with its status replaced. *)
Definition with_status (status : string) (b : Laundry) : Laundry :=
  mkLaundry (l_id b) (l_student_id b) status (l_date_submitted b)
            (l_notification_sent b).

(** The store once bag [laundry_id] is 'complete' and its owner notified at
    time [now]. *)
Definition completed_store (st : Store) (laundry_id owner : Z) (now : Timestamp) : Store :=
  mkStore (students st)
    (map (fun l => if l_id l =? laundry_id then with_status "complete" l else l)
         (laundry st))
    (complaints st)
    (notifications st ++
     [mkNotification (next_rowid (map n_id (notifications st))) owner
        ready_message now false]).

Definition status_message (status : string) : string :=
  "Status updated to " ++ status ++ "!".

(** The handlers of a logged-in student, and those of the administrator. *)
Definition student_only (r : Request) : bool :=
  match r with
  | GetStudentDashboard | PostSubmitLaundry | PostSubmitComplaint _ _
  | GetMarkNotificationRead _ => true
  | _ => false
  end.

Definition admin_only (r : Request) : bool :=
  match r with
  | GetAdminDashboard _ | PostUpdateStatus _ _ | PostResolveComplaint _ _ => true
  | _ => false
  end.

(** How many student rows carry [full_name]. *)
Definition rows_named (full_name : string) (st : Store) : nat :=
  List.length (filter (fun s => String.eqb (s_full_name s) full_name) (students st)).

Definition name_taken (full_name : string) (st : Store) : bool :=
  existsb (fun s => String.eqb (s_full_name s) full_name) (students st).

(** The complaint once resolved with [response] at time [now]. *)
Definition resolved (response : string) (now : Timestamp) (c : Complaint) : Complaint :=
  mkComplaint (c_id c) (c_student_id c) (c_laundry_id c) (c_description c)
    "resolved" (c_date_submitted c) (Some response) (Some now).

Definition resolution_message (response : string) : string :=
  "Your complaint has been resolved. Response: " ++ response.

(** The unread notification that [create_notification] appends to [rows]. *)
Definition new_notification (rows : list Notification) (student_id : Z)
    (message : string) (now : Timestamp) : Notification :=
  mkNotification (next_rowid (map n_id rows)) student_id message now false.

(** The fixed pair that opens the administrator's session. *)
Definition is_sentinel (full_name password : string) : Prop :=
  full_name = "admin" /\ password = "admin123".

(** A student row with exactly this full_name and password. *)
Definition has_credentials (full_name password : string) (s : Student) : Prop :=
  s_full_name s = full_name /\ s_password s = password.

(** [q] begins [s], the letters A-Z and a-z compared without regard to case. *)
Fixpoint prefix_ci (q s : string) : bool :=
  match q, s with
  | EmptyString, _ => true
  | String _ _, EmptyString => false
  | String c q', String d s' => Ascii.eqb (tolower c) (tolower d) && prefix_ci q' s'
  end.

(** [q] occurs in [s] as a substring, case disregarded in the same way. *)
Fixpoint contains_cib (q s : string) : bool :=
  prefix_ci q s
  || match s with
     | EmptyString => false
     | String _ s' => contains_cib q s'
     end.

Fixpoint lower (s : string) : string :=
  match s with
  | EmptyString => EmptyString
  | String c s' => String (tolower c) (lower s')
  end.

Definition contains_ci (q s : string) : Prop :=
  exists before mid rest, s = before ++ mid ++ rest /\ lower mid = lower q.

(** No character of [q] is one of LIKE's two wildcards. *)
Fixpoint wildcard_free (q : string) : bool :=
  match q with
  | EmptyString => true
  | String c q' => negb (Ascii.eqb c "%") && negb (Ascii.eqb c "_") && wildcard_free q'
  end.

Definition newest_first {A} (key : A -> Z) (rows : list A) : Prop :=
  StronglySorted (fun a b => key b <= key a) rows.

(** Student ids are unique and every bag's [student_id] is one of them. *)
Definition owners_known (st : Store) : Prop :=
  NoDup (map s_id (students st))
  /\ forall l, In l (laundry st) -> In (l_student_id l) (map s_id (students st)).

(** Every notification that [st'] holds as read, [st] already held as read. *)
Definition no_new_read (st st' : Store) : Prop :=
  forall n, In n (notifications st') -> n_is_read n = true -> In n (notifications st).

(** Neither the committed store nor the connection's view holds a read
    notification that [base] did not hold. *)
Definition kept (base : Store) (w : World) : Prop :=
  no_new_read base (w_db w) /\ no_new_read base (w_view w).

(** [m] keeps the invariant [I], however it ends. *)
Definition preserves {A} (I : World -> Prop) (m : M A) : Prop :=
  forall w, I w -> I (snd (m w)).

(** A statement that marks nothing as read. *)
Definition marks_nothing (stmt : Store -> exn + Store) : Prop :=
  forall st st', stmt st = inr st' -> no_new_read st st'.

(** An invariant that the bookkeeping of a request cannot break: flashing a
    message, reading the clock, counting a store operation, opening a
    transaction, committing the view, rolling back to the committed store. *)
Class Stable (I : World -> Prop) : Prop := {
  stable_flashes : forall w f, I w -> I (set_flashes f w);
  stable_tick : forall w t, I w -> I (set_tick t w);
  stable_ops : forall w k, I w -> I (set_ops k w);
  stable_begin : forall w, I w -> I (set_conn (w_db w) (w_view w) true (w_log w) w);
  stable_commit :
    forall w, I w ->
      I (set_conn (w_view w) (w_view w) false (w_log w ++ [w_view w])%list w);
  stable_rollback : forall w, I w -> I (set_conn (w_db w) (w_db w) false (w_log w) w)
}.

(** An invariant that does not look at the session. *)
Class SessionFree (I : World -> Prop) : Prop :=
  session_free : forall w s, I w -> I (set_session s w).

(** Applying [stmt] to the view keeps [I]. *)
Definition keeps_statement (I : World -> Prop) (stmt : Store -> exn + Store) : Prop :=
  forall w st', I w -> stmt (w_view w) = inr st' ->
    I (set_conn (w_db w) st' true (w_log w) w).

(** The constraints of the schema that the handlers rely on: student ids and
    full names are unique, and every bag's [student_id] is a student's id. *)
Definition ok_store (st : Store) : Prop :=
  owners_known st /\ NoDup (map s_full_name (students st)).

(** The student of the session, if there is one, is in the store. *)
Definition ok_session (st : Store) (s : Session) : Prop :=
  forall u, user_id s = Some u -> In u (map s_id (students st)).

(** Between two requests. *)
Definition well_formed (w : World) : Prop :=
  ok_store (w_db w) /\ ok_session (w_db w) (w_session w).

(** In the course of a request: the same of the committed store and of the
    connection's view. *)
Definition ok (w : World) : Prop :=
  ok_store (w_db w) /\ ok_store (w_view w)
  /\ ok_session (w_db w) (w_session w) /\ ok_session (w_view w) (w_session w).

(** The same, in the session of student [student_id]. *)
Definition ok_as (student_id : Z) (w : World) : Prop :=
  ok w /\ user_id (w_session w) = Some student_id.

(** A statement that keeps the constraints and removes no student. *)
Definition grows (stmt : Store -> exn + Store) : Prop :=
  forall st st', stmt st = inr st' -> ok_store st ->
    ok_store st' /\ incl (map s_id (students st)) (map s_id (students st')).

Section Claims.

Variable integer_affinity : string -> sqlval.

(** What C4 asks of update_status on a laundry id that is not in the store:
    a response instead of a fault, with a flashed message that reports the
    failure, and the store unchanged. *)
Definition reports_not_found (w : World) (laundry_id : Z) (status : string) : Prop :=
  let after := serve integer_affinity (PostUpdateStatus laundry_id status) w in
  (exists r msg,
      fst after = Response r
      /\ w_flashes (snd after) = (w_flashes w ++ [msg])%list
      /\ msg <> status_message status)
  /\ w_db (snd after) = w_db w.

(** What C9 says of a non-empty search: the rows shown are exactly the bags,
    each with its owner, whose owner's full_name contains the query. *)
Definition search_is_substring_filter (w : World) (query : string) : Prop :=
  forall items cs,
    fst (serve integer_affinity (GetAdminDashboard query) w)
      = Response (RenderAdminDashboard items cs query) ->
    forall l s,
      In (l, s) items
      <-> In l (laundry (w_db w)) /\ In s (students (w_db w))
          /\ s_id s = l_student_id l /\ contains_ci query (s_full_name s).

End Claims.

(** ** What the handlers leave alone *)

(** The clock and the failures ahead of [w] are those of [w0]. *)
Definition same_oracles (w0 w : World) : Prop :=
  w_fault w = w_fault w0 /\ w_clock w = w_clock w0.

Definition same_session (s : Session) (w : World) : Prop := w_session w = s.

(** The requests whose handler writes to the session. *)
Definition writes_session (r : Request) : bool :=
  match r with
  | PostLogin _ _ | GetLogout => true
  | _ => false
  end.

(** ** What the other handlers write *)

(** The bag that [submit_laundry] appends to [rows]. *)
Definition new_bag (rows : list Laundry) (student_id : Z) (now : Timestamp) : Laundry :=
  mkLaundry (next_rowid (map l_id rows)) student_id "pending" now false.

Definition with_new_bag (st : Store) (student_id : Z) (now : Timestamp) : Store :=
  mkStore (students st) (laundry st ++ [new_bag (laundry st) student_id now])
          (complaints st) (notifications st).

Definition submitted_message : string := "Laundry submitted successfully!".

Section Journeys.

Variable integer_affinity : string -> sqlval.

(** [n] submissions in a row from the same session. *)
Definition submit_times (n : nat) (w : World) : World :=
  Nat.iter n (fun w => snd (serve integer_affinity PostSubmitLaundry w)) w.

End Journeys.

Definition subscript_error : exn :=
  TypeError "'NoneType' object is not subscriptable".

(** The laundry table once every bag with id [laundry_id] has [status]. *)
Definition restatus (status : string) (laundry_id : Z) (rows : list Laundry)
    : list Laundry :=
  map (fun l => if l_id l =? laundry_id then with_status status l else l) rows.

(** 1 for an active bag of student [u], 0 otherwise. *)
Definition counts_for (u : Z) (b : Laundry) : nat :=
  if (l_student_id b =? u) && is_activeb b then 1%nat else 0%nat.

(** The store once complaint [complaint_id] is resolved at time [now] and
    its student notified at time [later]. *)
Definition resolved_store (st : Store) (complaint_id student : Z) (response : string)
    (now later : Timestamp) : Store :=
  mkStore (students st) (laundry st)
    (map (fun c => if c_id c =? complaint_id then resolved response now c else c)
         (complaints st))
    (notifications st ++
     [new_notification (notifications st) student (resolution_message response) later]).

(** The notification once read. *)
Definition mark_read (n : Notification) : Notification :=
  mkNotification (n_id n) (n_student_id n) (n_message n) (n_date_created n) true.

(** The notifications once every one with id [notification_id] is read. *)
Definition marked (notification_id : Z) (rows : list Notification) : list Notification :=
  map (fun n => if n_id n =? notification_id then mark_read n else n) rows.

(** The complaint that [submit_complaint] appends to [rows]. *)
Definition new_complaint (rows : list Complaint) (student_id : Z) (laundry_ref : sqlval)
    (description : string) (now : Timestamp) : Complaint :=
  mkComplaint (next_rowid (map c_id rows)) student_id laundry_ref description
    "pending" now None None.

(** Another browser: the same world seen from the session [s]. *)
Definition in_session (s : Session) (w : World) : World := set_session s w.

(** ** What no request undoes *)

(** [l'] is [l] with rows added at the end. *)
Definition prefix_of {A} (l l' : list A) : Prop := exists added, l' = (l ++ added)%list.

(** What no statement of the handlers writes to, once the row is there. *)
Definition bag_facts (l : Laundry) : Z * Z * Timestamp :=
  (l_id l, l_student_id l, l_date_submitted l).

Definition complaint_facts (c : Complaint) : Z * Z * sqlval * string * Timestamp :=
  (c_id c, c_student_id c, c_laundry_id c, c_description c, c_date_submitted c).

Definition notification_facts (n : Notification) : Z * Z * string * Timestamp :=
  (n_id n, n_student_id n, n_message n, n_date_created n).

(** [st'] is [st] grown: every row of [st] is still there, in its place, the
    student rows whole and the other rows with the same facts. *)
Definition extends (st st' : Store) : Prop :=
  prefix_of (students st) (students st')
  /\ prefix_of (map bag_facts (laundry st)) (map bag_facts (laundry st'))
  /\ prefix_of (map complaint_facts (complaints st)) (map complaint_facts (complaints st'))
  /\ prefix_of (map notification_facts (notifications st))
               (map notification_facts (notifications st')).

Definition remembers (base : Store) (w : World) : Prop :=
  extends base (w_db w) /\ extends base (w_view w).

(** A statement that only adds rows or rewrites what may change. *)
Definition appends (stmt : Store -> exn + Store) : Prop :=
  forall st st', stmt st = inr st' -> extends st st'.

(** The ids of a table are those of different rows. *)
Definition keys_unique (st : Store) : Prop :=
  NoDup (map l_id (laundry st))
  /\ NoDup (map c_id (complaints st))
  /\ NoDup (map n_id (notifications st)).

Definition keyed (w : World) : Prop :=
  keys_unique (w_db w) /\ keys_unique (w_view w).

Definition keeps_keys (stmt : Store -> exn + Store) : Prop :=
  forall st st', stmt st = inr st' -> keys_unique st -> keys_unique st'.

(** ** The schema ([init_db]) *)

(** The database file: each of the four tables is absent or holds its rows. *)
Record Database : Type := mkDatabase {
  t_students : option (list Student);
  t_laundry : option (list Laundry);
  t_complaints : option (list Complaint);
  t_notifications : option (list Notification)
}.

(** The process at start-up: the file, what was printed, and which of the
    statements ahead fail. *)
Record Startup : Type := mkStartup {
  su_file : Database;
  su_printed : list string;
  su_ops : nat;
  su_fault : nat -> option string
}.

(** [CREATE TABLE IF NOT EXISTS]: an existing table is left as it is. *)
Definition create_if_not_exists {A} (t : option (list A)) : option (list A) :=
  match t with
  | Some rows => Some rows
  | None => Some []
  end.

Definition create_students (d : Database) : Database :=
  mkDatabase (create_if_not_exists (t_students d)) (t_laundry d) (t_complaints d)
             (t_notifications d).

Definition create_laundry (d : Database) : Database :=
  mkDatabase (t_students d) (create_if_not_exists (t_laundry d)) (t_complaints d)
             (t_notifications d).

Definition create_complaints (d : Database) : Database :=
  mkDatabase (t_students d) (t_laundry d) (create_if_not_exists (t_complaints d))
             (t_notifications d).

Definition create_notifications (d : Database) : Database :=
  mkDatabase (t_students d) (t_laundry d) (t_complaints d)
             (create_if_not_exists (t_notifications d)).

(** [c.execute] of a CREATE TABLE: the [sqlite3] module opens a transaction
    before an INSERT or UPDATE only, so the statement is durable as soon as it
    succeeds. *)
Definition execute_ddl (stmt : Database -> Database) (s : Startup) : res unit * Startup :=
  match su_fault s (su_ops s) with
  | Some msg =>
      (Raise (OperationalError msg),
       mkStartup (su_file s) (su_printed s) (S (su_ops s)) (su_fault s))
  | None =>
      (Ret tt, mkStartup (stmt (su_file s)) (su_printed s) (S (su_ops s)) (su_fault s))
  end.

Definition and_then (m k : Startup -> res unit * Startup) (s : Startup)
    : res unit * Startup :=
  match m s with
  | (Ret _, s1) => k s1
  | (Raise e, s1) => (Raise e, s1)
  end.

Definition print (line : string) (s : Startup) : Startup :=
  mkStartup (su_file s) (su_printed s ++ [line]) (su_ops s) (su_fault s).

(** [init_db]: the four statements; [conn.commit()] and, in the handler of
    the exception, [conn.rollback()] find no transaction open. *)
Definition init_db (s : Startup) : res unit * Startup :=
  match and_then (execute_ddl create_students)
          (and_then (execute_ddl create_laundry)
             (and_then (execute_ddl create_complaints)
                (execute_ddl create_notifications))) s with
  | (Ret _, s1) => (Ret tt, s1)
  | (Raise e, s1) => (Raise e, print ("Error initializing database: " ++ str e) s1)
  end.

(** The store of the handlers, when the four tables are there. *)
Definition tables (d : Database) : option Store :=
  match t_students d, t_laundry d, t_complaints d, t_notifications d with
  | Some s, Some l, Some c, Some n => Some (mkStore s l c n)
  | _, _, _, _ => None
  end.

(** Every table of [d] is in [d'] with the same rows. *)
Definition keeps_tables (d d' : Database) : Prop :=
  (forall rows, t_students d = Some rows -> t_students d' = Some rows)
  /\ (forall rows, t_laundry d = Some rows -> t_laundry d' = Some rows)
  /\ (forall rows, t_complaints d = Some rows -> t_complaints d' = Some rows)
  /\ (forall rows, t_notifications d = Some rows -> t_notifications d' = Some rows).

(** ** A small campus for the examples *)

(** An instance of the conversion: a run of decimal digits converts to its
    integer, any other text stays text. *)
Definition digit_of (c : ascii) : option Z :=
  let n := nat_of_ascii c in
  if ((48 <=? n) && (n <=? 57))%nat then Some (Z.of_nat (n - 48)) else None.

Fixpoint decimal (s : string) (acc : Z) : option Z :=
  match s with
  | EmptyString => Some acc
  | String c s' =>
      match digit_of c with
      | Some d => decimal s' (10 * acc + d)
      | None => None
      end
  end.

Definition decimal_affinity (s : string) : sqlval :=
  match s with
  | EmptyString => VText s
  | String _ _ =>
      match decimal s 0 with
      | Some z => VInt z
      | None => VText s
      end
  end.

Definition alice : Student := mkStudent 1 "alice" "wonderland" "101" "F".
Definition bob : Student := mkStudent 2 "bob" "builder" "102" "M".

Definition bag1 : Laundry := mkLaundry 1 1 "pending" 10 false.
Definition bag2 : Laundry := mkLaundry 2 1 "washing" 20 false.
Definition bag3 : Laundry := mkLaundry 3 2 "collected" 30 false.
Definition bag4 : Laundry := mkLaundry 4 1 "complete" 5 false.

Definition complaint1 : Complaint :=
  mkComplaint 1 1 (VInt 1) "a sock is missing" "pending" 40 None None.

Definition campus : Store :=
  mkStore [alice; bob] [bag1; bag2; bag3; bag4] [complaint1] [].

(** The campus at rest, seen from a session: nothing flashed, the clock at
    100 and one later at each reading, no failure ahead. *)
Definition campus_world (s : Session) : World :=
  mkWorld campus campus false [] s [] 0 (fun k => 100 + Z.of_nat k) 0 (fun _ => None).

Definition as_alice : Session := mkSession (Some 1) None.
Definition as_admin : Session := mkSession None (Some true).

(** The campus after two notifications, the first one read. *)
Definition seen : Notification :=
  mkNotification 1 1 "Your laundry is ready for collection!" 50 true.
Definition unseen : Notification :=
  mkNotification 2 2 "Your laundry is ready for collection!" 60 false.

Definition notified_world (s : Session) : World :=
  mkWorld (mkStore [alice; bob] [bag1; bag2; bag3; bag4] [complaint1] [seen; unseen])
          (mkStore [alice; bob] [bag1; bag2; bag3; bag4] [complaint1] [seen; unseen])
          false [] s [] 0 (fun k => 100 + Z.of_nat k) 0 (fun _ => None).

(** A process starting on an empty file. *)
Definition first_start : Startup :=
  mkStartup (mkDatabase None None None None) [] 0 (fun _ => None).

Definition as_bob : Session := mkSession (Some 2) None.

(** The campus where the store operation number [k] of the next request
    fails with [msg]. *)
Definition campus_failing_at (k : nat) (msg : string) (s : Session) : World :=
  mkWorld campus campus false [] s [] 0 (fun k => 100 + Z.of_nat k) 0
          (fun n => if (n =? k)%nat then Some msg else None).

(** The campus in the middle of a unit of work: bob's bag is 'washing' in
    the connection's view and not yet committed. *)
Definition pending_world : World :=
  mkWorld campus
          (mkStore [alice; bob] [bag1; bag2; with_status "washing" bag3; bag4]
                   [complaint1] [])
          true [] as_bob [] 0 (fun k => 100 + Z.of_nat k) 0 (fun _ => None).

(** ** Proofs *)

Lemma is_activeb_spec (b : Laundry) : is_activeb b = true <-> is_active b.
Proof.
  unfold is_activeb, is_active.
  rewrite andb_true_iff, !negb_true_iff, <- !not_true_iff_false, !String.eqb_eq.
  tauto.
Qed.

Lemma not_in_inactive_statuses (b : Laundry) :
  not_in (l_status b) ["collected"; "complete"] = is_activeb b.
Proof.
  unfold not_in, is_activeb; simpl. now rewrite orb_false_r, negb_orb.
Qed.

Lemma select_count_active_spec (student_id : Z) (st : Store) :
  select_count_active student_id st = [Z.of_nat (active_bags student_id (laundry st))].
Proof.
  unfold select_count_active. do 2 f_equal.
  induction (laundry st) as [|b rest IH]; simpl; [reflexivity|].
  rewrite not_in_inactive_statuses.
  destruct ((l_student_id b =? student_id) && is_activeb b); simpl; congruence.
Qed.

Arguments select_count_active : simpl never.
Arguments next_rowid : simpl never.
Arguments select_laundry_owner : simpl never.

Ltac unfold_monad :=
  unfold count_active_laundry, create_notification, get_db_cursor, try_except,
    except_sqlite_Error, commit, rollback, execute_dml, execute_select,
    next_fault, flash, get_session, session_set_user_id, session_set_is_admin,
    session_clear, datetime_now, subscript0, fetchone, get_db, close_db,
    bind, ret, raise in *.

(** C3: on a request's connection, count_active_laundry returns the number of
    the student's bags whose status is neither 'collected' nor 'complete', so a
    bag in one of the two statuses adds nothing to it, and neither the
    committed store, the connection's view nor the commit log changes. *)
Theorem count_active_laundry_counts (w : World) (student_id : Z)
    (Hok : w_fault w (w_ops w) = None) :
  fst (count_active_laundry student_id (get_db w))
    = Ret (Z.of_nat (active_bags student_id (laundry (w_db w))))
  /\ (forall b st, ~ is_active b ->
        active_bags student_id (laundry st ++ [b]) = active_bags student_id (laundry st))
  /\ w_db (snd (count_active_laundry student_id (get_db w))) = w_db w
  /\ w_view (snd (count_active_laundry student_id (get_db w))) = w_db w
  /\ w_log (snd (count_active_laundry student_id (get_db w))) = w_log w.
Proof.
  unfold_monad; cbn. rewrite Hok; cbn.
  rewrite select_count_active_spec; cbn.
  repeat split.
  intros b st Hb. rewrite <- is_activeb_spec in Hb.
  induction (laundry st) as [|x rest IH]; simpl.
  - destruct (is_activeb b); [tauto|]. now rewrite andb_false_r.
  - now rewrite IH.
Qed.

Lemma count_active_laundry_run (w : World) (student_id : Z) :
  w_in_txn w = false ->
  w_fault w (w_ops w) = None ->
  count_active_laundry student_id w
    = (Ret (Z.of_nat (active_bags student_id (laundry (w_view w)))),
       set_ops (S (w_ops w)) w).
Proof.
  intros Htxn Hok. unfold_monad; cbn. rewrite Hok; cbn.
  rewrite select_count_active_spec; cbn. rewrite Htxn. reflexivity.
Qed.

Section Correctness.

Variable integer_affinity : string -> sqlval.

(** C1: when the student of the session has at least 2 active bags,
    submit_laundry flashes the limit message, redirects to the student
    dashboard and leaves the store as it was: no laundry row is inserted,
    nothing is committed. *)
Theorem submit_laundry_limit_exceeded (w : World) (student_id : Z)
    (Hsession : user_id (w_session w) = Some student_id)
    (Hok : w_fault w (w_ops w) = None)
    (Hactive : (2 <= active_bags student_id (laundry (w_db w)))%nat) :
  fst (serve integer_affinity PostSubmitLaundry w) = Response (Redirect ep_student_dashboard)
  /\ w_flashes (snd (serve integer_affinity PostSubmitLaundry w)) = (w_flashes w ++ [limit_message])%list
  /\ w_db (snd (serve integer_affinity PostSubmitLaundry w)) = w_db w
  /\ laundry (w_db (snd (serve integer_affinity PostSubmitLaundry w))) = laundry (w_db w)
  /\ w_log (snd (serve integer_affinity PostSubmitLaundry w)) = w_log w.
Proof.
  assert (E : (2 <=? Z.of_nat (active_bags student_id (laundry (w_db w)))) = true)
    by (apply Z.leb_le; lia).
  remember (serve integer_affinity PostSubmitLaundry w) as p eqn:Hp.
  unfold serve, handle, submit_laundry in Hp.
  unfold bind at 1, get_session at 1 in Hp.
  change (w_session (get_db w)) with (w_session w) in Hp.
  rewrite Hsession in Hp. unfold bind at 1 in Hp.
  rewrite count_active_laundry_run in Hp by (cbn; first [reflexivity | assumption]).
  change (w_view (get_db w)) with (w_db w) in Hp.
  rewrite E in Hp. cbn in Hp. subst p. cbn. repeat split.
Qed.

Lemma owner_after_update (rows : list Laundry) (laundry_id : Z) (bag : Laundry)
    (status : string) :
  find (fun l => l_id l =? laundry_id) rows = Some bag ->
  hd_error
    (map l_student_id
       (filter (fun l => l_id l =? laundry_id)
          (map (fun l => if l_id l =? laundry_id then with_status status l else l)
               rows)))
  = Some (l_student_id bag).
Proof.
  induction rows as [|x rest IH]; simpl; [discriminate|].
  destruct (l_id x =? laundry_id) eqn:E; simpl.
  - rewrite E. simpl. congruence.
  - rewrite E. exact IH.
Qed.

Lemma find_after_update (rows : list Laundry) (laundry_id : Z) (bag : Laundry)
    (status : string) :
  find (fun l => l_id l =? laundry_id) rows = Some bag ->
  find (fun l => l_id l =? laundry_id)
       (map (fun l => if l_id l =? laundry_id then with_status status l else l) rows)
  = Some (with_status status bag).
Proof.
  induction rows as [|x rest IH]; simpl; [discriminate|].
  destruct (l_id x =? laundry_id) eqn:E; simpl; rewrite E.
  - congruence.
  - exact IH.
Qed.

(** C2: for an existing bag and an administrator's session, update_status to
    'complete', when no store operation fails, sets the bag's status to
    'complete' and appends exactly one unread notification for the bag's owner
    with the ready message; and whatever store operation fails (the
    notification's insert included), the committed store ends either as it
    was or with both writes, and a commit made in between made both durable. *)
Theorem update_status_complete_atomic (w : World) (laundry_id : Z) (bag : Laundry)
    (Hadmin : is_admin (w_session w) <> None)
    (Hbag : find (fun l => l_id l =? laundry_id) (laundry (w_db w)) = Some bag) :
  let after := serve integer_affinity (PostUpdateStatus laundry_id "complete") w in
  let done := completed_store (w_db w) laundry_id (l_student_id bag)
                (w_clock w (w_tick w)) in
  (quiet w ->
     fst after = Response (Redirect ep_admin_dashboard)
     /\ w_db (snd after) = done
     /\ notifications (w_db (snd after))
        = (notifications (w_db w) ++
           [mkNotification (next_rowid (map n_id (notifications (w_db w))))
              (l_student_id bag) ready_message (w_clock w (w_tick w)) false])%list
     /\ find (fun l => l_id l =? laundry_id) (laundry (w_db (snd after)))
        = Some (with_status "complete" bag))
  /\ ((w_db (snd after) = w_db w /\ w_log (snd after) = w_log w)
      \/ (w_db (snd after) = done /\ w_log (snd after) = (w_log w ++ [done])%list)).
Proof.
  intros after done.
  assert (Hfind : find (fun l => l_id l =? laundry_id) (laundry done)
                  = Some (with_status "complete" bag))
    by (apply find_after_update, Hbag).
  assert (Howner := owner_after_update (laundry (w_db w)) laundry_id "complete" Hbag).
  unfold with_status in Howner.
  remember (serve integer_affinity (PostUpdateStatus laundry_id "complete") w) as p eqn:Hp.
  unfold serve, handle, update_status in Hp.
  unfold_monad. simpl in Hp.
  destruct (is_admin (w_session w)) as [adm|] eqn:Ea; [clear Hadmin|congruence].
  simpl in Hp.
  destruct (w_fault w (w_ops w)) as [m1|] eqn:F1; simpl in Hp.
  { split; [intros Hq; rewrite Hq in F1; discriminate|].
    left. subst p after. simpl. auto. }
  destruct (w_fault w (S (w_ops w))) as [m2|] eqn:F2; simpl in Hp.
  { split; [intros Hq; rewrite Hq in F2; discriminate|].
    left. subst p after. simpl. auto. }
  unfold select_laundry_owner in Hp. simpl in Hp.
  rewrite Howner in Hp. simpl in Hp.
  destruct (w_fault w (S (S (w_ops w)))) as [m3|] eqn:F3; simpl in Hp.
  { split; [intros Hq; rewrite Hq in F3; discriminate|].
    left. subst p after. simpl. auto. }
  destruct (w_fault w (S (S (S (w_ops w))))) as [m4|] eqn:F4; simpl in Hp.
  { split; [intros Hq; rewrite Hq in F4; discriminate|].
    left. subst p after. simpl. auto. }
  subst p after. simpl. split.
  - intros _. repeat split. exact Hfind.
  - right. split; reflexivity.
Qed.

Lemma update_missing_noop (rows : list Laundry) (laundry_id : Z) (status : string) :
  find (fun l => l_id l =? laundry_id) rows = None ->
  map (fun l => if l_id l =? laundry_id then with_status status l else l) rows = rows.
Proof.
  induction rows as [|x rest IH]; simpl; [reflexivity|].
  destruct (l_id x =? laundry_id); [discriminate|].
  intros H. now rewrite IH.
Qed.

Lemma owner_missing (rows : list Laundry) (laundry_id : Z) :
  find (fun l => l_id l =? laundry_id) rows = None ->
  filter (fun l => l_id l =? laundry_id) rows = [].
Proof.
  induction rows as [|x rest IH]; simpl; [reflexivity|].
  destruct (l_id x =? laundry_id); [discriminate|exact IH].
Qed.

Lemma store_eta (st : Store) :
  mkStore (students st) (laundry st) (complaints st) (notifications st) = st.
Proof. now destruct st. Qed.

(** C4, amended: for a laundry id that is not in the store and an
    administrator's session, update_status leaves the committed store
    unchanged whatever the new status and whatever store operation fails; and
    when the new status is not 'complete' and no store operation fails, it
    reports no error: it flashes "Status updated to <status>!" and redirects
    to the admin dashboard. *)
Theorem update_status_missing_id (w : World) (laundry_id : Z) (status : string)
    (Hadmin : is_admin (w_session w) <> None)
    (Hmissing : find (fun l => l_id l =? laundry_id) (laundry (w_db w)) = None) :
  let after := serve integer_affinity (PostUpdateStatus laundry_id status) w in
  w_db (snd after) = w_db w
  /\ (status <> "complete" -> quiet w ->
        fst after = Response (Redirect ep_admin_dashboard)
        /\ w_flashes (snd after)
           = (w_flashes w ++ [status_message status])%list).
Proof.
  intros after.
  assert (Hnoop := update_missing_noop (laundry (w_db w)) laundry_id status Hmissing).
  assert (Hnone := owner_missing (laundry (w_db w)) laundry_id Hmissing).
  unfold with_status in Hnoop.
  remember (serve integer_affinity (PostUpdateStatus laundry_id status) w) as p eqn:Hp.
  unfold serve, handle, update_status in Hp.
  unfold_monad. simpl in Hp.
  destruct (is_admin (w_session w)) as [adm|] eqn:Ea; [clear Hadmin|congruence].
  simpl in Hp.
  destruct (w_fault w (w_ops w)) as [m1|] eqn:F1; simpl in Hp.
  { split; [subst p after; reflexivity|].
    intros _ Hq. rewrite Hq in F1. discriminate. }
  rewrite Hnoop, store_eta in Hp.
  destruct (String.eqb status "complete") eqn:Es; simpl in Hp.
  - destruct (w_fault w (S (w_ops w))) as [m2|] eqn:F2; simpl in Hp.
    { split; [subst p after; reflexivity|].
      intros Hs. apply String.eqb_eq in Es. contradiction. }
    unfold select_laundry_owner in Hp. rewrite Hnone in Hp. simpl in Hp.
    split; [subst p after; reflexivity|].
    intros Hs. apply String.eqb_eq in Es. contradiction.
  - destruct (w_fault w (S (w_ops w))) as [m2|] eqn:F2; simpl in Hp.
    { split; [subst p after; reflexivity|].
      intros _ Hq. rewrite Hq in F2. discriminate. }
    subst p after. simpl. repeat split.
Qed.

(** C7: a student-only handler in a session without [user_id], and an
    admin-only handler in a session without [is_admin], redirects to the login
    page, and nothing else happens: the committed store, the commit log, the
    session and the flashed messages are as before. *)
Theorem unauthenticated_redirects_to_login (r : Request) (w : World)
    (Hgate : (student_only r = true /\ user_id (w_session w) = None)
             \/ (admin_only r = true /\ is_admin (w_session w) = None)) :
  fst (serve integer_affinity r w) = Response (Redirect ep_login)
  /\ w_db (snd (serve integer_affinity r w)) = w_db w
  /\ w_log (snd (serve integer_affinity r w)) = w_log w
  /\ w_session (snd (serve integer_affinity r w)) = w_session w
  /\ w_flashes (snd (serve integer_affinity r w)) = w_flashes w.
Proof.
  remember (serve integer_affinity r w) as p eqn:Hp.
  unfold serve, handle in Hp.
  destruct Hgate as [[Hr Hs]|[Hr Hs]]; destruct r; try discriminate Hr;
    unfold student_dashboard, submit_laundry, submit_complaint,
      mark_notification_read, admin_dashboard, update_status, resolve_complaint,
      bind, get_session, ret, get_db, close_db in Hp;
    simpl in Hp; rewrite Hs in Hp; subst p; simpl; repeat split.
Qed.

Lemma rows_named_absent (full_name : string) (rows : list Student) :
  existsb (fun s => String.eqb (s_full_name s) full_name) rows = false ->
  filter (fun s => String.eqb (s_full_name s) full_name) rows = [].
Proof.
  induction rows as [|x rest IH]; simpl; [reflexivity|].
  destruct (String.eqb (s_full_name x) full_name); simpl; [discriminate|exact IH].
Qed.

Lemma rows_named_unique (full_name : string) (rows : list Student) :
  NoDup (map s_full_name rows) ->
  existsb (fun s => String.eqb (s_full_name s) full_name) rows = true ->
  List.length (filter (fun s => String.eqb (s_full_name s) full_name) rows) = 1%nat.
Proof.
  induction rows as [|x rest IH]; simpl; [discriminate|].
  intros Hnd Hex. inversion Hnd as [|? ? Hnotin Hnd']; subst.
  destruct (String.eqb (s_full_name x) full_name) eqn:E; simpl.
  - apply String.eqb_eq in E. f_equal.
    destruct (existsb (fun s => String.eqb (s_full_name s) full_name) rest) eqn:Er.
    + exfalso. apply Hnotin. apply existsb_exists in Er.
      destruct Er as [y [Hy Hn]]. apply String.eqb_eq in Hn.
      rewrite E, <- Hn. now apply in_map.
    + now rewrite rows_named_absent.
  - now apply IH.
Qed.

Lemma existsb_snoc_self (full_name : string) (rows : list Student) (s : Student) :
  s_full_name s = full_name ->
  existsb (fun s => String.eqb (s_full_name s) full_name) (rows ++ [s]) = true.
Proof.
  intros H. rewrite existsb_app. simpl. rewrite H, String.eqb_refl.
  now rewrite orb_true_r.
Qed.

(** Rewrite with the absence of failures as far as the run goes. *)
Ltac run_quiet Hq Hp :=
  simpl in Hp; repeat (progress (rewrite ?Hq in Hp; simpl in Hp)).

(** One registration when nothing fails in the store: refused when the name
    is taken, a new row otherwise. *)
Lemma register_effect (w : World) (full_name password room gender : string)
    (Hq : quiet w) :
  let after := serve integer_affinity (PostRegister full_name password room gender) w in
  quiet (snd after)
  /\ (name_taken full_name (w_db w) = true ->
        fst after = Response RenderRegister
        /\ w_db (snd after) = w_db w
        /\ w_flashes (snd after) = (w_flashes w ++ ["Student already registered!"])%list)
  /\ (name_taken full_name (w_db w) = false ->
        fst after = Response (Redirect ep_login)
        /\ students (w_db (snd after))
           = (students (w_db w) ++
              [mkStudent (next_rowid (map s_id (students (w_db w))))
                 full_name password room gender])%list).
Proof.
  intros after. unfold name_taken.
  remember (serve integer_affinity (PostRegister full_name password room gender) w)
    as p eqn:Hp.
  unfold serve, handle, register in Hp. unfold_monad. unfold insert_student in Hp.
  run_quiet Hq Hp.
  destruct (existsb (fun s => String.eqb (s_full_name s) full_name)
              (students (w_db w))) eqn:Ex; run_quiet Hq Hp;
    subst p after; simpl; (split; [exact Hq|]); split; intros H;
    try discriminate H; repeat split.
Qed.

(** C5: in a store whose full names are unique, of two registrations with the
    same full_name made one after the other the second flashes "Student
    already registered!" and renders the registration form again (a response,
    not a fault), changes nothing in the store, and exactly one student row
    with that full_name is in the store afterwards. *)
Theorem register_duplicate_name (w : World)
    (full_name password1 room1 gender1 password2 room2 gender2 : string)
    (Hq : quiet w)
    (Hunique : NoDup (map s_full_name (students (w_db w)))) :
  let w1 := snd (serve integer_affinity
                   (PostRegister full_name password1 room1 gender1) w) in
  let after := serve integer_affinity
                 (PostRegister full_name password2 room2 gender2) w1 in
  fst after = Response RenderRegister
  /\ w_flashes (snd after) = (w_flashes w1 ++ ["Student already registered!"])%list
  /\ w_db (snd after) = w_db w1
  /\ rows_named full_name (w_db (snd after)) = 1%nat.
Proof.
  intros w1 after.
  destruct (register_effect full_name password1 room1 gender1 Hq)
    as (Hq1 & Htaken & Hfree).
  fold w1 in Hq1, Htaken, Hfree.
  destruct (register_effect full_name password2 room2 gender2 Hq1)
    as (_ & Htaken2 & _).
  fold after in Htaken2.
  assert (Hnow : name_taken full_name (w_db w1) = true
                 /\ rows_named full_name (w_db w1) = 1%nat).
  { unfold name_taken, rows_named in *.
    destruct (existsb (fun s => String.eqb (s_full_name s) full_name)
                (students (w_db w))) eqn:Ex.
    - destruct (Htaken eq_refl) as (_ & Hdb & _). rewrite Hdb, Ex.
      split; [reflexivity|]. now apply rows_named_unique.
    - destruct (Hfree eq_refl) as (_ & Hst). rewrite Hst.
      split; [now apply existsb_snoc_self|].
      rewrite filter_app, rows_named_absent by assumption. simpl.
      now rewrite String.eqb_refl. }
  destruct Hnow as (Hex & Hone).
  destruct (Htaken2 Hex) as (Hout & Hdb & Hfl).
  repeat split; try assumption. now rewrite Hdb.
Qed.

Lemma student_after_resolve (rows : list Complaint) (complaint_id : Z) (c : Complaint)
    (response : string) (now : Timestamp) :
  find (fun c => c_id c =? complaint_id) rows = Some c ->
  hd_error
    (map c_student_id
       (filter (fun c => c_id c =? complaint_id)
          (map (fun c => if c_id c =? complaint_id then resolved response now c else c)
               rows)))
  = Some (c_student_id c).
Proof.
  induction rows as [|x rest IH]; simpl; [discriminate|].
  destruct (c_id x =? complaint_id) eqn:E; simpl; rewrite E; simpl.
  - congruence.
  - exact IH.
Qed.

Lemma find_after_resolve (rows : list Complaint) (complaint_id : Z) (c : Complaint)
    (response : string) (now : Timestamp) :
  find (fun c => c_id c =? complaint_id) rows = Some c ->
  find (fun c => c_id c =? complaint_id)
       (map (fun c => if c_id c =? complaint_id then resolved response now c else c)
            rows)
  = Some (resolved response now c).
Proof.
  induction rows as [|x rest IH]; simpl; [discriminate|].
  destruct (c_id x =? complaint_id) eqn:E; simpl; rewrite E.
  - congruence.
  - exact IH.
Qed.

(** One resolution of an existing complaint when nothing fails in the store. *)
Lemma resolve_complaint_effect (w : World) (complaint_id : Z) (c : Complaint)
    (response : string)
    (Hadmin : is_admin (w_session w) <> None)
    (Hc : find (fun c => c_id c =? complaint_id) (complaints (w_db w)) = Some c)
    (Hq : quiet w) :
  let after := serve integer_affinity (PostResolveComplaint complaint_id response) w in
  fst after = Response (Redirect ep_admin_dashboard)
  /\ quiet (snd after)
  /\ w_session (snd after) = w_session w
  /\ w_clock (snd after) = w_clock w
  /\ w_tick (snd after) = S (S (w_tick w))
  /\ notifications (w_db (snd after))
     = (notifications (w_db w) ++
        [new_notification (notifications (w_db w)) (c_student_id c)
           (resolution_message response) (w_clock w (S (w_tick w)))])%list
  /\ find (fun c => c_id c =? complaint_id) (complaints (w_db (snd after)))
     = Some (resolved response (w_clock w (w_tick w)) c).
Proof.
  intros after.
  assert (Hstudent := student_after_resolve (complaints (w_db w)) complaint_id
                        response (w_clock w (w_tick w)) Hc).
  assert (Hfind := find_after_resolve (complaints (w_db w)) complaint_id
                     response (w_clock w (w_tick w)) Hc).
  unfold resolved in Hstudent, Hfind.
  remember (serve integer_affinity (PostResolveComplaint complaint_id response) w)
    as p eqn:Hp.
  unfold serve, handle, resolve_complaint in Hp. unfold_monad.
  unfold select_complaint_student in Hp. simpl in Hp.
  destruct (is_admin (w_session w)) as [adm|] eqn:Ea; [clear Hadmin|congruence].
  run_quiet Hq Hp. rewrite Hstudent in Hp. run_quiet Hq Hp.
  subst p after. simpl. repeat split; assumption.
Qed.

(** C6: resolve_complaint called twice on an existing complaint, nothing
    failing in the store, appends two unread notifications for the
    complaint's student, one per call and each with that call's response, and
    leaves the complaint 'resolved' with the admin_response and the
    date_resolved of the second call. *)
Theorem resolve_complaint_twice (w : World) (complaint_id : Z) (c : Complaint)
    (response1 response2 : string)
    (Hadmin : is_admin (w_session w) <> None)
    (Hc : find (fun c => c_id c =? complaint_id) (complaints (w_db w)) = Some c)
    (Hq : quiet w) :
  let w1 := snd (serve integer_affinity (PostResolveComplaint complaint_id response1) w) in
  let w2 := snd (serve integer_affinity (PostResolveComplaint complaint_id response2) w1) in
  let n1 := new_notification (notifications (w_db w)) (c_student_id c)
              (resolution_message response1) (w_clock w (S (w_tick w))) in
  let n2 := new_notification (notifications (w_db w) ++ [n1]) (c_student_id c)
              (resolution_message response2) (w_clock w1 (S (w_tick w1))) in
  notifications (w_db w2) = (notifications (w_db w) ++ [n1; n2])%list
  /\ find (fun c => c_id c =? complaint_id) (complaints (w_db w2))
     = Some (mkComplaint (c_id c) (c_student_id c) (c_laundry_id c) (c_description c)
               "resolved" (c_date_submitted c) (Some response2)
               (Some (w_clock w1 (w_tick w1)))).
Proof.
  intros w1 w2 n1 n2.
  destruct (resolve_complaint_effect complaint_id response1 Hadmin Hc Hq)
    as (_ & Hq1 & Hs1 & Hclock1 & Htick1 & Hn1 & Hf1).
  fold w1 in Hq1, Hs1, Hclock1, Htick1, Hn1, Hf1.
  assert (Hadmin1 : is_admin (w_session w1) <> None) by now rewrite Hs1.
  destruct (resolve_complaint_effect complaint_id response2 Hadmin1 Hf1 Hq1)
    as (_ & _ & _ & _ & _ & Hn2 & Hf2).
  fold w2 in Hn2, Hf2.
  split.
  - rewrite Hn2, Hn1. rewrite <- app_assoc. reflexivity.
  - rewrite Hf2. reflexivity.
Qed.

Lemma sentinel_test (full_name password : string) :
  String.eqb full_name "admin" && String.eqb password "admin123" = true
  <-> is_sentinel full_name password.
Proof.
  unfold is_sentinel. now rewrite andb_true_iff, !String.eqb_eq.
Qed.

Lemma first_with_credentials (rows : list Student) (full_name password : string) :
  match hd_error (filter (fun s => String.eqb (s_full_name s) full_name
                                   && String.eqb (s_password s) password) rows) with
  | Some s => In s rows /\ has_credentials full_name password s
  | None => forall s, In s rows -> ~ has_credentials full_name password s
  end.
Proof.
  unfold has_credentials.
  induction rows as [|x rest IH]; simpl; [tauto|].
  destruct (String.eqb (s_full_name x) full_name && String.eqb (s_password x) password)
    eqn:E; simpl.
  - apply andb_true_iff in E. rewrite !String.eqb_eq in E. tauto.
  - destruct (hd_error _) as [s|].
    + tauto.
    + intros s [<-|Hin]; [|now apply IH].
      intros [H1 H2]. rewrite <- !String.eqb_eq in *. now rewrite H1, H2 in E.
Qed.

(** C8: login answers with the redirect to the admin dashboard exactly for
    the pair ('admin', 'admin123'), whatever the store holds, and then sets
    [is_admin]; for any other pair it leaves [is_admin] as it was and, the
    lookup not failing, redirects to the student dashboard with [user_id] set
    to the id of a student row with exactly that full_name and password
    exactly when there is such a row, and otherwise flashes "Invalid
    credentials!", renders the login form and leaves the session as it was. *)
Theorem login_grants (w : World) (full_name password : string) :
  let after := serve integer_affinity (PostLogin full_name password) w in
  (fst after = Response (Redirect ep_admin_dashboard) <-> is_sentinel full_name password)
  /\ (is_sentinel full_name password ->
        w_session (snd after) = mkSession (user_id (w_session w)) (Some true)
        /\ w_db (snd after) = w_db w)
  /\ (~ is_sentinel full_name password ->
        is_admin (w_session (snd after)) = is_admin (w_session w)
        /\ (w_fault w (w_ops w) = None ->
             ((exists s, In s (students (w_db w)) /\ has_credentials full_name password s)
              <-> fst after = Response (Redirect ep_student_dashboard))
             /\ (fst after = Response (Redirect ep_student_dashboard) ->
                   exists s, In s (students (w_db w))
                             /\ has_credentials full_name password s
                             /\ w_session (snd after)
                                = mkSession (Some (s_id s)) (is_admin (w_session w)))
             /\ ((forall s, In s (students (w_db w)) ->
                             ~ has_credentials full_name password s) ->
                   fst after = Response RenderLogin
                   /\ w_flashes (snd after) = (w_flashes w ++ ["Invalid credentials!"])%list
                   /\ w_session (snd after) = w_session w))).
Proof.
  intros after.
  remember (serve integer_affinity (PostLogin full_name password) w) as p eqn:Hp.
  unfold serve, handle, login in Hp.
  destruct (String.eqb full_name "admin" && String.eqb password "admin123") eqn:Es.
  - apply sentinel_test in Es. unfold_monad. simpl in Hp. subst p after. simpl.
    split; [tauto|]. split; [intros _; split; reflexivity|]. intros H. contradiction.
  - assert (Hns : ~ is_sentinel full_name password)
      by (rewrite <- sentinel_test, Es; discriminate).
    unfold_monad. unfold select_student_by_credentials in Hp. simpl in Hp.
    split; [|split; [tauto|intros _]].
    + split; [|tauto]. intros H. exfalso.
      destruct (w_fault w (w_ops w)); simpl in Hp;
        [|destruct (hd_error _); simpl in Hp]; subst p after; discriminate H.
    + split.
      * destruct (w_fault w (w_ops w)); simpl in Hp;
          [|destruct (hd_error _); simpl in Hp]; subst p after; reflexivity.
      * intros Hok. rewrite Hok in Hp. simpl in Hp.
        pose proof (first_with_credentials (students (w_db w)) full_name password) as Hfirst.
        destruct (hd_error _) as [s|]; simpl in Hp; subst p after; simpl.
        -- destruct Hfirst as [Hin Hcred]. split; [|split].
           ++ split; [reflexivity|]. intros _. now exists s.
           ++ intros _. now exists s.
           ++ intros Hnone. exfalso. exact (Hnone s Hin Hcred).
        -- split; [|split].
           ++ split; [|discriminate].
              intros [s [Hin Hcred]]. exfalso. exact (Hfirst s Hin Hcred).
           ++ discriminate.
           ++ intros _. repeat split.
Qed.

(** *** The search of the admin dashboard *)

Lemma prefix_ci_spec (q s : string) :
  prefix_ci q s = true <-> exists mid rest, s = mid ++ rest /\ lower mid = lower q.
Proof.
  revert s. induction q as [|c q IH]; intros s; simpl.
  - split; [intros _; now exists "", s|reflexivity].
  - destruct s as [|d s]; simpl.
    + split; [discriminate|]. intros (mid & rest & Hs & Hl).
      destruct mid; simpl in *; discriminate.
    + rewrite andb_true_iff, Ascii.eqb_eq, IH. split.
      * intros (Hc & mid & rest & -> & Hl).
        exists (String d mid), rest. simpl. split; [reflexivity|congruence].
      * intros (mid & rest & Hs & Hl).
        destruct mid as [|e mid]; simpl in *; [discriminate|].
        injection Hs as -> ->. injection Hl as Hc Hl.
        split; [congruence|]. now exists mid, rest.
Qed.

Lemma contains_cib_spec (q s : string) :
  contains_cib q s = true <-> contains_ci q s.
Proof.
  unfold contains_ci. induction s as [|d s IH]; simpl.
  - rewrite orb_false_r, prefix_ci_spec. split.
    + intros (mid & rest & Hs & Hl). now exists "", mid, rest.
    + intros (before & mid & rest & Hs & Hl).
      destruct before; simpl in Hs; [|discriminate]. now exists mid, rest.
  - rewrite orb_true_iff, prefix_ci_spec, IH. split.
    + intros [(mid & rest & Hs & Hl)|(before & mid & rest & Hs & Hl)].
      * now exists "", mid, rest.
      * exists (String d before), mid, rest. simpl. split; congruence.
    + intros (before & mid & rest & Hs & Hl).
      destruct before as [|e before]; simpl in Hs.
      * left. now exists mid, rest.
      * right. injection Hs as -> ->. now exists before, mid, rest.
Qed.

Lemma like_any_run (p s : string) :
  like (String "%" p) s
  = like p s || match s with
                | EmptyString => false
                | String _ s' => like (String "%" p) s'
                end.
Proof. destruct s; reflexivity. Qed.

Lemma like_percent_only (s : string) : like "%" s = true.
Proof.
  induction s as [|d s IH]; [reflexivity|].
  rewrite like_any_run. rewrite IH. apply orb_true_r.
Qed.

Lemma like_literal_prefix (q s : string) :
  wildcard_free q = true -> like (q ++ "%") s = prefix_ci q s.
Proof.
  revert s. induction q as [|c q IH]; intros s Hq.
  - simpl app. rewrite like_percent_only. reflexivity.
  - simpl in Hq. apply andb_true_iff in Hq. destruct Hq as [Hc Hq].
    apply andb_true_iff in Hc. destruct Hc as [H1 H2].
    apply negb_true_iff in H1, H2.
    simpl. rewrite H1, H2. destruct s as [|d s]; [reflexivity|].
    now rewrite IH.
Qed.

(** The pattern the handler builds matches exactly the names that contain a
    wildcard-free query. *)
Lemma like_substring (q s : string) :
  wildcard_free q = true ->
  like ("%" ++ q ++ "%") s = contains_cib q s.
Proof.
  intros Hq. change ("%" ++ q ++ "%") with (String "%" (q ++ "%")).
  induction s as [|d s IH]; rewrite like_any_run, like_literal_prefix by assumption.
  - reflexivity.
  - now rewrite IH.
Qed.

(** [ORDER BY ... DESC] sorts and keeps the rows. *)
Lemma insert_desc_perm {A} (key : A -> Z) (x : A) (l : list A) :
  Permutation (x :: l) (insert_desc key x l).
Proof.
  induction l as [|y l IH]; simpl; [reflexivity|].
  destruct (key y <=? key x); [reflexivity|].
  rewrite perm_swap. now apply perm_skip.
Qed.

Lemma order_by_desc_perm {A} (key : A -> Z) (rows : list A) :
  Permutation rows (order_by_desc key rows).
Proof.
  induction rows as [|x rows IH]; simpl; [reflexivity|].
  rewrite <- insert_desc_perm. now apply perm_skip.
Qed.

Lemma insert_desc_sorted {A} (key : A -> Z) (x : A) (l : list A) :
  newest_first key l -> newest_first key (insert_desc key x l).
Proof.
  unfold newest_first. induction 1 as [|y l Hs IH Hy]; simpl.
  - repeat constructor.
  - destruct (key y <=? key x) eqn:E.
    + apply Z.leb_le in E. constructor; [now constructor|].
      constructor; [exact E|].
      eapply Forall_impl; [|exact Hy]. simpl. intros; lia.
    + apply Z.leb_gt in E. constructor; [exact IH|].
      eapply Permutation_Forall; [apply insert_desc_perm|].
      constructor; [lia|exact Hy].
Qed.

Lemma order_by_desc_sorted {A} (key : A -> Z) (rows : list A) :
  newest_first key (order_by_desc key rows).
Proof.
  induction rows as [|x rows IH]; simpl.
  - constructor.
  - now apply insert_desc_sorted.
Qed.

Lemma in_laundry_join_students (st : Store) (l : Laundry) (s : Student) :
  In (l, s) (laundry_join_students st)
  <-> In l (laundry st) /\ In s (students st) /\ s_id s = l_student_id l.
Proof.
  unfold laundry_join_students. rewrite in_flat_map. split.
  - intros (l' & Hl & Hin). apply in_map_iff in Hin.
    destruct Hin as (s' & Heq & Hs). injection Heq as -> ->.
    apply filter_In in Hs. destruct Hs as [Hs Hid]. apply Z.eqb_eq in Hid. tauto.
  - intros (Hl & Hs & Hid). exists l. split; [exact Hl|].
    apply in_map, filter_In. split; [exact Hs|]. now apply Z.eqb_eq.
Qed.

Lemma one_student_per_id (rows : list Student) (id : Z) :
  NoDup (map s_id rows) -> In id (map s_id rows) ->
  exists s, filter (fun s => s_id s =? id) rows = [s].
Proof.
  induction rows as [|x rest IH]; simpl; [tauto|].
  intros Hnd Hin. inversion Hnd as [|? ? Hnotin Hnd']; subst.
  destruct (s_id x =? id) eqn:E.
  - apply Z.eqb_eq in E. exists x. f_equal.
    rewrite E in Hnotin.
    clear - Hnotin. induction rest as [|y rest IH]; simpl; [reflexivity|].
    destruct (s_id y =? id) eqn:Ey.
    + apply Z.eqb_eq in Ey. exfalso. apply Hnotin. simpl. now left.
    + apply IH. intros H. apply Hnotin. simpl. now right.
  - apply Z.eqb_neq in E. destruct Hin as [Hx|Hin]; [contradiction|].
    now apply IH.
Qed.

Lemma join_keeps_every_bag (st : Store) :
  owners_known st -> map fst (laundry_join_students st) = laundry st.
Proof.
  intros [Hnd Hfk]. unfold laundry_join_students.
  induction (laundry st) as [|l rest IH]; simpl; [reflexivity|].
  rewrite map_app, IH by (intros; apply Hfk; now right).
  destruct (one_student_per_id (students st) (l_student_id l) Hnd
              (Hfk l (or_introl eq_refl))) as [s Hs].
  rewrite Hs. reflexivity.
Qed.

(** C9, amended: in an administrator's session and with no store operation
    failing, the admin dashboard lists its laundry rows newest first by
    date_submitted; with an empty query they are all the bags joined with
    their owners (every bag once, when student ids are unique and every bag
    has an owner); with a non-empty query that contains neither '%' nor '_'
    they are exactly the joined rows whose owner's full_name contains the
    query as a substring, the letters A-Z and a-z compared without regard to
    case. *)
Theorem admin_dashboard_search (w : World) (query : string)
    (Hadmin : is_admin (w_session w) <> None)
    (Hq : quiet w) :
  exists items cs,
    fst (serve integer_affinity (GetAdminDashboard query) w)
      = Response (RenderAdminDashboard items cs query)
    /\ newest_first (fun r => l_date_submitted (fst r)) items
    /\ (query = "" ->
          Permutation items (laundry_join_students (w_db w))
          /\ (owners_known (w_db w) -> Permutation (map fst items) (laundry (w_db w))))
    /\ (query <> "" -> wildcard_free query = true ->
          Permutation items
            (filter (fun r => contains_cib query (s_full_name (snd r)))
                    (laundry_join_students (w_db w)))
          /\ search_is_substring_filter integer_affinity w query).
Proof.
  remember (serve integer_affinity (GetAdminDashboard query) w) as p eqn:Hp.
  assert (Hp' := Hp).
  unfold serve, handle, admin_dashboard in Hp. unfold_monad. simpl in Hp.
  destruct (is_admin (w_session w)) as [adm|] eqn:Ea; [clear Hadmin|congruence].
  destruct (String.eqb query "") eqn:Eq; run_quiet Hq Hp.
  - apply String.eqb_eq in Eq.
    eexists _, _. rewrite Hp. simpl. split; [reflexivity|].
    split; [apply order_by_desc_sorted|]. split; [|intros H; contradiction].
    intros _. split.
    + symmetry. apply order_by_desc_perm.
    + intros Hok. rewrite <- (join_keeps_every_bag Hok).
      apply Permutation_map. symmetry. apply order_by_desc_perm.
  - apply String.eqb_neq in Eq.
    eexists _, _. rewrite Hp. simpl. split; [reflexivity|].
    split; [apply order_by_desc_sorted|]. split; [intros H; contradiction|].
    intros _ Hfree.
    assert (Hperm :
      Permutation
        (select_laundry_items_like ("%" ++ query ++ "%") (w_db w))
        (filter (fun r => contains_cib query (s_full_name (snd r)))
                (laundry_join_students (w_db w)))).
    { unfold select_laundry_items_like. rewrite <- order_by_desc_perm.
      erewrite filter_ext; [reflexivity|].
      intros r. now apply like_substring. }
    split; [exact Hperm|].
    unfold search_is_substring_filter. rewrite <- Hp', Hp. simpl.
    intros items cs Heq. injection Heq as <- _. intros l s.
    split.
    + intros Hin. apply (Permutation_in _ Hperm) in Hin.
      apply filter_In in Hin. destruct Hin as [Hin Hc]. simpl in Hc.
      apply in_laundry_join_students in Hin. apply contains_cib_spec in Hc. tauto.
    + intros (Hl & Hs & Hid & Hc).
      apply (Permutation_in _ (Permutation_sym Hperm)).
      apply filter_In. split.
      * apply in_laundry_join_students. tauto.
      * simpl. now apply contains_cib_spec.
Qed.

(** *** Invariants of a request *)

Section Invariants.

Context (I : World -> Prop) `{Stable I}.

Lemma preserves_ret {A} (a : A) : preserves I (ret a).
Proof. intros w Hw. exact Hw. Qed.

Lemma preserves_raise {A} (e : exn) : preserves I (@raise A e).
Proof. intros w Hw. exact Hw. Qed.

Lemma preserves_bind {A B} (m : M A) (k : A -> M B) :
  preserves I m -> (forall a, preserves I (k a)) -> preserves I (bind m k).
Proof.
  intros Hm Hk w Hw. unfold bind. specialize (Hm w Hw).
  destruct (m w) as [[a|e] w1]; simpl in *; [now apply Hk|exact Hm].
Qed.

Lemma preserves_try_except {A} (m : M A) (h : exn -> option (M A)) :
  preserves I m -> (forall e k, h e = Some k -> preserves I k) ->
  preserves I (try_except m h).
Proof.
  intros Hm Hh w Hw. unfold try_except. specialize (Hm w Hw).
  destruct (m w) as [[a|e] w1]; simpl in *; [exact Hm|].
  destruct (h e) as [k|] eqn:E; [now apply (Hh e k)|exact Hm].
Qed.

Lemma preserves_except_sqlite_Error {A} (k : exn -> M A) (e : exn) (k' : M A) :
  (forall e, preserves I (k e)) ->
  except_sqlite_Error k e = Some k' -> preserves I k'.
Proof.
  unfold except_sqlite_Error. intros Hk.
  destruct (is_sqlite_error e); [|discriminate]. intros [= <-]. apply Hk.
Qed.

Lemma preserves_commit : preserves I commit.
Proof.
  intros w Hw. unfold commit, next_fault.
  destruct (w_in_txn w); [|exact Hw].
  destruct (w_fault w (w_ops w)); simpl.
  - now apply stable_ops.
  - apply (stable_commit (set_ops (S (w_ops w)) w)). now apply stable_ops.
Qed.

Lemma preserves_rollback : preserves I rollback.
Proof. intros w Hw. now apply stable_rollback. Qed.

Lemma preserves_get_db_cursor {A} (body : M A) :
  preserves I body -> preserves I (get_db_cursor body).
Proof.
  intros Hb w Hw. unfold get_db_cursor. specialize (Hb w Hw).
  destruct (body w) as [[a|e] w1]; simpl in *.
  - pose proof (preserves_commit Hb) as Hc.
    destruct (commit w1) as [[u|e] w2]; simpl in *; [exact Hc|].
    now apply stable_rollback.
  - now apply stable_rollback.
Qed.

Lemma preserves_execute_select {A} (query : Store -> list A) :
  preserves I (execute_select query).
Proof.
  intros w Hw. unfold execute_select, next_fault.
  destruct (w_fault w (w_ops w)); simpl; now apply stable_ops.
Qed.

Lemma preserves_execute_dml (stmt : Store -> exn + Store) :
  keeps_statement I stmt -> preserves I (execute_dml stmt).
Proof.
  intros Hs w Hw. unfold execute_dml, next_fault.
  assert (H1 : I (set_ops (S (w_ops w))
                    (set_conn (w_db w) (w_view w) true (w_log w) w)))
    by now apply stable_ops, stable_begin.
  simpl. destruct (w_fault w (w_ops w)); simpl; [exact H1|].
  destruct (stmt (w_view w)) as [e|st'] eqn:E; simpl; [exact H1|].
  exact (Hs _ st' H1 E).
Qed.

Lemma preserves_flash (msg : string) : preserves I (flash msg).
Proof. intros w Hw. now apply stable_flashes. Qed.

Lemma preserves_get_session : preserves I get_session.
Proof. intros w Hw. exact Hw. Qed.

Lemma preserves_datetime_now : preserves I datetime_now.
Proof. intros w Hw. now apply stable_tick. Qed.

Lemma preserves_subscript0 {A B} (row : option A) (col0 : A -> B) :
  preserves I (subscript0 row col0).
Proof. intros w Hw. destruct row; exact Hw. Qed.

Context `{SessionFree I}.

Lemma preserves_session_set_user_id (id : Z) : preserves I (session_set_user_id id).
Proof. intros w Hw. now apply session_free. Qed.

Lemma preserves_session_set_is_admin (b : bool) :
  preserves I (session_set_is_admin b).
Proof. intros w Hw. now apply session_free. Qed.

Lemma preserves_session_clear : preserves I session_clear.
Proof. intros w Hw. now apply session_free. Qed.

End Invariants.

Create HintDb kept discriminated.

#[local] Hint Resolve preserves_ret preserves_raise preserves_commit preserves_rollback
  preserves_get_db_cursor preserves_execute_select preserves_execute_dml
  preserves_flash preserves_get_session preserves_session_set_user_id
  preserves_session_set_is_admin preserves_session_clear preserves_datetime_now
  preserves_subscript0 : kept.

(** Walk a handler's body: binds, handlers of exceptions, branches. *)
Ltac walk :=
  repeat first
    [ apply preserves_bind; [|intros ?]
    | apply preserves_try_except; [|intros ? ? ?]
    | apply preserves_get_db_cursor
    | match goal with
      | H : except_sqlite_Error _ _ = Some _ |- _ =>
          eapply preserves_except_sqlite_Error; [|exact H]; intros ?; cbv beta
      | H : (if ?b then _ else _) = Some _ |- _ => destruct b; [injection H as <-|]
      | |- preserves _ (match ?x with _ => _ end) => destruct x
      | |- preserves _ (if ?b then _ else _) => destruct b
      end
    | solve [eauto with kept typeclass_instances] ].

Lemma preserves_count_active_laundry (I : World -> Prop) `{Stable I} (student_id : Z) :
  preserves I (count_active_laundry student_id).
Proof. unfold count_active_laundry. walk. Qed.

#[local] Hint Resolve preserves_count_active_laundry : kept.

(** *** Who sets [is_read] *)

Lemma no_new_read_refl (st : Store) : no_new_read st st.
Proof. intros n Hin _. exact Hin. Qed.

Lemma no_new_read_trans (a b c : Store) :
  no_new_read a b -> no_new_read b c -> no_new_read a c.
Proof. intros Hab Hbc n Hin Hr. apply Hab; [now apply Hbc|exact Hr]. Qed.

Lemma no_new_read_same_notifications (st st' : Store) :
  notifications st' = notifications st -> no_new_read st st'.
Proof. intros E n Hin _. now rewrite <- E. Qed.

#[local] Instance kept_stable (base : Store) : Stable (kept base).
Proof. split; intros w; intros; assumption || (destruct H; split; assumption). Qed.

#[local] Instance kept_session_free (base : Store) : SessionFree (kept base).
Proof. intros w s Hw. exact Hw. Qed.

Lemma marks_nothing_keeps (base : Store) (stmt : Store -> exn + Store) :
  marks_nothing stmt -> keeps_statement (kept base) stmt.
Proof.
  intros Hs w st' [Hdb Hview] E. split; [exact Hdb|].
  eapply no_new_read_trans; [exact Hview|now apply Hs].
Qed.

Lemma insert_notification_marks_nothing (student_id : Z) (message : string)
    (now : Timestamp) :
  marks_nothing (insert_notification student_id message now).
Proof.
  intros st st' [= <-] n Hin Hr. simpl in Hin. apply in_app_or in Hin.
  destruct Hin as [Hin|[<-|[]]]; [exact Hin|discriminate Hr].
Qed.

Lemma insert_student_marks_nothing (full_name password room_number gender : string) :
  marks_nothing (insert_student full_name password room_number gender).
Proof.
  intros st st'. unfold insert_student. destruct (existsb _ _); [discriminate|].
  intros [= <-]. now apply no_new_read_same_notifications.
Qed.

Lemma insert_laundry_marks_nothing (student_id : Z) (now : Timestamp) :
  marks_nothing (insert_laundry student_id now).
Proof. intros st st' [= <-]. now apply no_new_read_same_notifications. Qed.

Lemma insert_complaint_marks_nothing (student_id : Z) (laundry_id description : string)
    (now : Timestamp) :
  marks_nothing (insert_complaint integer_affinity student_id laundry_id description now).
Proof. intros st st' [= <-]. now apply no_new_read_same_notifications. Qed.

Lemma update_laundry_status_marks_nothing (new_status : string) (laundry_id : Z) :
  marks_nothing (update_laundry_status new_status laundry_id).
Proof. intros st st' [= <-]. now apply no_new_read_same_notifications. Qed.

Lemma update_complaint_resolved_marks_nothing (response : string) (now : Timestamp)
    (complaint_id : Z) :
  marks_nothing (update_complaint_resolved response now complaint_id).
Proof. intros st st' [= <-]. now apply no_new_read_same_notifications. Qed.

#[local] Hint Resolve marks_nothing_keeps insert_notification_marks_nothing
  insert_student_marks_nothing insert_laundry_marks_nothing
  insert_complaint_marks_nothing update_laundry_status_marks_nothing
  update_complaint_resolved_marks_nothing : kept.

Lemma create_notification_keeps_read (base : Store) (student_id : Z) (message : string) :
  preserves (kept base) (create_notification student_id message).
Proof. unfold create_notification. walk. Qed.

#[local] Hint Resolve create_notification_keeps_read : kept.

Lemma handle_keeps_read (base : Store) (r : Request) :
  (forall k, r <> GetMarkNotificationRead k) ->
  preserves (kept base) (handle integer_affinity r).
Proof.
  intros Hr. destruct r; try (exfalso; eapply Hr; reflexivity); simpl;
    unfold home, login, register, student_dashboard, submit_laundry,
      submit_complaint, admin_dashboard, update_status, resolve_complaint, logout;
    walk.
Qed.

(** C10: [create_notification] leaves the notifications as they were or
    appends one row whose [is_read] is 0; and a request to any handler other
    than [mark_notification_read], whatever fails in the store, ends with no
    notification read that was not the same row, read, before: a row created
    by the request is unread, and a row unread before is unread after. *)
Theorem is_read_only_by_mark_notification_read :
  (forall w student_id message,
      let w' := snd (create_notification student_id message w) in
      notifications (w_view w') = notifications (w_db w)
      \/ notifications (w_view w') = notifications (w_view w)
      \/ notifications (w_view w')
         = (notifications (w_view w) ++
            [new_notification (notifications (w_view w)) student_id message
               (w_clock w (w_tick w))])%list)
  /\ (forall r w n,
        (forall k, r <> GetMarkNotificationRead k) ->
        In n (notifications (w_db (snd (serve integer_affinity r w)))) ->
        n_is_read n = true ->
        In n (notifications (w_db w))).
Proof.
  split.
  - intros w student_id message.
    unfold create_notification. unfold_monad. simpl.
    destruct (w_fault w (w_ops w)); simpl; [now left|].
    destruct (w_fault w (S (w_ops w))); simpl; [now left|].
    right. right. reflexivity.
  - intros r w n Hr Hin Hread.
    assert (H0 : kept (w_db w) (get_db w)) by (split; apply no_new_read_refl).
    apply (handle_keeps_read Hr) in H0. unfold serve in Hin.
    destruct (handle integer_affinity r (get_db w)) as [[resp|e] w1];
      simpl in *; destruct H0 as [Hdb _]; now apply Hdb.
Qed.

(** *** The constraints of the schema hold between requests *)

Lemma rowid_below_next (ids : list Z) (x : Z) : In x ids -> x < next_rowid ids.
Proof.
  unfold next_rowid. induction ids as [|y ids IH]; cbn [fold_right In]; [tauto|].
  intros [->|Hin]; [lia|]. specialize (IH Hin). lia.
Qed.

Lemma next_rowid_fresh (ids : list Z) : ~ In (next_rowid ids) ids.
Proof. intros Hin. apply rowid_below_next in Hin. lia. Qed.

Lemma NoDup_snoc {A} (l : list A) (x : A) : NoDup l -> ~ In x l -> NoDup (l ++ [x]).
Proof.
  intros Hl Hx. apply (Permutation_NoDup (Permutation_cons_append l x)).
  now constructor.
Qed.

Lemma name_free (full_name : string) (rows : list Student) :
  existsb (fun s => String.eqb (s_full_name s) full_name) rows = false ->
  ~ In full_name (map s_full_name rows).
Proof.
  intros Hex Hin. apply in_map_iff in Hin. destruct Hin as (s & Hs & Hin).
  assert (Ht : existsb (fun s => String.eqb (s_full_name s) full_name) rows = true).
  { apply existsb_exists. exists s. split; [exact Hin|now apply String.eqb_eq]. }
  congruence.
Qed.

#[local] Instance ok_stable : Stable ok.
Proof.
  split; intros w; intros; unfold ok in *; simpl; tauto.
Qed.

#[local] Instance ok_as_stable (student_id : Z) : Stable (ok_as student_id).
Proof.
  split; intros w; intros; unfold ok_as, ok in *; simpl; tauto.
Qed.

Lemma grows_keeps (stmt : Store -> exn + Store) :
  grows stmt -> keeps_statement ok stmt.
Proof.
  intros Hg w st' (Hdb & Hview & Hsdb & Hsview) E.
  destruct (Hg _ _ E Hview) as [Hok Hincl].
  unfold ok. simpl. repeat split; try assumption; try apply Hdb; try apply Hok.
  intros u Hu. apply Hincl, Hsview, Hu.
Qed.

Lemma grows_keeps_as (student_id : Z) (stmt : Store -> exn + Store) :
  grows stmt -> keeps_statement (ok_as student_id) stmt.
Proof.
  intros Hg w st' [Hw Hu] E. split; [exact (grows_keeps Hg Hw E)|exact Hu].
Qed.

Lemma same_people_grows (stmt : Store -> exn + Store) :
  (forall st st', stmt st = inr st' ->
     students st' = students st /\ laundry st' = laundry st) ->
  grows stmt.
Proof.
  intros Hsame st st' E Hok. destruct (Hsame _ _ E) as [Hs Hl].
  unfold ok_store, owners_known in *. rewrite Hs, Hl.
  split; [exact Hok|apply incl_refl].
Qed.

Lemma insert_student_grows (full_name password room_number gender : string) :
  grows (insert_student full_name password room_number gender).
Proof.
  intros st st'. unfold insert_student.
  destruct (existsb _ (students st)) eqn:E; [discriminate|].
  intros [= <-] [[Hids Hfk] Hnames]. unfold ok_store, owners_known. simpl.
  rewrite !map_app. simpl. repeat split.
  - apply NoDup_snoc; [exact Hids|apply next_rowid_fresh].
  - intros l Hl. apply in_or_app. left. now apply Hfk.
  - apply NoDup_snoc; [exact Hnames|now apply name_free].
  - intros u Hu. apply in_or_app. now left.
Qed.

Lemma insert_notification_grows (student_id : Z) (message : string) (now : Timestamp) :
  grows (insert_notification student_id message now).
Proof. apply same_people_grows. intros st st' [= <-]. now split. Qed.

Lemma insert_complaint_grows (student_id : Z) (laundry_id description : string)
    (now : Timestamp) :
  grows (insert_complaint integer_affinity student_id laundry_id description now).
Proof. apply same_people_grows. intros st st' [= <-]. now split. Qed.

Lemma update_notification_read_grows (notification_id : Z) :
  grows (update_notification_read notification_id).
Proof. apply same_people_grows. intros st st' [= <-]. now split. Qed.

Lemma update_complaint_resolved_grows (response : string) (now : Timestamp)
    (complaint_id : Z) :
  grows (update_complaint_resolved response now complaint_id).
Proof. apply same_people_grows. intros st st' [= <-]. now split. Qed.

Lemma update_laundry_status_grows (new_status : string) (laundry_id : Z) :
  grows (update_laundry_status new_status laundry_id).
Proof.
  intros st st' [= <-] [[Hids Hfk] Hnames]. unfold ok_store, owners_known. simpl.
  repeat split; try assumption; [|apply incl_refl].
  intros l Hl. apply in_map_iff in Hl. destruct Hl as (x & <- & Hx).
  destruct (l_id x =? laundry_id); simpl; now apply Hfk.
Qed.

(** A bag submitted in the session of a student of the store has an owner. *)
Lemma insert_laundry_keeps_as (student_id : Z) (now : Timestamp) :
  keeps_statement (ok_as student_id) (insert_laundry student_id now).
Proof.
  intros w st' [(Hdb & [[Hids Hfk] Hnames] & Hsdb & Hsview) Hu] [= <-].
  unfold ok_as, ok, ok_store, owners_known. simpl.
  repeat split; try assumption; try apply Hdb.
  intros l Hl. apply in_app_or in Hl. destruct Hl as [Hl|[<-|[]]].
  - now apply Hfk.
  - simpl. now apply Hsview.
Qed.

Lemma session_clear_keeps_ok : preserves ok session_clear.
Proof.
  intros w (Hdb & Hview & _ & _). unfold ok. simpl.
  repeat split; try assumption; try apply Hdb; try apply Hview; discriminate.
Qed.

Lemma session_set_is_admin_keeps_ok (b : bool) : preserves ok (session_set_is_admin b).
Proof. intros w Hw. exact Hw. Qed.

#[local] Hint Resolve grows_keeps grows_keeps_as insert_student_grows
  insert_notification_grows insert_complaint_grows update_notification_read_grows
  update_complaint_resolved_grows update_laundry_status_grows
  insert_laundry_keeps_as session_clear_keeps_ok session_set_is_admin_keeps_ok : kept.

Lemma create_notification_keeps_ok (student_id : Z) (message : string) :
  preserves ok (create_notification student_id message).
Proof. unfold create_notification. walk. Qed.

#[local] Hint Resolve create_notification_keeps_ok : kept.

Lemma submit_laundry_keeps_ok : preserves ok submit_laundry.
Proof.
  intros w Hw. unfold submit_laundry. unfold bind at 1, get_session at 1.
  destruct (user_id (w_session w)) as [student_id|] eqn:Eu; [|exact Hw].
  match goal with
  | |- ok (snd (?m w)) =>
      assert (Hm : preserves (ok_as student_id) m) by walk;
      exact (proj1 (Hm w (conj Hw Eu)))
  end.
Qed.

#[local] Hint Resolve submit_laundry_keeps_ok : kept.

Lemma handle_keeps_ok (r : Request) :
  (forall full_name password, r <> PostLogin full_name password) ->
  preserves ok (handle integer_affinity r).
Proof.
  intros Hr. destruct r; try (exfalso; eapply Hr; reflexivity); simpl;
    try apply submit_laundry_keeps_ok;
    unfold home, login, register, student_dashboard, submit_complaint,
      mark_notification_read, admin_dashboard, update_status, resolve_complaint,
      logout;
    walk.
Qed.

(** Logging in binds the session to a student of the store only. *)
Lemma login_keeps_well_formed (w : World) (full_name password : string) :
  well_formed w ->
  well_formed (snd (serve integer_affinity (PostLogin full_name password) w)).
Proof.
  intros [Hst Hs].
  remember (serve integer_affinity (PostLogin full_name password) w) as p eqn:Hp.
  unfold serve, handle, login in Hp.
  destruct (String.eqb full_name "admin" && String.eqb password "admin123").
  - unfold_monad. simpl in Hp. subst p. now split.
  - unfold_monad. unfold select_student_by_credentials in Hp. simpl in Hp.
    destruct (w_fault w (w_ops w)); simpl in Hp; [subst p; now split|].
    pose proof (first_with_credentials (students (w_db w)) full_name password) as Hfirst.
    destruct (hd_error _) as [s|]; simpl in Hp; subst p; [|now split].
    split; [exact Hst|]. simpl. intros u [= <-].
    apply in_map, Hfirst.
Qed.

(** Every request, whatever fails in the store, keeps the constraints of the
    schema: unique student ids, unique full names, an owner for every bag,
    and a session whose student exists. *)
Theorem serve_keeps_well_formed (r : Request) (w : World) :
  well_formed w -> well_formed (snd (serve integer_affinity r w)).
Proof.
  intros Hw.
  assert (Hlogin : (exists n p, r = PostLogin n p)
                   \/ forall n p, r <> PostLogin n p).
  { destruct r; try (right; discriminate). left. eauto. }
  destruct Hlogin as [(n & p & ->)|Hr]; [now apply login_keeps_well_formed|].
  assert (H0 : ok (get_db w)) by (destruct Hw; unfold ok; simpl; tauto).
  apply (handle_keeps_ok Hr) in H0. unfold serve.
  destruct (handle integer_affinity r (get_db w)) as [[resp|e] w1];
    destruct H0 as (Hdb & _ & Hsdb & _); now split.
Qed.

(** *** What a request leaves alone *)

#[local] Instance same_oracles_stable (w0 : World) : Stable (same_oracles w0).
Proof. split; intros w; intros; assumption. Qed.

#[local] Instance same_oracles_session_free (w0 : World) : SessionFree (same_oracles w0).
Proof. intros w s Hw. exact Hw. Qed.

Lemma same_oracles_keeps (w0 : World) (stmt : Store -> exn + Store) :
  keeps_statement (same_oracles w0) stmt.
Proof. intros w st' Hw _. exact Hw. Qed.

#[local] Instance same_session_stable (s : Session) : Stable (same_session s).
Proof. split; intros w; intros; assumption. Qed.

Lemma same_session_keeps (s : Session) (stmt : Store -> exn + Store) :
  keeps_statement (same_session s) stmt.
Proof. intros w st' Hw _. exact Hw. Qed.

#[local] Hint Resolve same_oracles_keeps same_session_keeps : kept.

Lemma handle_same_oracles (w0 : World) (r : Request) :
  preserves (same_oracles w0) (handle integer_affinity r).
Proof.
  destruct r; simpl;
    unfold home, login, register, student_dashboard, submit_laundry,
      submit_complaint, mark_notification_read, admin_dashboard, update_status,
      resolve_complaint, logout, create_notification;
    walk.
Qed.

Lemma serve_same_oracles (r : Request) (w : World) :
  same_oracles w (snd (serve integer_affinity r w)).
Proof.
  assert (H0 : same_oracles w (get_db w)) by (split; reflexivity).
  apply (handle_same_oracles r) in H0. unfold serve.
  destruct (handle integer_affinity r (get_db w)) as [[resp|e] w1]; exact H0.
Qed.

Lemma serve_quiet (r : Request) (w : World) :
  quiet w -> quiet (snd (serve integer_affinity r w)).
Proof.
  intros Hq k. destruct (serve_same_oracles r w) as [Hf _]. rewrite Hf. apply Hq.
Qed.

Lemma handle_same_session (s : Session) (r : Request) :
  writes_session r = false ->
  preserves (same_session s) (handle integer_affinity r).
Proof.
  intros Hr. destruct r; try discriminate Hr; simpl;
    unfold home, login, register, student_dashboard, submit_laundry,
      submit_complaint, mark_notification_read, admin_dashboard, update_status,
      resolve_complaint, create_notification;
    walk.
Qed.

Lemma serve_same_session (r : Request) (w : World) :
  writes_session r = false ->
  w_session (snd (serve integer_affinity r w)) = w_session w.
Proof.
  intros Hr.
  assert (H0 : same_session (w_session w) (get_db w)) by reflexivity.
  apply (@handle_same_session (w_session w) r Hr) in H0. unfold serve.
  destruct (handle integer_affinity r (get_db w)) as [[resp|e] w1]; exact H0.
Qed.

(** *** Submitting laundry *)

Lemma active_filter_length (student_id : Z) (rows : list Laundry) :
  List.length (filter (fun l => (l_student_id l =? student_id)
                                && not_in (l_status l) ["collected"; "complete"])
                      rows)
  = active_bags student_id rows.
Proof.
  induction rows as [|b rest IH]; simpl; [reflexivity|].
  rewrite not_in_inactive_statuses.
  destruct ((l_student_id b =? student_id) && is_activeb b); simpl; congruence.
Qed.

Lemma active_bags_app (student_id : Z) (l1 l2 : list Laundry) :
  active_bags student_id (l1 ++ l2)
  = (active_bags student_id l1 + active_bags student_id l2)%nat.
Proof.
  induction l1 as [|b l1 IH]; simpl; [reflexivity|].
  destruct ((l_student_id b =? student_id) && is_activeb b); simpl; now rewrite IH.
Qed.

Lemma active_bags_new_bag (u student_id : Z) (rows : list Laundry) (now : Timestamp) :
  active_bags u (rows ++ [new_bag rows student_id now])
  = (active_bags u rows + if (student_id =? u)%Z then 1 else 0)%nat.
Proof.
  rewrite active_bags_app. simpl. destruct (student_id =? u); reflexivity.
Qed.

(** X3: whatever fails in the store, [submit_laundry] in a student's session
    ends with the committed store as it was, or with exactly one new
    'pending' bag of that student, dated by the clock and with a fresh id,
    committed once; and the bag is stored only when the student had fewer
    than 2 active bags, the response is the redirect and the success message
    is the only one flashed. *)
Theorem submit_laundry_all_or_nothing (w : World) (student_id : Z)
    (Hsession : user_id (w_session w) = Some student_id) :
  let after := serve integer_affinity PostSubmitLaundry w in
  let added := with_new_bag (w_db w) student_id (w_clock w (w_tick w)) in
  (w_db (snd after) = w_db w /\ w_log (snd after) = w_log w)
  \/ ((active_bags student_id (laundry (w_db w)) < 2)%nat
      /\ w_db (snd after) = added
      /\ w_log (snd after) = (w_log w ++ [added])%list
      /\ fst after = Response (Redirect ep_student_dashboard)
      /\ w_flashes (snd after) = (w_flashes w ++ [submitted_message])%list).
Proof.
  intros after added.
  remember (serve integer_affinity PostSubmitLaundry w) as p eqn:Hp.
  unfold serve, handle, submit_laundry in Hp. unfold_monad. simpl in Hp.
  rewrite Hsession in Hp. simpl in Hp.
  destruct (w_fault w (w_ops w)) as [m1|]; simpl in Hp;
    [left; subst p after; now split|].
  rewrite active_filter_length in Hp.
  destruct (2 <=? Z.of_nat (active_bags student_id (laundry (w_db w)))) eqn:E;
    simpl in Hp; [left; subst p after; now split|].
  apply Z.leb_gt in E.
  destruct (w_fault w (S (w_ops w))) as [m2|]; simpl in Hp;
    [left; subst p after; now split|].
  destruct (w_fault w (S (S (w_ops w)))) as [m3|]; simpl in Hp;
    [left; subst p after; now split|].
  right. subst p after. simpl. repeat split. lia.
Qed.

(** X1: with fewer than 2 active bags and nothing failing in the store,
    [submit_laundry] stores one new 'pending' bag of the session's student,
    flashes the success message, redirects to the student dashboard, and the
    student's count of active bags is one more than before. *)
Theorem submit_laundry_accepts (w : World) (student_id : Z)
    (Hsession : user_id (w_session w) = Some student_id)
    (Hq : quiet w)
    (Hroom : (active_bags student_id (laundry (w_db w)) < 2)%nat) :
  let after := serve integer_affinity PostSubmitLaundry w in
  fst after = Response (Redirect ep_student_dashboard)
  /\ w_db (snd after) = with_new_bag (w_db w) student_id (w_clock w (w_tick w))
  /\ w_flashes (snd after) = (w_flashes w ++ [submitted_message])%list
  /\ active_bags student_id (laundry (w_db (snd after)))
     = S (active_bags student_id (laundry (w_db w))).
Proof.
  intros after.
  assert (E : (2 <=? Z.of_nat (active_bags student_id (laundry (w_db w)))) = false)
    by (apply Z.leb_gt; lia).
  remember (serve integer_affinity PostSubmitLaundry w) as p eqn:Hp.
  unfold serve, handle, submit_laundry in Hp. unfold_monad. simpl in Hp.
  rewrite Hsession in Hp. run_quiet Hq Hp.
  rewrite active_filter_length in Hp. rewrite E in Hp.
  run_quiet Hq Hp. subst p after. simpl. repeat split.
  change (laundry (w_db w) ++ _)%list
    with (laundry (w_db w)
          ++ [new_bag (laundry (w_db w)) student_id (w_clock w (w_tick w))])%list.
  rewrite active_bags_new_bag, Z.eqb_refl. lia.
Qed.

(** X2: [submit_laundry] never takes a student's count of active bags above
    2, and never above what it was if that was more: for every student, every
    session and whatever fails in the store. *)
Theorem submit_laundry_keeps_cap (w : World) (u : Z) :
  (active_bags u (laundry (w_db (snd (serve integer_affinity PostSubmitLaundry w))))
   <= Nat.max 2 (active_bags u (laundry (w_db w))))%nat.
Proof.
  remember (Nat.max 2 (active_bags u (laundry (w_db w)))) as cap eqn:Hcap.
  remember (serve integer_affinity PostSubmitLaundry w) as p eqn:Hp.
  unfold serve, handle, submit_laundry in Hp. unfold_monad. simpl in Hp.
  destruct (user_id (w_session w)) as [student_id|]; simpl in Hp;
    [|subst p; simpl; lia].
  destruct (w_fault w (w_ops w)) as [m1|]; simpl in Hp; [subst p; simpl; lia|].
  rewrite active_filter_length in Hp.
  destruct (2 <=? Z.of_nat (active_bags student_id (laundry (w_db w)))) eqn:E;
    simpl in Hp; [subst p; simpl; lia|].
  apply Z.leb_gt in E.
  destruct (w_fault w (S (w_ops w))) as [m2|]; simpl in Hp; [subst p; simpl; lia|].
  destruct (w_fault w (S (S (w_ops w)))) as [m3|]; simpl in Hp;
    [subst p; simpl; lia|].
  subst p. simpl.
  change (laundry (w_db w) ++ _)%list
    with (laundry (w_db w) ++ [new_bag (laundry (w_db w)) student_id (w_clock w (w_tick w))])%list.
  rewrite active_bags_new_bag.
  destruct (student_id =? u) eqn:Eu; [|lia].
  apply Z.eqb_eq in Eu. subst u. lia.
Qed.

(** X4: the success message is flashed before the commit: when the count
    and the INSERT succeed and the commit fails with [msg], the student is
    told "Laundry submitted successfully!" and then "Error submitting
    laundry: msg", and no bag is stored. *)
Theorem submit_laundry_commit_fails (w : World) (student_id : Z) (msg : string)
    (Hsession : user_id (w_session w) = Some student_id)
    (Hroom : (active_bags student_id (laundry (w_db w)) < 2)%nat)
    (Hcount : w_fault w (w_ops w) = None)
    (Hinsert : w_fault w (S (w_ops w)) = None)
    (Hcommit : w_fault w (S (S (w_ops w))) = Some msg) :
  let after := serve integer_affinity PostSubmitLaundry w in
  fst after = Response (Redirect ep_student_dashboard)
  /\ w_flashes (snd after)
     = (w_flashes w ++ [submitted_message; "Error submitting laundry: " ++ msg]%string)%list
  /\ w_db (snd after) = w_db w.
Proof.
  intros after.
  assert (E : (2 <=? Z.of_nat (active_bags student_id (laundry (w_db w)))) = false)
    by (apply Z.leb_gt; lia).
  remember (serve integer_affinity PostSubmitLaundry w) as p eqn:Hp.
  unfold serve, handle, submit_laundry in Hp. unfold_monad. simpl in Hp.
  rewrite Hsession in Hp. simpl in Hp. rewrite Hcount in Hp. simpl in Hp.
  rewrite active_filter_length in Hp. rewrite E in Hp. simpl in Hp.
  rewrite Hinsert in Hp. simpl in Hp. rewrite Hcommit in Hp. simpl in Hp.
  subst p after. simpl. rewrite <- app_assoc. repeat split.
Qed.

Lemma submit_times_frame (n : nat) (w : World) :
  quiet w ->
  quiet (submit_times integer_affinity n w)
  /\ w_session (submit_times integer_affinity n w) = w_session w.
Proof.
  intros Hq. induction n as [|n [IHq IHs]]; [now split|].
  unfold submit_times in *. simpl. split.
  - now apply serve_quiet.
  - rewrite serve_same_session by reflexivity. exact IHs.
Qed.

(** One submission when nothing fails in the store: stored below the cap,
    refused at it. *)
Lemma submit_laundry_step (w : World) (student_id : Z) :
  user_id (w_session w) = Some student_id -> quiet w ->
  active_bags student_id (laundry (w_db (snd (serve integer_affinity PostSubmitLaundry w))))
  = if (active_bags student_id (laundry (w_db w)) <? 2)%nat
    then S (active_bags student_id (laundry (w_db w)))
    else active_bags student_id (laundry (w_db w)).
Proof.
  intros Hsession Hq.
  remember (serve integer_affinity PostSubmitLaundry w) as p eqn:Hp.
  unfold serve, handle, submit_laundry in Hp. unfold_monad. simpl in Hp.
  rewrite Hsession in Hp. run_quiet Hq Hp.
  rewrite active_filter_length in Hp.
  destruct (active_bags student_id (laundry (w_db w)) <? 2)%nat eqn:E.
  - apply Nat.ltb_lt in E.
    assert (E' : (2 <=? Z.of_nat (active_bags student_id (laundry (w_db w)))) = false)
      by (apply Z.leb_gt; lia).
    rewrite E' in Hp. run_quiet Hq Hp. subst p. simpl.
    change (laundry (w_db w) ++ _)%list
      with (laundry (w_db w)
            ++ [new_bag (laundry (w_db w)) student_id (w_clock w (w_tick w))])%list.
    rewrite active_bags_new_bag, Z.eqb_refl. lia.
  - apply Nat.ltb_ge in E.
    assert (E' : (2 <=? Z.of_nat (active_bags student_id (laundry (w_db w)))) = true)
      by (apply Z.leb_le; lia).
    rewrite E' in Hp. simpl in Hp. subst p. reflexivity.
Qed.

(** X5: from a student's session with at most 2 active bags, [n] submissions
    in a row with nothing failing in the store leave the student with 2
    active bags, or with [n] more than before if that is less: the first
    submissions are stored until the cap is reached and the others refused. *)
Theorem submit_times_reaches_cap (n : nat) (w : World) (student_id : Z)
    (Hsession : user_id (w_session w) = Some student_id)
    (Hq : quiet w)
    (Hcap : (active_bags student_id (laundry (w_db w)) <= 2)%nat) :
  active_bags student_id (laundry (w_db (submit_times integer_affinity n w)))
  = Nat.min 2 (active_bags student_id (laundry (w_db w)) + n).
Proof.
  induction n as [|n IH]; [unfold submit_times; cbn [Nat.iter nat_rect]; lia|].
  destruct (submit_times_frame n Hq) as [Hqn Hsn].
  change (submit_times integer_affinity (S n) w)
    with (snd (serve integer_affinity PostSubmitLaundry
                 (submit_times integer_affinity n w))).
  set (wn := submit_times integer_affinity n w) in *.
  assert (Hsess : user_id (w_session wn) = Some student_id) by now rewrite Hsn.
  rewrite (submit_laundry_step Hsess Hqn), IH.
  destruct (Nat.min 2 (active_bags student_id (laundry (w_db w)) + n) <? 2)%nat eqn:E;
    [apply Nat.ltb_lt in E|apply Nat.ltb_ge in E]; lia.
Qed.

(** *** The administrator's writes *)

Lemma complaint_missing (rows : list Complaint) (complaint_id : Z) :
  find (fun c => c_id c =? complaint_id) rows = None ->
  filter (fun c => c_id c =? complaint_id) rows = []
  /\ forall response now,
       map (fun c => if c_id c =? complaint_id then resolved response now c else c) rows
       = rows.
Proof.
  induction rows as [|x rest IH]; simpl; [now split|].
  destruct (c_id x =? complaint_id); [discriminate|].
  intros Hnone. destruct (IH Hnone) as [Hf Hm]. split; [exact Hf|].
  intros response now. now rewrite Hm.
Qed.

(** X6: for a laundry id that is not in the store, the administrator's
    update_status to 'complete', the UPDATE and the SELECT not failing, ends
    in a fault: the TypeError of subscripting the owner row that is not
    there, which is not a [sqlite3.Error] and so is not caught; nothing is
    flashed and the store is unchanged. *)
Theorem update_status_complete_missing_faults (w : World) (laundry_id : Z)
    (Hadmin : is_admin (w_session w) <> None)
    (Hmissing : find (fun l => l_id l =? laundry_id) (laundry (w_db w)) = None)
    (Hupdate : w_fault w (w_ops w) = None)
    (Hselect : w_fault w (S (w_ops w)) = None) :
  let after := serve integer_affinity (PostUpdateStatus laundry_id "complete") w in
  fst after = Fault subscript_error
  /\ w_flashes (snd after) = w_flashes w
  /\ w_db (snd after) = w_db w.
Proof.
  intros after.
  assert (Hnone := owner_missing (laundry (w_db w)) laundry_id Hmissing).
  assert (Hnoop := update_missing_noop (laundry (w_db w)) laundry_id "complete" Hmissing).
  unfold with_status in Hnoop.
  remember (serve integer_affinity (PostUpdateStatus laundry_id "complete") w) as p eqn:Hp.
  unfold serve, handle, update_status in Hp. unfold_monad. simpl in Hp.
  destruct (is_admin (w_session w)) as [adm|]; [clear Hadmin|congruence].
  simpl in Hp. rewrite Hupdate in Hp. simpl in Hp. rewrite Hselect in Hp. simpl in Hp.
  rewrite Hnoop in Hp. unfold select_laundry_owner in Hp. simpl in Hp.
  rewrite Hnone in Hp. simpl in Hp.
  subst p after. simpl. repeat split.
Qed.

(** X7: for a complaint id that is not in the store, the administrator's
    resolve_complaint, the UPDATE and the SELECT not failing, ends in the
    same uncaught TypeError; nothing is flashed and the store is unchanged. *)
Theorem resolve_complaint_missing_faults (w : World) (complaint_id : Z)
    (response : string)
    (Hadmin : is_admin (w_session w) <> None)
    (Hmissing : find (fun c => c_id c =? complaint_id) (complaints (w_db w)) = None)
    (Hupdate : w_fault w (w_ops w) = None)
    (Hselect : w_fault w (S (w_ops w)) = None) :
  let after := serve integer_affinity (PostResolveComplaint complaint_id response) w in
  fst after = Fault subscript_error
  /\ w_flashes (snd after) = w_flashes w
  /\ w_db (snd after) = w_db w.
Proof.
  intros after.
  destruct (complaint_missing (complaints (w_db w)) complaint_id Hmissing)
    as [Hnone Hnoop].
  specialize (Hnoop response (w_clock w (w_tick w))). unfold resolved in Hnoop.
  remember (serve integer_affinity (PostResolveComplaint complaint_id response) w)
    as p eqn:Hp.
  unfold serve, handle, resolve_complaint in Hp. unfold_monad. simpl in Hp.
  destruct (is_admin (w_session w)) as [adm|]; [clear Hadmin|congruence].
  simpl in Hp. rewrite Hupdate in Hp. simpl in Hp. rewrite Hselect in Hp. simpl in Hp.
  rewrite Hnoop in Hp. unfold select_complaint_student in Hp. simpl in Hp.
  rewrite Hnone in Hp. simpl in Hp.
  subst p after. simpl. repeat split.
Qed.

(** X8: for an existing complaint, whatever store operation fails,
    resolve_complaint ends with the committed store as it was, or with the
    complaint resolved and its student notified, both made durable by one
    commit: never the one without the other. *)
Theorem resolve_complaint_atomic (w : World) (complaint_id : Z) (c : Complaint)
    (response : string)
    (Hadmin : is_admin (w_session w) <> None)
    (Hc : find (fun c => c_id c =? complaint_id) (complaints (w_db w)) = Some c) :
  let after := serve integer_affinity (PostResolveComplaint complaint_id response) w in
  let done := resolved_store (w_db w) complaint_id (c_student_id c) response
                (w_clock w (w_tick w)) (w_clock w (S (w_tick w))) in
  (w_db (snd after) = w_db w /\ w_log (snd after) = w_log w)
  \/ (w_db (snd after) = done /\ w_log (snd after) = (w_log w ++ [done])%list
      /\ fst after = Response (Redirect ep_admin_dashboard)).
Proof.
  intros after done.
  assert (Hstudent := student_after_resolve (complaints (w_db w)) complaint_id
                        response (w_clock w (w_tick w)) Hc).
  unfold resolved in Hstudent.
  remember (serve integer_affinity (PostResolveComplaint complaint_id response) w)
    as p eqn:Hp.
  unfold serve, handle, resolve_complaint in Hp. unfold_monad.
  unfold select_complaint_student in Hp. simpl in Hp.
  destruct (is_admin (w_session w)) as [adm|]; [clear Hadmin|congruence].
  simpl in Hp.
  destruct (w_fault w (w_ops w)) as [m1|]; simpl in Hp;
    [left; subst p after; now split|].
  destruct (w_fault w (S (w_ops w))) as [m2|]; simpl in Hp;
    [left; subst p after; now split|].
  rewrite Hstudent in Hp. simpl in Hp.
  destruct (w_fault w (S (S (w_ops w)))) as [m3|]; simpl in Hp;
    [left; subst p after; now split|].
  destruct (w_fault w (S (S (S (w_ops w))))) as [m4|]; simpl in Hp;
    [left; subst p after; now split|].
  right. subst p after. simpl. repeat split.
Qed.

(** X9: update_status to any status other than exactly 'complete' creates
    no notification, whoever asks and whatever fails: students, complaints
    and notifications stay as they were, and the laundry table stays as it
    was or has the status of the bag with that id replaced, which it has, with
    the message "Status updated to <status>!" and the redirect to the admin
    dashboard, when the administrator asks and nothing fails. *)
Theorem update_status_without_notification (w : World) (laundry_id : Z)
    (status : string)
    (Hstatus : status <> "complete") :
  let after := serve integer_affinity (PostUpdateStatus laundry_id status) w in
  notifications (w_db (snd after)) = notifications (w_db w)
  /\ students (w_db (snd after)) = students (w_db w)
  /\ complaints (w_db (snd after)) = complaints (w_db w)
  /\ (laundry (w_db (snd after)) = laundry (w_db w)
      \/ laundry (w_db (snd after)) = restatus status laundry_id (laundry (w_db w)))
  /\ (is_admin (w_session w) <> None -> quiet w ->
        laundry (w_db (snd after)) = restatus status laundry_id (laundry (w_db w))
        /\ fst after = Response (Redirect ep_admin_dashboard)
        /\ w_flashes (snd after) = (w_flashes w ++ [status_message status])%list).
Proof.
  intros after. apply String.eqb_neq in Hstatus.
  remember (serve integer_affinity (PostUpdateStatus laundry_id status) w) as p eqn:Hp.
  unfold serve, handle, update_status in Hp. unfold_monad. simpl in Hp.
  destruct (is_admin (w_session w)) as [adm|]; simpl in Hp.
  - rewrite Hstatus in Hp. simpl in Hp.
    destruct (w_fault w (w_ops w)) as [m1|] eqn:F1; simpl in Hp.
    { subst p after. simpl. do 3 (split; [reflexivity|]). split; [now left|].
      intros _ Hq. rewrite Hq in F1. discriminate. }
    destruct (w_fault w (S (w_ops w))) as [m2|] eqn:F2; simpl in Hp.
    { subst p after. simpl. do 3 (split; [reflexivity|]). split; [now left|].
      intros _ Hq. rewrite Hq in F2. discriminate. }
    subst p after. simpl. do 3 (split; [reflexivity|]). split; [now right|].
    intros _ _. repeat split.
  - subst p after. simpl. do 3 (split; [reflexivity|]). split; [now left|].
    intros H. now contradict H.
Qed.

Lemma restatus_missing (status : string) (laundry_id : Z) (rows : list Laundry) :
  ~ In laundry_id (map l_id rows) -> restatus status laundry_id rows = rows.
Proof.
  unfold restatus. induction rows as [|x rest IH]; simpl; [reflexivity|].
  intros Hnot. destruct (l_id x =? laundry_id) eqn:E.
  - apply Z.eqb_eq in E. exfalso. apply Hnot. now left.
  - rewrite IH; [reflexivity|]. intros H. apply Hnot. now right.
Qed.

(** Replacing the status of the one bag with id [laundry_id] moves the count
    of a student by what the bag counted for. *)
Lemma active_bags_restatus (u : Z) (status : string) (laundry_id : Z)
    (rows : list Laundry) (bag : Laundry) :
  NoDup (map l_id rows) ->
  find (fun l => l_id l =? laundry_id) rows = Some bag ->
  (active_bags u (restatus status laundry_id rows) + counts_for u bag
   = active_bags u rows + counts_for u (with_status status bag))%nat.
Proof.
  unfold counts_for.
  induction rows as [|x rest IH]; simpl; [discriminate|].
  intros Hnd Hfind. inversion Hnd as [|? ? Hnot Hnd']; subst.
  destruct (l_id x =? laundry_id) eqn:E.
  - injection Hfind as ->. apply Z.eqb_eq in E. rewrite <- E in *.
    fold (restatus status (l_id bag) rest). rewrite restatus_missing by exact Hnot.
    change (l_student_id (with_status status bag)) with (l_student_id bag).
    destruct ((l_student_id bag =? u) && is_activeb (with_status status bag));
      destruct ((l_student_id bag =? u) && is_activeb bag); lia.
  - specialize (IH Hnd' Hfind). fold (restatus status laundry_id rest).
    change (l_student_id (with_status status bag)) with (l_student_id bag) in *.
    destruct ((l_student_id x =? u) && is_activeb x);
      destruct ((l_student_id bag =? u) && is_activeb (with_status status bag));
      destruct ((l_student_id bag =? u) && is_activeb bag); lia.
Qed.

Lemma update_status_laundry (w : World) (laundry_id : Z) (bag : Laundry)
    (status : string) :
  is_admin (w_session w) <> None -> quiet w ->
  find (fun l => l_id l =? laundry_id) (laundry (w_db w)) = Some bag ->
  laundry (w_db (snd (serve integer_affinity (PostUpdateStatus laundry_id status) w)))
  = restatus status laundry_id (laundry (w_db w)).
Proof.
  intros Hadmin Hq Hbag.
  assert (Howner := owner_after_update (laundry (w_db w)) laundry_id status Hbag).
  unfold with_status in Howner.
  remember (serve integer_affinity (PostUpdateStatus laundry_id status) w) as p eqn:Hp.
  unfold serve, handle, update_status in Hp. unfold_monad.
  unfold select_laundry_owner in Hp. simpl in Hp.
  destruct (is_admin (w_session w)) as [adm|]; [clear Hadmin|congruence].
  run_quiet Hq Hp.
  destruct (String.eqb status "complete"); run_quiet Hq Hp.
  - rewrite Howner in Hp. run_quiet Hq Hp. subst p. reflexivity.
  - subst p. reflexivity.
Qed.

(** X10: update_status checks no limit: when the administrator sets the
    status of an existing bag (bag ids being unique) and nothing fails, the
    owner's count of active bags changes by what the bag counted for before
    and counts for after; so a 'collected' bag set back to 'washing' adds
    one to a count that may already be 2 or more, and a bag set to
    'complete' or 'collected' frees one place. *)
Theorem update_status_moves_active_count (w : World) (laundry_id : Z) (bag : Laundry)
    (status : string)
    (Hadmin : is_admin (w_session w) <> None)
    (Hq : quiet w)
    (Hids : NoDup (map l_id (laundry (w_db w))))
    (Hbag : find (fun l => l_id l =? laundry_id) (laundry (w_db w)) = Some bag) :
  let after := serve integer_affinity (PostUpdateStatus laundry_id status) w in
  let owner := l_student_id bag in
  (active_bags owner (laundry (w_db (snd after))) + counts_for owner bag
   = active_bags owner (laundry (w_db w)) + counts_for owner (with_status status bag))%nat.
Proof.
  intros after owner. subst after.
  rewrite (@update_status_laundry w laundry_id bag status Hadmin Hq Hbag).
  now apply active_bags_restatus.
Qed.

(** *** The student's pages *)

Lemma marked_twice (notification_id : Z) (rows : list Notification) :
  marked notification_id (marked notification_id rows) = marked notification_id rows.
Proof.
  unfold marked. rewrite map_map. apply map_ext. intros n.
  destruct (n_id n =? notification_id) eqn:E; simpl; now rewrite E.
Qed.

Lemma marked_missing (notification_id : Z) (rows : list Notification) :
  ~ In notification_id (map n_id rows) -> marked notification_id rows = rows.
Proof.
  unfold marked. induction rows as [|n rest IH]; simpl; [reflexivity|].
  intros Hnot. destruct (n_id n =? notification_id) eqn:E.
  - apply Z.eqb_eq in E. exfalso. apply Hnot. now left.
  - rewrite IH; [reflexivity|]. intros H. apply Hnot. now right.
Qed.

(** One request to mark a notification when nothing fails in the store. *)
Lemma mark_notification_read_run (w : World) (notification_id student_id : Z) :
  user_id (w_session w) = Some student_id -> quiet w ->
  let after := serve integer_affinity (GetMarkNotificationRead notification_id) w in
  fst after = Response (Redirect ep_student_dashboard)
  /\ w_flashes (snd after) = w_flashes w
  /\ w_db (snd after)
     = mkStore (students (w_db w)) (laundry (w_db w)) (complaints (w_db w))
               (marked notification_id (notifications (w_db w))).
Proof.
  intros Hsession Hq after.
  remember (serve integer_affinity (GetMarkNotificationRead notification_id) w)
    as p eqn:Hp.
  unfold serve, handle, mark_notification_read in Hp. unfold_monad. simpl in Hp.
  rewrite Hsession in Hp. run_quiet Hq Hp.
  subst p after. simpl. repeat split.
Qed.

(** X11: in any student's session and with nothing failing,
    mark_notification_read sets [is_read] on the notification with that id,
    whoever it belongs to, and changes nothing else; it flashes nothing and
    redirects to the student dashboard; when no notification has that id the
    store is unchanged and no error is reported; and asking twice leaves the
    store as asking once does. *)
Theorem mark_notification_read_marks (w : World) (notification_id student_id : Z)
    (Hsession : user_id (w_session w) = Some student_id)
    (Hq : quiet w) :
  let after := serve integer_affinity (GetMarkNotificationRead notification_id) w in
  let again := serve integer_affinity (GetMarkNotificationRead notification_id)
                 (snd after) in
  fst after = Response (Redirect ep_student_dashboard)
  /\ w_flashes (snd after) = w_flashes w
  /\ w_db (snd after)
     = mkStore (students (w_db w)) (laundry (w_db w)) (complaints (w_db w))
               (marked notification_id (notifications (w_db w)))
  /\ (forall n, In n (notifications (w_db w)) -> n_id n = notification_id ->
        In (mark_read n) (notifications (w_db (snd after))))
  /\ (~ In notification_id (map n_id (notifications (w_db w))) ->
        w_db (snd after) = w_db w)
  /\ w_db (snd again) = w_db (snd after).
Proof.
  intros after again.
  destruct (mark_notification_read_run notification_id Hsession Hq)
    as (Hout & Hfl & Hdb).
  fold after in Hout, Hfl, Hdb.
  assert (Hs1 : user_id (w_session (snd after)) = Some student_id).
  { unfold after. now rewrite serve_same_session. }
  destruct (mark_notification_read_run notification_id Hs1
              (serve_quiet (GetMarkNotificationRead notification_id) Hq))
    as (_ & _ & Hdb2).
  fold after again in Hdb2.
  do 3 (split; [assumption|]). split; [|split].
  - intros n Hin Hid. rewrite Hdb. simpl. unfold marked.
    apply in_map_iff. exists n. split; [|exact Hin].
    apply Z.eqb_eq in Hid. now rewrite Hid.
  - intros Hnot. rewrite Hdb, marked_missing by exact Hnot. apply store_eta.
  - rewrite Hdb2, Hdb. simpl. now rewrite marked_twice.
Qed.

Lemma in_order_by_desc_filter {A} (key : A -> Z) (f : A -> bool) (l : list A) (x : A) :
  In x (order_by_desc key (filter f l)) <-> In x l /\ f x = true.
Proof.
  rewrite <- filter_In. split; apply Permutation_in.
  - symmetry. apply order_by_desc_perm.
  - apply order_by_desc_perm.
Qed.

Lemma hd_error_filter_find {A} (f : A -> bool) (l : list A) :
  hd_error (filter f l) = find f l.
Proof.
  induction l as [|x l IH]; simpl; [reflexivity|]. now destruct (f x).
Qed.

(** The student dashboard when nothing fails in the store. *)
Lemma student_dashboard_run (w : World) (student_id : Z) :
  user_id (w_session w) = Some student_id -> quiet w ->
  fst (serve integer_affinity GetStudentDashboard w)
  = Response
      (RenderStudentDashboard
         (find (fun s => s_id s =? student_id) (students (w_db w)))
         (select_laundry_of student_id (w_db w))
         (select_unread_of student_id (w_db w))
         (select_complaints_of student_id (w_db w)))
  /\ w_db (snd (serve integer_affinity GetStudentDashboard w)) = w_db w.
Proof.
  intros Hsession Hq.
  remember (serve integer_affinity GetStudentDashboard w) as p eqn:Hp.
  unfold serve, handle, student_dashboard in Hp. unfold_monad. simpl in Hp.
  rewrite Hsession in Hp. run_quiet Hq Hp.
  unfold select_student_by_id in Hp. rewrite hd_error_filter_find in Hp.
  subst p. split; reflexivity.
Qed.

(** X12: in a student's session and with nothing failing, the student
    dashboard shows the student's row, exactly the student's own bags, the
    student's own notifications that are unread, and the student's own
    complaints, each list newest first, and changes nothing in the store. *)
Theorem student_dashboard_shows_own (w : World) (student_id : Z)
    (Hsession : user_id (w_session w) = Some student_id)
    (Hq : quiet w) :
  exists bags unread own,
    fst (serve integer_affinity GetStudentDashboard w)
      = Response (RenderStudentDashboard
                    (find (fun s => s_id s =? student_id) (students (w_db w)))
                    bags unread own)
    /\ (forall b, In b bags <-> In b (laundry (w_db w)) /\ l_student_id b = student_id)
    /\ (forall n, In n unread <->
                  In n (notifications (w_db w)) /\ n_student_id n = student_id
                  /\ n_is_read n = false)
    /\ (forall c, In c own <-> In c (complaints (w_db w)) /\ c_student_id c = student_id)
    /\ Permutation bags
         (filter (fun l => l_student_id l =? student_id) (laundry (w_db w)))
    /\ newest_first l_date_submitted bags
    /\ newest_first n_date_created unread
    /\ newest_first c_date_submitted own
    /\ w_db (snd (serve integer_affinity GetStudentDashboard w)) = w_db w.
Proof.
  destruct (student_dashboard_run Hsession Hq) as [Hout Hdb].
  rewrite Hout, Hdb.
  eexists _, _, _. split; [reflexivity|].
  unfold select_laundry_of, select_unread_of, select_complaints_of.
  split; [intros b; rewrite in_order_by_desc_filter, Z.eqb_eq; reflexivity|].
  split.
  { intros n. rewrite in_order_by_desc_filter, andb_true_iff, Z.eqb_eq, negb_true_iff.
    tauto. }
  split; [intros c; rewrite in_order_by_desc_filter, Z.eqb_eq; reflexivity|].
  split; [symmetry; apply order_by_desc_perm|].
  repeat split; apply order_by_desc_sorted.
Qed.

(** X13: once a student has asked to mark notification [notification_id]
    read, nothing failing, the unread list of that student's dashboard holds
    no notification with that id. *)
Theorem marked_notification_leaves_dashboard (w : World)
    (notification_id student_id : Z)
    (Hsession : user_id (w_session w) = Some student_id)
    (Hq : quiet w) :
  let w1 := snd (serve integer_affinity (GetMarkNotificationRead notification_id) w) in
  exists student bags unread own,
    fst (serve integer_affinity GetStudentDashboard w1)
      = Response (RenderStudentDashboard student bags unread own)
    /\ forall n, In n unread -> n_id n <> notification_id.
Proof.
  intros w1.
  destruct (mark_notification_read_run notification_id Hsession Hq) as (_ & _ & Hdb).
  fold w1 in Hdb.
  assert (Hs1 : user_id (w_session w1) = Some student_id).
  { unfold w1. now rewrite serve_same_session. }
  assert (Hq1 : quiet w1) by now apply serve_quiet.
  rewrite (proj1 (student_dashboard_run Hs1 Hq1)).
  eexists _, _, _, _. split; [reflexivity|].
  intros n Hin Hid. unfold select_unread_of in Hin.
  apply in_order_by_desc_filter in Hin. destruct Hin as [Hin Hunread].
  apply andb_true_iff in Hunread. destruct Hunread as [_ Hunread].
  rewrite Hdb in Hin. simpl in Hin. unfold marked in Hin.
  apply in_map_iff in Hin. destruct Hin as (m & Hm & _).
  destruct (n_id m =? notification_id) eqn:E.
  - subst n. discriminate Hunread.
  - subst n. apply Z.eqb_neq in E. contradiction.
Qed.

(** *** From one page to the next *)

(** The administrator completing an existing bag when nothing fails. *)
Lemma update_status_complete_run (w : World) (laundry_id : Z) (bag : Laundry) :
  is_admin (w_session w) <> None -> quiet w ->
  find (fun l => l_id l =? laundry_id) (laundry (w_db w)) = Some bag ->
  w_db (snd (serve integer_affinity (PostUpdateStatus laundry_id "complete") w))
  = completed_store (w_db w) laundry_id (l_student_id bag) (w_clock w (w_tick w)).
Proof.
  intros Hadmin Hq Hbag.
  assert (Howner := owner_after_update (laundry (w_db w)) laundry_id "complete" Hbag).
  unfold with_status in Howner.
  remember (serve integer_affinity (PostUpdateStatus laundry_id "complete") w) as p eqn:Hp.
  unfold serve, handle, update_status in Hp. unfold_monad.
  unfold select_laundry_owner in Hp. simpl in Hp.
  destruct (is_admin (w_session w)) as [adm|]; [clear Hadmin|congruence].
  run_quiet Hq Hp. rewrite Howner in Hp. run_quiet Hq Hp.
  subst p. reflexivity.
Qed.

(** X14: after the administrator sets an existing bag to 'complete', nothing
    failing, the dashboard of the bag's owner lists the new notification
    "Your laundry is ready for collection!" among the unread ones. *)
Theorem completion_reaches_owner (w : World) (laundry_id : Z) (bag : Laundry)
    (Hadmin : is_admin (w_session w) <> None)
    (Hq : quiet w)
    (Hbag : find (fun l => l_id l =? laundry_id) (laundry (w_db w)) = Some bag) :
  let w1 := snd (serve integer_affinity (PostUpdateStatus laundry_id "complete") w) in
  let owner := l_student_id bag in
  exists student bags unread own,
    fst (serve integer_affinity GetStudentDashboard
           (in_session (mkSession (Some owner) None) w1))
      = Response (RenderStudentDashboard student bags unread own)
    /\ In (new_notification (notifications (w_db w)) owner ready_message
             (w_clock w (w_tick w)))
          unread.
Proof.
  intros w1 owner.
  assert (Hdb : w_db w1 = completed_store (w_db w) laundry_id owner (w_clock w (w_tick w)))
    by now apply update_status_complete_run.
  set (w2 := in_session (mkSession (Some owner) None) w1).
  assert (Hq2 : quiet w2).
  { intros k. unfold w2, in_session. simpl. now apply serve_quiet. }
  assert (Hs2 : user_id (w_session w2) = Some owner) by reflexivity.
  rewrite (proj1 (student_dashboard_run Hs2 Hq2)).
  eexists _, _, _, _. split; [reflexivity|].
  unfold select_unread_of. apply in_order_by_desc_filter.
  change (w_db w2) with (w_db w1). rewrite Hdb. simpl. split.
  - apply in_or_app. right. now left.
  - now rewrite Z.eqb_refl.
Qed.

Lemma no_credentials_when_free (full_name password : string) (rows : list Student) :
  existsb (fun s => String.eqb (s_full_name s) full_name) rows = false ->
  filter (fun s => String.eqb (s_full_name s) full_name
                   && String.eqb (s_password s) password) rows = [].
Proof.
  induction rows as [|x rest IH]; simpl; [reflexivity|].
  destruct (String.eqb (s_full_name x) full_name); simpl; [discriminate|exact IH].
Qed.

(** X15: after a registration under a full_name that was free, nothing
    failing, logging in with the same full_name and password (other than the
    administrator's pair) redirects to the student dashboard with the
    session bound to the id of the new row. *)
Theorem register_then_login (w : World) (full_name password room gender : string)
    (Hq : quiet w)
    (Hfree : name_taken full_name (w_db w) = false)
    (Hns : ~ is_sentinel full_name password) :
  let w1 := snd (serve integer_affinity
                   (PostRegister full_name password room gender) w) in
  let after := serve integer_affinity (PostLogin full_name password) w1 in
  fst after = Response (Redirect ep_student_dashboard)
  /\ user_id (w_session (snd after))
     = Some (next_rowid (map s_id (students (w_db w)))).
Proof.
  intros w1 after.
  destruct (register_effect full_name password room gender Hq) as (Hq1 & _ & Hnew).
  fold w1 in Hq1, Hnew. destruct (Hnew Hfree) as (_ & Hstudents).
  assert (Es : String.eqb full_name "admin" && String.eqb password "admin123" = false).
  { destruct (String.eqb full_name "admin" && String.eqb password "admin123") eqn:E;
      [|reflexivity]. exfalso. apply Hns. now apply sentinel_test. }
  remember (serve integer_affinity (PostLogin full_name password) w1) as p eqn:Hp.
  unfold serve, handle, login in Hp. rewrite Es in Hp.
  unfold_monad. unfold select_student_by_credentials in Hp. run_quiet Hq1 Hp.
  rewrite Hstudents, filter_app, no_credentials_when_free in Hp by exact Hfree.
  simpl in Hp. rewrite !String.eqb_refl in Hp. simpl in Hp.
  subst p after. split; reflexivity.
Qed.

(** X16: logout redirects to the home page and clears the session, so that
    every student-only and every admin-only handler asked next redirects to
    the login page; the store is as it was before the logout. *)
Theorem logout_locks_out (w : World) (r : Request)
    (Hguarded : student_only r = true \/ admin_only r = true) :
  let w1 := snd (serve integer_affinity GetLogout w) in
  fst (serve integer_affinity GetLogout w) = Response (Redirect ep_home)
  /\ w_session w1 = anonymous
  /\ fst (serve integer_affinity r w1) = Response (Redirect ep_login)
  /\ w_db (snd (serve integer_affinity r w1)) = w_db w.
Proof.
  intros w1.
  assert (Hs : w_session w1 = anonymous) by reflexivity.
  assert (Hdb : w_db w1 = w_db w) by reflexivity.
  split; [reflexivity|]. split; [exact Hs|].
  remember (serve integer_affinity r w1) as p eqn:Hp.
  unfold serve, handle in Hp.
  destruct Hguarded as [Hr|Hr]; destruct r; try discriminate Hr;
    unfold student_dashboard, submit_laundry, submit_complaint,
      mark_notification_read, admin_dashboard, update_status, resolve_complaint,
      bind, get_session, ret, get_db, close_db in Hp;
    simpl in Hp; subst p; simpl; split; reflexivity.
Qed.

(** X17: the home page looks at [user_id] before [is_admin], and the
    administrator's login sets [is_admin] only: after that login from a
    session bound to no student, the home page renders the landing page
    instead of redirecting to the admin dashboard; from a session bound to a
    student it redirects to the admin dashboard. *)
Theorem home_after_admin_login (w : World) :
  let w1 := snd (serve integer_affinity (PostLogin "admin" "admin123") w) in
  (user_id (w_session w) = None ->
     fst (serve integer_affinity GetHome w1) = Response RenderIndex)
  /\ (user_id (w_session w) <> None ->
       fst (serve integer_affinity GetHome w1) = Response (Redirect ep_admin_dashboard)).
Proof.
  intros w1.
  remember (serve integer_affinity GetHome w1) as p eqn:Hp.
  unfold serve, handle, home in Hp. unfold_monad. simpl in Hp.
  destruct (user_id (w_session w)) as [u|]; simpl in Hp; subst p; split;
    intros H; try reflexivity; congruence.
Qed.

(** X18: submit_complaint checks nothing about the bag: in a student's
    session and for every text sent as [laundry_id], whatever fails, the
    committed store ends as it was or with exactly one new complaint of that
    student, 'pending' and without response, its [laundry_id] the stored
    form of the text; when nothing fails it is stored, with the message
    "Complaint submitted successfully!". *)
Theorem submit_complaint_appends (w : World) (student_id : Z)
    (laundry_id description : string)
    (Hsession : user_id (w_session w) = Some student_id) :
  let after := serve integer_affinity (PostSubmitComplaint laundry_id description) w in
  let added :=
    mkStore (students (w_db w)) (laundry (w_db w))
      (complaints (w_db w) ++
       [new_complaint (complaints (w_db w)) student_id (integer_affinity laundry_id)
          description (w_clock w (w_tick w))])
      (notifications (w_db w)) in
  fst after = Response (Redirect ep_student_dashboard)
  /\ (w_db (snd after) = w_db w \/ w_db (snd after) = added)
  /\ (quiet w ->
       w_db (snd after) = added
       /\ w_flashes (snd after)
          = (w_flashes w ++ ["Complaint submitted successfully!"])%list).
Proof.
  intros after added.
  remember (serve integer_affinity (PostSubmitComplaint laundry_id description) w)
    as p eqn:Hp.
  unfold serve, handle, submit_complaint in Hp. unfold_monad. simpl in Hp.
  rewrite Hsession in Hp. simpl in Hp.
  destruct (w_fault w (w_ops w)) as [m1|] eqn:F1; simpl in Hp.
  { subst p after. simpl. split; [reflexivity|]. split; [now left|].
    intros Hq. rewrite Hq in F1. discriminate. }
  destruct (w_fault w (S (w_ops w))) as [m2|] eqn:F2; simpl in Hp.
  { subst p after. simpl. split; [reflexivity|]. split; [now left|].
    intros Hq. rewrite Hq in F2. discriminate. }
  subst p after. simpl. split; [reflexivity|]. split; [now right|].
  intros _. split; reflexivity.
Qed.

(** X19: on the admin dashboard, nothing failing, the complaints listed are
    exactly the complaints whose student and whose bag are both in the store,
    each with them, newest first by date of submission and whatever the search
    query; a complaint whose [laundry_id] is no bag's id is never listed. *)
Theorem admin_dashboard_complaints (w : World) (query : string)
    (Hadmin : is_admin (w_session w) <> None)
    (Hq : quiet w) :
  exists items cs,
    fst (serve integer_affinity (GetAdminDashboard query) w)
      = Response (RenderAdminDashboard items cs query)
    /\ (forall c s l,
          In (c, s, l) cs
          <-> In c (complaints (w_db w))
              /\ In s (students (w_db w)) /\ s_id s = c_student_id c
              /\ In l (laundry (w_db w)) /\ c_laundry_id c = VInt (l_id l))
    /\ newest_first (fun r => c_date_submitted (fst (fst r))) cs
    /\ w_db (snd (serve integer_affinity (GetAdminDashboard query) w)) = w_db w.
Proof.
  remember (serve integer_affinity (GetAdminDashboard query) w) as p eqn:Hp.
  unfold serve, handle, admin_dashboard in Hp. unfold_monad. simpl in Hp.
  destruct (is_admin (w_session w)) as [adm|]; [clear Hadmin|congruence].
  assert (Hcs : forall c s l,
    In (c, s, l) (select_all_complaints (w_db w))
    <-> In c (complaints (w_db w))
        /\ In s (students (w_db w)) /\ s_id s = c_student_id c
        /\ In l (laundry (w_db w)) /\ c_laundry_id c = VInt (l_id l)).
  { intros c s l. unfold select_all_complaints.
    split.
    - intros Hin.
      apply (Permutation_in _ (Permutation_sym (order_by_desc_perm _ _))) in Hin.
      apply in_flat_map in Hin. destruct Hin as (c' & Hc & Hin).
      apply in_flat_map in Hin. destruct Hin as (s' & Hs & Hin).
      apply in_map_iff in Hin. destruct Hin as (l' & Heq & Hl).
      injection Heq as -> -> ->.
      apply filter_In in Hs. destruct Hs as [Hs Hsid]. apply Z.eqb_eq in Hsid.
      apply filter_In in Hl. destruct Hl as [Hl Hlid].
      unfold sqlval_eq_int in Hlid.
      destruct (c_laundry_id c) as [z|t] eqn:Eref; [|discriminate].
      apply Z.eqb_eq in Hlid. subst z. tauto.
    - intros (Hc & Hs & Hsid & Hl & Hlid).
      apply (Permutation_in _ (order_by_desc_perm _ _)).
      apply in_flat_map. exists c. split; [exact Hc|].
      apply in_flat_map. exists s. split.
      + apply filter_In. split; [exact Hs|now apply Z.eqb_eq].
      + apply in_map_iff. exists l. split; [reflexivity|].
        apply filter_In. split; [exact Hl|]. rewrite Hlid. simpl. apply Z.eqb_refl. }
  destruct (String.eqb query ""); run_quiet Hq Hp; subst p; simpl;
    eexists _, _; (split; [reflexivity|]); (split; [exact Hcs|]);
    (split; [apply order_by_desc_sorted|reflexivity]).
Qed.

(** *** The unit of work *)

(** X20: whatever the body does, [get_db_cursor] leaves no transaction
    open; when the body raises, the same exception comes out and the view is
    back at the committed store; when the body returns inside a
    transaction, either its result comes out and what it wrote is committed,
    or the commit fails, the failure comes out and the view is back at the
    committed store. *)
Theorem get_db_cursor_contract {A} (body : M A) (w : World) :
  let w1 := snd (body w) in
  let after := get_db_cursor body w in
  w_in_txn (snd after) = false
  /\ (forall e, fst (body w) = Raise e ->
        fst after = Raise e
        /\ w_db (snd after) = w_db w1 /\ w_view (snd after) = w_db w1)
  /\ (forall a, fst (body w) = Ret a -> w_in_txn w1 = true ->
        (fst after = Ret a
         /\ w_db (snd after) = w_view w1 /\ w_view (snd after) = w_view w1
         /\ w_log (snd after) = (w_log w1 ++ [w_view w1])%list)
        \/ (exists msg, fst after = Raise (OperationalError msg)
            /\ w_db (snd after) = w_db w1 /\ w_view (snd after) = w_db w1
            /\ w_log (snd after) = w_log w1))
  /\ (forall a, fst (body w) = Ret a -> w_in_txn w1 = false ->
        fst after = Ret a /\ snd after = w1).
Proof.
  intros w1 after. subst w1 after. unfold get_db_cursor.
  destruct (body w) as [[a|e] w1]; simpl.
  - unfold commit, next_fault.
    destruct (w_in_txn w1) eqn:Et; simpl.
    + destruct (w_fault w1 (w_ops w1)) as [msg|]; simpl.
      * split; [reflexivity|]. split; [discriminate|]. split; [|discriminate].
        intros a' _ _. right. exists msg. repeat split.
      * split; [reflexivity|]. split; [discriminate|]. split; [|discriminate].
        intros a' [= <-] _. left. repeat split.
    + split; [exact Et|]. split; [discriminate|]. split; [discriminate|].
      intros a' [= <-] _. split; reflexivity.
  - split; [reflexivity|]. split; [|split; discriminate].
    intros e' [= <-]. repeat split.
Qed.

(** X21: [count_active_laundry] ends with a commit: called while the
    connection has a transaction open and nothing fails, it returns the count
    over the connection's view and makes the pending writes durable. *)
Theorem count_active_laundry_commits_pending (w : World) (student_id : Z)
    (Hpending : w_in_txn w = true)
    (Hselect : w_fault w (w_ops w) = None)
    (Hcommit : w_fault w (S (w_ops w)) = None) :
  let after := count_active_laundry student_id w in
  fst after = Ret (Z.of_nat (active_bags student_id (laundry (w_view w))))
  /\ w_db (snd after) = w_view w
  /\ w_view (snd after) = w_view w
  /\ w_in_txn (snd after) = false
  /\ w_log (snd after) = (w_log w ++ [w_view w])%list.
Proof.
  intros after. subst after. unfold_monad. simpl. rewrite Hselect. simpl.
  rewrite active_filter_length, Hpending, Hcommit. simpl.
  repeat split.
Qed.

(** *** Rows stay *)

Lemma prefix_of_refl {A} (l : list A) : prefix_of l l.
Proof. exists []. now rewrite app_nil_r. Qed.

Lemma prefix_of_trans {A} (a b c : list A) :
  prefix_of a b -> prefix_of b c -> prefix_of a c.
Proof. intros [x ->] [y ->]. exists (x ++ y)%list. now rewrite app_assoc. Qed.

Lemma prefix_of_snoc {A B} (f : A -> B) (l : list A) (x : A) :
  prefix_of (map f l) (map f (l ++ [x])).
Proof. exists [f x]. now rewrite map_app. Qed.

Lemma prefix_of_rewritten {A B} (f : A -> B) (g : A -> A) (l : list A) :
  (forall x, f (g x) = f x) -> prefix_of (map f l) (map f (map g l)).
Proof.
  intros Hfg. rewrite map_map. rewrite (map_ext _ f Hfg). apply prefix_of_refl.
Qed.

Lemma extends_refl (st : Store) : extends st st.
Proof. repeat split; apply prefix_of_refl. Qed.

Lemma extends_trans (a b c : Store) : extends a b -> extends b c -> extends a c.
Proof.
  intros (H1 & H2 & H3 & H4) (K1 & K2 & K3 & K4).
  repeat split; eapply prefix_of_trans; eassumption.
Qed.

#[local] Instance remembers_stable (base : Store) : Stable (remembers base).
Proof. split; intros w; intros; unfold remembers in *; simpl; tauto. Qed.

#[local] Instance remembers_session_free (base : Store) : SessionFree (remembers base).
Proof. intros w s Hw. exact Hw. Qed.

Lemma appends_keeps (base : Store) (stmt : Store -> exn + Store) :
  appends stmt -> keeps_statement (remembers base) stmt.
Proof.
  intros Hs w st' [Hdb Hview] E. split; [exact Hdb|].
  eapply extends_trans; [exact Hview|now apply Hs].
Qed.

Lemma insert_student_appends (full_name password room_number gender : string) :
  appends (insert_student full_name password room_number gender).
Proof.
  intros st st'. unfold insert_student. destruct (existsb _ _); [discriminate|].
  intros [= <-]. unfold extends. simpl.
  repeat split; try apply prefix_of_refl. now eexists.
Qed.

Lemma insert_laundry_appends (student_id : Z) (now : Timestamp) :
  appends (insert_laundry student_id now).
Proof.
  intros st st' [= <-]. unfold extends. simpl.
  repeat split; try apply prefix_of_refl. apply prefix_of_snoc.
Qed.

Lemma insert_complaint_appends (student_id : Z) (laundry_id description : string)
    (now : Timestamp) :
  appends (insert_complaint integer_affinity student_id laundry_id description now).
Proof.
  intros st st' [= <-]. unfold extends. simpl.
  repeat split; try apply prefix_of_refl. apply prefix_of_snoc.
Qed.

Lemma insert_notification_appends (student_id : Z) (message : string) (now : Timestamp) :
  appends (insert_notification student_id message now).
Proof.
  intros st st' [= <-]. unfold extends. simpl.
  repeat split; try apply prefix_of_refl. apply prefix_of_snoc.
Qed.

Lemma update_notification_read_appends (notification_id : Z) :
  appends (update_notification_read notification_id).
Proof.
  intros st st' [= <-]. unfold extends. simpl.
  repeat split; try apply prefix_of_refl.
  apply prefix_of_rewritten. intros n. now destruct (n_id n =? notification_id).
Qed.

Lemma update_laundry_status_appends (new_status : string) (laundry_id : Z) :
  appends (update_laundry_status new_status laundry_id).
Proof.
  intros st st' [= <-]. unfold extends. simpl.
  repeat split; try apply prefix_of_refl.
  apply prefix_of_rewritten. intros l. now destruct (l_id l =? laundry_id).
Qed.

Lemma update_complaint_resolved_appends (response : string) (now : Timestamp)
    (complaint_id : Z) :
  appends (update_complaint_resolved response now complaint_id).
Proof.
  intros st st' [= <-]. unfold extends. simpl.
  repeat split; try apply prefix_of_refl.
  apply prefix_of_rewritten. intros c. now destruct (c_id c =? complaint_id).
Qed.

#[local] Hint Resolve appends_keeps insert_student_appends insert_laundry_appends
  insert_complaint_appends insert_notification_appends
  update_notification_read_appends update_laundry_status_appends
  update_complaint_resolved_appends : kept.

Lemma handle_remembers (base : Store) (r : Request) :
  preserves (remembers base) (handle integer_affinity r).
Proof.
  destruct r; simpl;
    unfold home, login, register, student_dashboard, submit_laundry,
      submit_complaint, mark_notification_read, admin_dashboard, update_status,
      resolve_complaint, logout, create_notification;
    walk.
Qed.

(** X22: no request deletes, moves or replaces a row, whatever fails: after
    any request every table begins with the rows it had, the student rows
    unchanged, each bag with its id, owner and date of submission, each
    complaint with its id, student, bag reference, description and date, each
    notification with its id, recipient, message and date. *)
Theorem serve_extends (r : Request) (w : World) :
  extends (w_db w) (w_db (snd (serve integer_affinity r w))).
Proof.
  assert (H0 : remembers (w_db w) (get_db w)) by (split; apply extends_refl).
  apply (@handle_remembers (w_db w) r) in H0. unfold serve.
  destruct (handle integer_affinity r (get_db w)) as [[resp|e] w1];
    destruct H0 as [Hdb _]; exact Hdb.
Qed.

(** *** Ids stay unique *)

#[local] Instance keyed_stable : Stable keyed.
Proof. split; intros w; intros; unfold keyed in *; simpl; tauto. Qed.

#[local] Instance keyed_session_free : SessionFree keyed.
Proof. intros w s Hw. exact Hw. Qed.

Lemma keeps_keys_keeps (stmt : Store -> exn + Store) :
  keeps_keys stmt -> keeps_statement keyed stmt.
Proof.
  intros Hs w st' [Hdb Hview] E. split; [exact Hdb|]. now apply (Hs _ _ E).
Qed.

Lemma same_ids_rewritten {A} (key : A -> Z) (g : A -> A) (l : list A) :
  (forall x, key (g x) = key x) -> map key (map g l) = map key l.
Proof. intros Hg. rewrite map_map. now apply map_ext. Qed.

Lemma insert_student_keeps_keys (full_name password room_number gender : string) :
  keeps_keys (insert_student full_name password room_number gender).
Proof.
  intros st st'. unfold insert_student. destruct (existsb _ _); [discriminate|].
  intros [= <-] H. exact H.
Qed.

Lemma insert_laundry_keeps_keys (student_id : Z) (now : Timestamp) :
  keeps_keys (insert_laundry student_id now).
Proof.
  intros st st' [= <-] (Hl & Hc & Hn). unfold keys_unique. simpl.
  repeat split; try assumption.
  rewrite map_app. apply NoDup_snoc; [exact Hl|apply next_rowid_fresh].
Qed.

Lemma insert_complaint_keeps_keys (student_id : Z) (laundry_id description : string)
    (now : Timestamp) :
  keeps_keys (insert_complaint integer_affinity student_id laundry_id description now).
Proof.
  intros st st' [= <-] (Hl & Hc & Hn). unfold keys_unique. simpl.
  repeat split; try assumption.
  rewrite map_app. apply NoDup_snoc; [exact Hc|apply next_rowid_fresh].
Qed.

Lemma insert_notification_keeps_keys (student_id : Z) (message : string)
    (now : Timestamp) :
  keeps_keys (insert_notification student_id message now).
Proof.
  intros st st' [= <-] (Hl & Hc & Hn). unfold keys_unique. simpl.
  repeat split; try assumption.
  rewrite map_app. apply NoDup_snoc; [exact Hn|apply next_rowid_fresh].
Qed.

Lemma update_notification_read_keeps_keys (notification_id : Z) :
  keeps_keys (update_notification_read notification_id).
Proof.
  intros st st' [= <-] (Hl & Hc & Hn). unfold keys_unique. simpl.
  repeat split; try assumption.
  rewrite same_ids_rewritten; [exact Hn|].
  intros n. now destruct (n_id n =? notification_id).
Qed.

Lemma update_laundry_status_keeps_keys (new_status : string) (laundry_id : Z) :
  keeps_keys (update_laundry_status new_status laundry_id).
Proof.
  intros st st' [= <-] (Hl & Hc & Hn). unfold keys_unique. simpl.
  repeat split; try assumption.
  rewrite same_ids_rewritten; [exact Hl|].
  intros l. now destruct (l_id l =? laundry_id).
Qed.

Lemma update_complaint_resolved_keeps_keys (response : string) (now : Timestamp)
    (complaint_id : Z) :
  keeps_keys (update_complaint_resolved response now complaint_id).
Proof.
  intros st st' [= <-] (Hl & Hc & Hn). unfold keys_unique. simpl.
  repeat split; try assumption.
  rewrite same_ids_rewritten; [exact Hc|].
  intros c. now destruct (c_id c =? complaint_id).
Qed.

#[local] Hint Resolve keeps_keys_keeps insert_student_keeps_keys
  insert_laundry_keeps_keys insert_complaint_keeps_keys
  insert_notification_keeps_keys update_notification_read_keeps_keys
  update_laundry_status_keeps_keys update_complaint_resolved_keeps_keys : kept.

Lemma handle_keyed (r : Request) : preserves keyed (handle integer_affinity r).
Proof.
  destruct r; simpl;
    unfold home, login, register, student_dashboard, submit_laundry,
      submit_complaint, mark_notification_read, admin_dashboard, update_status,
      resolve_complaint, logout, create_notification;
    walk.
Qed.

(** X23: the ids that the store gives to new bags, complaints and
    notifications are fresh: when the ids of each of the three tables are
    those of different rows, they still are after any request, whatever
    fails. *)
Theorem serve_keeps_keys_unique (r : Request) (w : World)
    (Hkeys : keys_unique (w_db w)) :
  keys_unique (w_db (snd (serve integer_affinity r w))).
Proof.
  assert (H0 : keyed (get_db w)) by (split; exact Hkeys).
  apply (handle_keyed r) in H0. unfold serve.
  destruct (handle integer_affinity r (get_db w)) as [[resp|e] w1];
    destruct H0 as [Hdb _]; exact Hdb.
Qed.

(** X24: the constraints the schema declares or the handlers rely on hold
    from one request to the next, whatever fails: if student ids and full
    names are unique, every bag has its owner among the students and the
    student of the session is in the store, the same is true after any
    request. *)
Theorem requests_keep_schema (r : Request) (w : World)
    (Hw : well_formed w) :
  well_formed (snd (serve integer_affinity r w)).
Proof.
  assert (Hlogin : (exists n p, r = PostLogin n p) \/ forall n p, r <> PostLogin n p).
  { destruct r; try (right; discriminate). left. eauto. }
  destruct Hlogin as [(n & p & ->)|Hr]; [now apply login_keeps_well_formed|].
  assert (H0 : ok (get_db w)) by (destruct Hw; unfold ok; simpl; tauto).
  apply (handle_keeps_ok Hr) in H0. unfold serve.
  destruct (handle integer_affinity r (get_db w)) as [[resp|e] w1];
    destruct H0 as (Hdb & _ & Hsdb & _); now split.
Qed.

End Correctness.

(** ** The theorems at work on the small campus *)

Lemma campus_world_quiet (s : Session) : quiet (campus_world s).
Proof. intros k. reflexivity. Defined.

Lemma submit_laundry_limit_exceeded_witness :
  user_id (w_session (campus_world as_alice)) = Some 1
  /\ (2 <= active_bags 1 (laundry (w_db (campus_world as_alice))))%nat
  /\ fst (serve decimal_affinity PostSubmitLaundry (campus_world as_alice))
     = Response (Redirect ep_student_dashboard)
  /\ w_db (snd (serve decimal_affinity PostSubmitLaundry (campus_world as_alice)))
     = campus.
Proof.
  assert (Hactive : (2 <= active_bags 1 (laundry (w_db (campus_world as_alice))))%nat)
    by (vm_compute; lia).
  split; [reflexivity|]. split; [exact Hactive|].
  destruct (@submit_laundry_limit_exceeded decimal_affinity (campus_world as_alice) 1
              eq_refl eq_refl Hactive) as (Hout & _ & Hdb & _).
  split; [exact Hout|exact Hdb].
Defined.

Lemma update_status_complete_atomic_witness :
  is_admin (w_session (campus_world as_admin)) <> None
  /\ find (fun l => l_id l =? 1) (laundry (w_db (campus_world as_admin))) = Some bag1
  /\ w_db (snd (serve decimal_affinity (PostUpdateStatus 1 "complete")
                  (campus_world as_admin)))
     = completed_store campus 1 1 100.
Proof.
  assert (Hadmin : is_admin (w_session (campus_world as_admin)) <> None)
    by discriminate.
  split; [exact Hadmin|]. split; [reflexivity|].
  destruct (@update_status_complete_atomic decimal_affinity (campus_world as_admin)
              1 bag1 Hadmin eq_refl) as (Hdone & _).
  destruct (Hdone (campus_world_quiet as_admin)) as (_ & Hdb & _).
  exact Hdb.
Defined.

Lemma count_active_laundry_counts_witness :
  w_fault (campus_world as_alice) (w_ops (campus_world as_alice)) = None
  /\ fst (count_active_laundry 1 (get_db (campus_world as_alice))) = Ret 2.
Proof.
  split; [reflexivity|].
  exact (proj1 (@count_active_laundry_counts (campus_world as_alice) 1 eq_refl)).
Defined.

(** C4 as stated fails: on the campus, where no bag has id 99, the
    administrator's update_status of bag 99 to 'complete' ends in a fault, the
    TypeError of subscripting the missing owner row, which no handler
    catches; and to 'washing' it flashes the success message. *)
Lemma update_status_missing_counterexample :
  fst (serve decimal_affinity (PostUpdateStatus 99 "complete") (campus_world as_admin))
    = Fault (TypeError "'NoneType' object is not subscriptable")
  /\ ~ reports_not_found decimal_affinity (campus_world as_admin) 99 "complete"
  /\ ~ reports_not_found decimal_affinity (campus_world as_admin) 99 "washing".
Proof.
  split; [reflexivity|]. split.
  - intros [(r & msg & Hr & _) _]. vm_compute in Hr. discriminate Hr.
  - intros [(r & msg & _ & Hfl & Hne) _]. vm_compute in Hfl.
    injection Hfl as Hmsg. apply Hne. rewrite <- Hmsg. reflexivity.
Qed.

Lemma update_status_missing_id_witness :
  is_admin (w_session (campus_world as_admin)) <> None
  /\ find (fun l => l_id l =? 99) (laundry (w_db (campus_world as_admin))) = None
  /\ w_db (snd (serve decimal_affinity (PostUpdateStatus 99 "washing")
                  (campus_world as_admin))) = campus
  /\ w_flashes (snd (serve decimal_affinity (PostUpdateStatus 99 "washing")
                       (campus_world as_admin)))
     = ["Status updated to washing!"].
Proof.
  assert (Hadmin : is_admin (w_session (campus_world as_admin)) <> None)
    by discriminate.
  assert (Hstatus : "washing" <> "complete") by discriminate.
  split; [exact Hadmin|]. split; [reflexivity|].
  destruct (@update_status_missing_id decimal_affinity (campus_world as_admin)
              99 "washing" Hadmin eq_refl) as (Hdb & Hflash).
  split; [exact Hdb|].
  exact (proj2 (Hflash Hstatus (campus_world_quiet as_admin))).
Defined.

Lemma register_duplicate_name_witness :
  quiet (campus_world anonymous)
  /\ NoDup (map s_full_name (students (w_db (campus_world anonymous))))
  /\ rows_named "carol"
       (w_db (snd (serve decimal_affinity (PostRegister "carol" "other" "202" "F")
                     (snd (serve decimal_affinity (PostRegister "carol" "pw" "201" "F")
                             (campus_world anonymous))))))
     = 1%nat.
Proof.
  assert (Hunique : NoDup (map s_full_name (students (w_db (campus_world anonymous))))).
  { simpl. repeat constructor; simpl; intuition discriminate. }
  split; [apply campus_world_quiet|]. split; [exact Hunique|].
  destruct (@register_duplicate_name decimal_affinity (campus_world anonymous)
              "carol" "pw" "201" "F" "other" "202" "F"
              (campus_world_quiet anonymous) Hunique) as (_ & _ & _ & Hone).
  exact Hone.
Defined.

Lemma resolve_complaint_twice_witness :
  is_admin (w_session (campus_world as_admin)) <> None
  /\ find (fun c => c_id c =? 1) (complaints (w_db (campus_world as_admin)))
     = Some complaint1
  /\ quiet (campus_world as_admin)
  /\ find (fun c => c_id c =? 1)
       (complaints
          (w_db (snd (serve decimal_affinity (PostResolveComplaint 1 "refunded")
                        (snd (serve decimal_affinity (PostResolveComplaint 1 "found it")
                                (campus_world as_admin)))))))
     = Some (mkComplaint 1 1 (VInt 1) "a sock is missing" "resolved" 40
               (Some "refunded") (Some 102)).
Proof.
  assert (Hadmin : is_admin (w_session (campus_world as_admin)) <> None)
    by discriminate.
  split; [exact Hadmin|]. split; [reflexivity|].
  split; [apply campus_world_quiet|].
  exact (proj2 (@resolve_complaint_twice decimal_affinity (campus_world as_admin)
                  1 complaint1 "found it" "refunded" Hadmin eq_refl
                  (campus_world_quiet as_admin))).
Defined.

Lemma unauthenticated_redirects_to_login_witness :
  (student_only PostSubmitLaundry = true
   /\ user_id (w_session (campus_world as_admin)) = None)
  /\ fst (serve decimal_affinity PostSubmitLaundry (campus_world as_admin))
     = Response (Redirect ep_login)
  /\ w_db (snd (serve decimal_affinity PostSubmitLaundry (campus_world as_admin)))
     = campus.
Proof.
  assert (Hgate : student_only PostSubmitLaundry = true
                  /\ user_id (w_session (campus_world as_admin)) = None)
    by (split; reflexivity).
  split; [exact Hgate|].
  destruct (@unauthenticated_redirects_to_login decimal_affinity PostSubmitLaundry
              (campus_world as_admin) (or_introl Hgate)) as (Hout & Hdb & _).
  split; [exact Hout|exact Hdb].
Defined.

(** C9 as stated fails: on the campus the query "_" lists bob's bag 3 (and
    every other bag), though "bob" does not contain "_". *)
Lemma admin_search_wildcard_counterexample :
  ~ search_is_substring_filter decimal_affinity (campus_world as_admin) "_".
Proof.
  intros H. unfold search_is_substring_filter in H.
  remember (fst (serve decimal_affinity (GetAdminDashboard "_") (campus_world as_admin)))
    as o eqn:Ho.
  vm_compute in Ho.
  specialize (H _ _ Ho bag3 bob).
  assert (Hin : contains_ci "_" (s_full_name bob)).
  { apply H. vm_compute. tauto. }
  apply contains_cib_spec in Hin. vm_compute in Hin. discriminate Hin.
Qed.

(** The scenario of the specification: the query "ali" over the students
    alice and bob lists alice's bags only, newest first. *)
Lemma admin_dashboard_search_witness :
  is_admin (w_session (campus_world as_admin)) <> None
  /\ quiet (campus_world as_admin)
  /\ "ali" <> ""
  /\ wildcard_free "ali" = true
  /\ search_is_substring_filter decimal_affinity (campus_world as_admin) "ali"
  /\ fst (serve decimal_affinity (GetAdminDashboard "ali") (campus_world as_admin))
     = Response (RenderAdminDashboard [(bag2, alice); (bag1, alice); (bag4, alice)]
                   [(complaint1, alice, bag1)] "ali").
Proof.
  assert (Hadmin : is_admin (w_session (campus_world as_admin)) <> None)
    by discriminate.
  assert (Hne : "ali" <> "") by discriminate.
  split; [exact Hadmin|]. split; [apply campus_world_quiet|].
  split; [exact Hne|]. split; [reflexivity|].
  destruct (@admin_dashboard_search decimal_affinity (campus_world as_admin) "ali"
              Hadmin (campus_world_quiet as_admin))
    as (items & cs & _ & _ & _ & Hsearch).
  split; [exact (proj2 (Hsearch Hne eq_refl))|reflexivity].
Defined.

Lemma login_grants_witness :
  ~ is_sentinel "alice" "wonderland"
  /\ w_fault (campus_world anonymous) (w_ops (campus_world anonymous)) = None
  /\ fst (serve decimal_affinity (PostLogin "alice" "wonderland") (campus_world anonymous))
     = Response (Redirect ep_student_dashboard)
  /\ w_session (snd (serve decimal_affinity (PostLogin "admin" "admin123")
                       (campus_world as_alice)))
     = mkSession (Some 1) (Some true).
Proof.
  assert (Hns : ~ is_sentinel "alice" "wonderland")
    by (intros [Hname _]; discriminate Hname).
  split; [exact Hns|]. split; [reflexivity|]. split.
  - destruct (@login_grants decimal_affinity (campus_world anonymous)
                "alice" "wonderland") as (_ & _ & Hother).
    destruct (proj2 (Hother Hns) eq_refl) as (Hfound & _).
    apply Hfound. exists alice. split; [now left|now split].
  - destruct (@login_grants decimal_affinity (campus_world as_alice)
                "admin" "admin123") as (_ & Hadmin & _).
    exact (proj1 (Hadmin (conj eq_refl eq_refl))).
Defined.

Lemma is_read_only_by_mark_notification_read_witness :
  (forall k, PostUpdateStatus 1 "complete" <> GetMarkNotificationRead k)
  /\ In seen (notifications
                (w_db (snd (serve decimal_affinity (PostUpdateStatus 1 "complete")
                              (notified_world as_admin)))))
  /\ n_is_read seen = true
  /\ In seen (notifications (w_db (notified_world as_admin))).
Proof.
  assert (Hr : forall k, PostUpdateStatus 1 "complete" <> GetMarkNotificationRead k)
    by (intros k; discriminate).
  assert (Hin : In seen (notifications
                  (w_db (snd (serve decimal_affinity (PostUpdateStatus 1 "complete")
                                (notified_world as_admin))))))
    by (vm_compute; tauto).
  split; [exact Hr|]. split; [exact Hin|]. split; [reflexivity|].
  exact (proj2 (@is_read_only_by_mark_notification_read decimal_affinity)
           (PostUpdateStatus 1 "complete") (notified_world as_admin) seen
           Hr Hin eq_refl).
Defined.

(** The campus satisfies the constraints of the schema, and still does after
    alice submits a bag. *)
Lemma campus_well_formed : well_formed (campus_world as_alice).
Proof.
  unfold well_formed, ok_store, owners_known, ok_session. simpl.
  repeat split.
  - repeat constructor; simpl; intuition discriminate.
  - intros l Hl. simpl in Hl. intuition (subst; simpl; tauto).
  - repeat constructor; simpl; intuition discriminate.
  - intros u [= <-]. now left.
Qed.

Lemma campus_stays_well_formed :
  well_formed (snd (serve decimal_affinity PostSubmitLaundry (campus_world as_alice))).
Proof. apply serve_keeps_well_formed, campus_well_formed. Qed.

(** ** The schema at start-up *)

Lemma create_if_not_exists_keeps {A} (t : option (list A)) (rows : list A) :
  t = Some rows -> create_if_not_exists t = Some rows.
Proof. intros ->. reflexivity. Qed.

Lemma create_if_not_exists_twice {A} (t : option (list A)) :
  create_if_not_exists (create_if_not_exists t) = create_if_not_exists t.
Proof. now destruct t. Qed.

(** X25: [init_db] loses nothing, whichever of its statements fails: every
    table that was in the file is there afterwards with the same rows; when
    it returns, the four tables are there and nothing was printed; when it
    raises, the line "Error initializing database: <message>" was printed and
    the exception goes on to the caller. *)
Theorem init_db_keeps_rows (s : Startup) :
  let after := init_db s in
  keeps_tables (su_file s) (su_file (snd after))
  /\ (fst after = Ret tt ->
        su_printed (snd after) = su_printed s
        /\ exists st, tables (su_file (snd after)) = Some st)
  /\ (forall e, fst after = Raise e ->
        su_printed (snd after)
        = (su_printed s ++ ["Error initializing database: " ++ str e]%string)%list).
Proof.
  intros after. subst after. unfold init_db, and_then, execute_ddl, keeps_tables.
  destruct s as [[ts tl tc tn] printed ops fault]. simpl.
  destruct (fault ops) as [m1|]; simpl.
  { repeat split; try discriminate; try tauto. now intros e [= <-]. }
  destruct (fault (S ops)) as [m2|]; simpl.
  { repeat split; try discriminate; try tauto;
      try (intros rows; apply create_if_not_exists_keeps).
    now intros e [= <-]. }
  destruct (fault (S (S ops))) as [m3|]; simpl.
  { repeat split; try discriminate; try tauto;
      try (intros rows; apply create_if_not_exists_keeps).
    now intros e [= <-]. }
  destruct (fault (S (S (S ops)))) as [m4|]; simpl.
  { repeat split; try discriminate; try tauto;
      try (intros rows; apply create_if_not_exists_keeps).
    now intros e [= <-]. }
  repeat split; try discriminate;
    try (intros rows; apply create_if_not_exists_keeps).
  destruct ts, tl, tc, tn; eexists; reflexivity.
Qed.

(** X26: [init_db] may run at every start: when no statement fails, on a
    file that already has the four tables it changes nothing, so the store
    of the handlers is the one that was there, and run a second time it
    leaves the file as the first run left it. *)
Theorem init_db_idempotent (s : Startup)
    (Hq : forall k, su_fault s k = None) :
  let once := init_db s in
  let twice := init_db (snd once) in
  fst once = Ret tt
  /\ fst twice = Ret tt
  /\ su_file (snd twice) = su_file (snd once)
  /\ (forall st, tables (su_file s) = Some st -> su_file (snd once) = su_file s).
Proof.
  intros once twice. subst twice once.
  unfold init_db, and_then, execute_ddl.
  destruct s as [[ts tl tc tn] printed ops fault]. simpl in *.
  repeat (rewrite ?Hq; simpl).
  unfold create_students, create_laundry, create_complaints, create_notifications.
  simpl. rewrite !create_if_not_exists_twice.
  repeat split.
  intros st Hst. unfold tables in Hst. simpl in Hst.
  destruct ts, tl, tc, tn; try discriminate. reflexivity.
Qed.

(** ** The further theorems at work on the small campus *)

Lemma submit_laundry_accepts_witness :
  user_id (w_session (campus_world as_bob)) = Some 2
  /\ quiet (campus_world as_bob)
  /\ (active_bags 2 (laundry (w_db (campus_world as_bob))) < 2)%nat
  /\ active_bags 2
       (laundry (w_db (snd (serve decimal_affinity PostSubmitLaundry
                              (campus_world as_bob)))))
     = 1%nat.
Proof.
  assert (Hroom : (active_bags 2 (laundry (w_db (campus_world as_bob))) < 2)%nat)
    by (vm_compute; lia).
  split; [reflexivity|]. split; [apply campus_world_quiet|]. split; [exact Hroom|].
  destruct (@submit_laundry_accepts decimal_affinity (campus_world as_bob) 2 eq_refl
              (campus_world_quiet as_bob) Hroom) as (_ & _ & _ & Hone).
  exact Hone.
Defined.

Lemma submit_laundry_all_or_nothing_witness :
  user_id (w_session (campus_world as_bob)) = Some 2
  /\ (w_db (snd (serve decimal_affinity PostSubmitLaundry (campus_world as_bob)))
      = campus
      \/ w_db (snd (serve decimal_affinity PostSubmitLaundry (campus_world as_bob)))
         = with_new_bag campus 2 100).
Proof.
  split; [reflexivity|].
  destruct (@submit_laundry_all_or_nothing decimal_affinity (campus_world as_bob) 2
              eq_refl) as [[Hdb _]|(_ & Hdb & _)]; [left|right]; exact Hdb.
Defined.

Lemma submit_laundry_commit_fails_witness :
  user_id (w_session (campus_failing_at 2 "disk full" as_bob)) = Some 2
  /\ (active_bags 2 (laundry (w_db (campus_failing_at 2 "disk full" as_bob))) < 2)%nat
  /\ w_fault (campus_failing_at 2 "disk full" as_bob) 0 = None
  /\ w_fault (campus_failing_at 2 "disk full" as_bob) 1 = None
  /\ w_fault (campus_failing_at 2 "disk full" as_bob) 2 = Some "disk full"
  /\ w_flashes (snd (serve decimal_affinity PostSubmitLaundry
                       (campus_failing_at 2 "disk full" as_bob)))
     = ["Laundry submitted successfully!"; "Error submitting laundry: disk full"]
  /\ w_db (snd (serve decimal_affinity PostSubmitLaundry
                  (campus_failing_at 2 "disk full" as_bob)))
     = campus.
Proof.
  assert (Hroom : (active_bags 2
                     (laundry (w_db (campus_failing_at 2 "disk full" as_bob))) < 2)%nat)
    by (vm_compute; lia).
  split; [reflexivity|]. split; [exact Hroom|]. do 3 (split; [reflexivity|]).
  destruct (@submit_laundry_commit_fails decimal_affinity
              (campus_failing_at 2 "disk full" as_bob) 2 "disk full"
              eq_refl Hroom eq_refl eq_refl eq_refl) as (_ & Hfl & Hdb).
  split; [exact Hfl|exact Hdb].
Defined.

Lemma submit_times_reaches_cap_witness :
  user_id (w_session (campus_world as_bob)) = Some 2
  /\ quiet (campus_world as_bob)
  /\ (active_bags 2 (laundry (w_db (campus_world as_bob))) <= 2)%nat
  /\ active_bags 2
       (laundry (w_db (submit_times decimal_affinity 3 (campus_world as_bob))))
     = 2%nat.
Proof.
  assert (Hcap : (active_bags 2 (laundry (w_db (campus_world as_bob))) <= 2)%nat)
    by (vm_compute; lia).
  split; [reflexivity|]. split; [apply campus_world_quiet|]. split; [exact Hcap|].
  exact (@submit_times_reaches_cap decimal_affinity 3 (campus_world as_bob) 2 eq_refl
           (campus_world_quiet as_bob) Hcap).
Defined.

Lemma update_status_complete_missing_faults_witness :
  is_admin (w_session (campus_world as_admin)) <> None
  /\ find (fun l => l_id l =? 99) (laundry (w_db (campus_world as_admin))) = None
  /\ w_fault (campus_world as_admin) 0 = None
  /\ w_fault (campus_world as_admin) 1 = None
  /\ fst (serve decimal_affinity (PostUpdateStatus 99 "complete") (campus_world as_admin))
     = Fault subscript_error.
Proof.
  assert (Hadmin : is_admin (w_session (campus_world as_admin)) <> None)
    by discriminate.
  split; [exact Hadmin|]. do 3 (split; [reflexivity|]).
  exact (proj1 (@update_status_complete_missing_faults decimal_affinity
                  (campus_world as_admin) 99 Hadmin eq_refl eq_refl eq_refl)).
Defined.

Lemma resolve_complaint_missing_faults_witness :
  is_admin (w_session (campus_world as_admin)) <> None
  /\ find (fun c => c_id c =? 99) (complaints (w_db (campus_world as_admin))) = None
  /\ w_fault (campus_world as_admin) 0 = None
  /\ w_fault (campus_world as_admin) 1 = None
  /\ fst (serve decimal_affinity (PostResolveComplaint 99 "done") (campus_world as_admin))
     = Fault subscript_error.
Proof.
  assert (Hadmin : is_admin (w_session (campus_world as_admin)) <> None)
    by discriminate.
  split; [exact Hadmin|]. do 3 (split; [reflexivity|]).
  exact (proj1 (@resolve_complaint_missing_faults decimal_affinity
                  (campus_world as_admin) 99 "done" Hadmin eq_refl eq_refl eq_refl)).
Defined.

Lemma resolve_complaint_atomic_witness :
  is_admin (w_session (campus_failing_at 2 "disk full" as_admin)) <> None
  /\ find (fun c => c_id c =? 1)
       (complaints (w_db (campus_failing_at 2 "disk full" as_admin)))
     = Some complaint1
  /\ (w_db (snd (serve decimal_affinity (PostResolveComplaint 1 "found it")
                   (campus_failing_at 2 "disk full" as_admin)))
      = campus
      \/ w_db (snd (serve decimal_affinity (PostResolveComplaint 1 "found it")
                      (campus_failing_at 2 "disk full" as_admin)))
         = resolved_store campus 1 1 "found it" 100 101).
Proof.
  assert (Hadmin : is_admin (w_session (campus_failing_at 2 "disk full" as_admin))
                   <> None) by discriminate.
  split; [exact Hadmin|]. split; [reflexivity|].
  destruct (@resolve_complaint_atomic decimal_affinity
              (campus_failing_at 2 "disk full" as_admin) 1 complaint1 "found it"
              Hadmin eq_refl) as [[Hdb _]|(Hdb & _)]; [left|right]; exact Hdb.
Defined.

Lemma update_status_without_notification_witness :
  "washing" <> "complete"
  /\ notifications
       (w_db (snd (serve decimal_affinity (PostUpdateStatus 1 "washing")
                     (campus_world as_admin))))
     = [].
Proof.
  assert (Hstatus : "washing" <> "complete") by discriminate.
  split; [exact Hstatus|].
  exact (proj1 (@update_status_without_notification decimal_affinity
                  (campus_world as_admin) 1 "washing" Hstatus)).
Defined.

(** Alice has two active bags; her completed bag 4 set back to 'pending'
    makes three. *)
Lemma update_status_moves_active_count_witness :
  is_admin (w_session (campus_world as_admin)) <> None
  /\ quiet (campus_world as_admin)
  /\ NoDup (map l_id (laundry (w_db (campus_world as_admin))))
  /\ find (fun l => l_id l =? 4) (laundry (w_db (campus_world as_admin))) = Some bag4
  /\ (active_bags 1
        (laundry (w_db (snd (serve decimal_affinity (PostUpdateStatus 4 "pending")
                               (campus_world as_admin)))))
      + 0 = 2 + 1)%nat.
Proof.
  assert (Hadmin : is_admin (w_session (campus_world as_admin)) <> None)
    by discriminate.
  assert (Hids : NoDup (map l_id (laundry (w_db (campus_world as_admin))))).
  { simpl. repeat constructor; simpl; intuition discriminate. }
  split; [exact Hadmin|]. split; [apply campus_world_quiet|].
  split; [exact Hids|]. split; [reflexivity|].
  exact (@update_status_moves_active_count decimal_affinity (campus_world as_admin)
           4 bag4 "pending" Hadmin (campus_world_quiet as_admin) Hids eq_refl).
Defined.

(** Alice marks bob's notification. *)
Lemma mark_notification_read_marks_witness :
  user_id (w_session (notified_world as_alice)) = Some 1
  /\ quiet (notified_world as_alice)
  /\ notifications
       (w_db (snd (serve decimal_affinity (GetMarkNotificationRead 2)
                     (notified_world as_alice))))
     = [seen; mark_read unseen].
Proof.
  assert (Hq : quiet (notified_world as_alice)) by (intros k; reflexivity).
  split; [reflexivity|]. split; [exact Hq|].
  destruct (@mark_notification_read_marks decimal_affinity (notified_world as_alice)
              2 1 eq_refl Hq) as (_ & _ & Hdb & _).
  exact (f_equal notifications Hdb).
Defined.

Lemma student_dashboard_shows_own_witness :
  user_id (w_session (campus_world as_alice)) = Some 1
  /\ quiet (campus_world as_alice)
  /\ exists bags unread own,
       fst (serve decimal_affinity GetStudentDashboard (campus_world as_alice))
         = Response (RenderStudentDashboard (Some alice) bags unread own)
       /\ newest_first l_date_submitted bags.
Proof.
  split; [reflexivity|]. split; [apply campus_world_quiet|].
  destruct (@student_dashboard_shows_own decimal_affinity (campus_world as_alice) 1
              eq_refl (campus_world_quiet as_alice))
    as (bags & unread & own & Hout & _ & _ & _ & _ & Hsorted & _).
  exists bags, unread, own. split; [exact Hout|exact Hsorted].
Defined.

Lemma marked_notification_leaves_dashboard_witness :
  user_id (w_session (notified_world as_bob)) = Some 2
  /\ quiet (notified_world as_bob)
  /\ exists student bags unread own,
       fst (serve decimal_affinity GetStudentDashboard
              (snd (serve decimal_affinity (GetMarkNotificationRead 2)
                      (notified_world as_bob))))
         = Response (RenderStudentDashboard student bags unread own)
       /\ forall n, In n unread -> n_id n <> 2.
Proof.
  assert (Hq : quiet (notified_world as_bob)) by (intros k; reflexivity).
  split; [reflexivity|]. split; [exact Hq|].
  exact (@marked_notification_leaves_dashboard decimal_affinity (notified_world as_bob)
           2 2 eq_refl Hq).
Defined.

Lemma completion_reaches_owner_witness :
  is_admin (w_session (campus_world as_admin)) <> None
  /\ quiet (campus_world as_admin)
  /\ find (fun l => l_id l =? 1) (laundry (w_db (campus_world as_admin))) = Some bag1
  /\ exists student bags unread own,
       fst (serve decimal_affinity GetStudentDashboard
              (in_session as_alice
                 (snd (serve decimal_affinity (PostUpdateStatus 1 "complete")
                         (campus_world as_admin)))))
         = Response (RenderStudentDashboard student bags unread own)
       /\ In (mkNotification 1 1 "Your laundry is ready for collection!" 100 false)
             unread.
Proof.
  assert (Hadmin : is_admin (w_session (campus_world as_admin)) <> None)
    by discriminate.
  split; [exact Hadmin|]. split; [apply campus_world_quiet|]. split; [reflexivity|].
  exact (@completion_reaches_owner decimal_affinity (campus_world as_admin) 1 bag1
           Hadmin (campus_world_quiet as_admin) eq_refl).
Defined.

Lemma register_then_login_witness :
  quiet (campus_world anonymous)
  /\ name_taken "carol" (w_db (campus_world anonymous)) = false
  /\ ~ is_sentinel "carol" "pw"
  /\ user_id
       (w_session
          (snd (serve decimal_affinity (PostLogin "carol" "pw")
                  (snd (serve decimal_affinity (PostRegister "carol" "pw" "201" "F")
                          (campus_world anonymous))))))
     = Some 3.
Proof.
  assert (Hns : ~ is_sentinel "carol" "pw")
    by (intros [Hname _]; discriminate Hname).
  split; [apply campus_world_quiet|]. split; [reflexivity|]. split; [exact Hns|].
  exact (proj2 (@register_then_login decimal_affinity (campus_world anonymous)
                  "carol" "pw" "201" "F" (campus_world_quiet anonymous) eq_refl Hns)).
Defined.

Lemma logout_locks_out_witness :
  (student_only GetStudentDashboard = true \/ admin_only GetStudentDashboard = true)
  /\ fst (serve decimal_affinity GetStudentDashboard
            (snd (serve decimal_affinity GetLogout (campus_world as_alice))))
     = Response (Redirect ep_login).
Proof.
  assert (Hguarded : student_only GetStudentDashboard = true
                     \/ admin_only GetStudentDashboard = true) by (left; reflexivity).
  split; [exact Hguarded|].
  destruct (@logout_locks_out decimal_affinity (campus_world as_alice)
              GetStudentDashboard Hguarded) as (_ & _ & Hout & _).
  exact Hout.
Defined.

Lemma home_after_admin_login_witness :
  user_id (w_session (campus_world anonymous)) = None
  /\ fst (serve decimal_affinity GetHome
            (snd (serve decimal_affinity (PostLogin "admin" "admin123")
                    (campus_world anonymous))))
     = Response RenderIndex.
Proof.
  split; [reflexivity|].
  exact (proj1 (@home_after_admin_login decimal_affinity (campus_world anonymous))
           eq_refl).
Defined.

(** Alice complains about a bag that does not exist. *)
Lemma submit_complaint_appends_witness :
  user_id (w_session (campus_world as_alice)) = Some 1
  /\ complaints
       (w_db (snd (serve decimal_affinity (PostSubmitComplaint "99" "no such bag")
                     (campus_world as_alice))))
     = [complaint1; mkComplaint 2 1 (VInt 99) "no such bag" "pending" 100 None None].
Proof.
  split; [reflexivity|].
  destruct (@submit_complaint_appends decimal_affinity (campus_world as_alice) 1
              "99" "no such bag" eq_refl) as (_ & _ & Hquiet).
  exact (f_equal complaints (proj1 (Hquiet (campus_world_quiet as_alice)))).
Defined.

Lemma admin_dashboard_complaints_witness :
  is_admin (w_session (campus_world as_admin)) <> None
  /\ quiet (campus_world as_admin)
  /\ exists items cs,
       fst (serve decimal_affinity (GetAdminDashboard "") (campus_world as_admin))
         = Response (RenderAdminDashboard items cs "")
       /\ newest_first (fun r => c_date_submitted (fst (fst r))) cs.
Proof.
  assert (Hadmin : is_admin (w_session (campus_world as_admin)) <> None)
    by discriminate.
  split; [exact Hadmin|]. split; [apply campus_world_quiet|].
  destruct (@admin_dashboard_complaints decimal_affinity (campus_world as_admin) ""
              Hadmin (campus_world_quiet as_admin))
    as (items & cs & Hout & _ & Hsorted & _).
  exists items, cs. split; [exact Hout|exact Hsorted].
Defined.

Lemma count_active_laundry_commits_pending_witness :
  w_in_txn pending_world = true
  /\ w_fault pending_world 0 = None
  /\ w_fault pending_world 1 = None
  /\ fst (count_active_laundry 2 pending_world) = Ret 1
  /\ w_db (snd (count_active_laundry 2 pending_world)) = w_view pending_world.
Proof.
  do 3 (split; [reflexivity|]).
  destruct (@count_active_laundry_commits_pending pending_world 2
              eq_refl eq_refl eq_refl) as (Hout & Hdb & _).
  split; [exact Hout|exact Hdb].
Defined.

Lemma serve_keeps_keys_unique_witness :
  keys_unique (w_db (campus_world as_alice))
  /\ keys_unique (w_db (snd (serve decimal_affinity PostSubmitLaundry
                               (campus_world as_alice)))).
Proof.
  assert (Hkeys : keys_unique (w_db (campus_world as_alice))).
  { unfold keys_unique. simpl.
    repeat split; repeat constructor; simpl; intuition discriminate. }
  split; [exact Hkeys|].
  exact (@serve_keeps_keys_unique decimal_affinity PostSubmitLaundry
           (campus_world as_alice) Hkeys).
Defined.

Lemma requests_keep_schema_witness :
  well_formed (campus_world as_alice)
  /\ well_formed (snd (serve decimal_affinity (PostRegister "carol" "pw" "201" "F")
                         (campus_world as_alice))).
Proof.
  assert (Hw : well_formed (campus_world as_alice)).
  { unfold well_formed, ok_store, owners_known, ok_session. simpl.
    repeat split.
    - repeat constructor; simpl; intuition discriminate.
    - intros l Hl. simpl in Hl. intuition (subst; simpl; tauto).
    - repeat constructor; simpl; intuition discriminate.
    - intros u [= <-]. now left. }
  split; [exact Hw|].
  exact (@requests_keep_schema decimal_affinity (PostRegister "carol" "pw" "201" "F")
           (campus_world as_alice) Hw).
Defined.

Lemma init_db_idempotent_witness :
  (forall k, su_fault first_start k = None)
  /\ su_file (snd (init_db first_start))
     = mkDatabase (Some []) (Some []) (Some []) (Some [])
  /\ su_file (snd (init_db (snd (init_db first_start))))
     = su_file (snd (init_db first_start)).
Proof.
  assert (Hq : forall k, su_fault first_start k = None) by (intros k; reflexivity).
  split; [exact Hq|]. split; [reflexivity|].
  destruct (@init_db_idempotent first_start Hq) as (_ & _ & Hsame & _).
  exact Hsame.
Defined.
